(** * password-finder (pass.py): a shallow embedding and its specification

    The development follows the layout of the program:
    - [Text]     Python [str] operations used by the program;
    - [Re]       the part of Python's [re] module the program relies on:
                 pattern syntax, compilation, the backtracking matcher,
                 [Pattern.match] and [Pattern.findall];
    - [Fnmatch]  shell-style globs ([fnmatch.fnmatch] on POSIX);
    - [Py]       results, exceptions and the log of library calls;
    - the functions of pass.py, under their own names;
    - the properties of the program.

    Characters are Rocq [ascii] values, read as the code points 0..255. *)

From Stdlib Require Import String Ascii List ZArith Lia Bool Arith PeanoNat.
From Stdlib Require Import Sorted DecimalString.
Import ListNotations.

Local Open Scope list_scope.
Local Open Scope string_scope.

Set Implicit Arguments.

(* ------------------------------------------------------------------ *)
(** ** Python strings *)

Module Text.

(** The double quote, the single quote and the newline. *)
Definition dquote : ascii := "034"%char.
Definition squote : ascii := "039"%char.
Definition newline : ascii := "010"%char.

Definition chars (s : string) : list ascii := list_ascii_of_string s.

Definition char_in (c : ascii) (cs : list ascii) : bool :=
  existsb (Ascii.eqb c) cs.

Definition between (lo hi c : ascii) : bool :=
  (Ascii.leb lo c && Ascii.leb c hi)%bool.

Definition is_upper (c : ascii) : bool := between "A" "Z" c.
Definition is_lower (c : ascii) : bool := between "a" "z" c.
Definition is_digit (c : ascii) : bool := between "0" "9" c.
Definition is_alnum (c : ascii) : bool :=
  (is_upper c || is_lower c || is_digit c)%bool.

(** [str.upper] and [str.lower] on ASCII text: the letters [a] to [z] and
    [A] to [Z] change case, every other character is left as it is. Beyond
    ASCII the two functions of Python do more (they change the case of the
    accented letters, and the upper case of some letters is two characters
    or lies above code point 255), which is not modelled: the statements
    that depend on the case of keywords are made for keywords in ASCII. *)
Definition upper_char (c : ascii) : ascii :=
  if is_lower c then ascii_of_nat (nat_of_ascii c - 32) else c.
Definition lower_char (c : ascii) : ascii :=
  if is_upper c then ascii_of_nat (nat_of_ascii c + 32) else c.

Fixpoint map_chars (f : ascii -> ascii) (s : string) : string :=
  match s with
  | EmptyString => EmptyString
  | String c s' => String (f c) (map_chars f s')
  end.

Definition upper : string -> string := map_chars upper_char.
Definition lower : string -> string := map_chars lower_char.

(** Whitespace as [str.strip] sees it, among the code points 0..255. *)
Definition is_space (c : ascii) : bool :=
  let n := nat_of_ascii c in
  (Nat.leb 9 n && Nat.leb n 13 || Nat.leb 28 n && Nat.leb n 32
   || Nat.eqb n 133 || Nat.eqb n 160)%bool.

Fixpoint lstrip (s : string) : string :=
  match s with
  | String c s' => if is_space c then lstrip s' else s
  | EmptyString => EmptyString
  end.

Fixpoint rstrip (s : string) : string :=
  match s with
  | EmptyString => EmptyString
  | String c s' =>
      match rstrip s' with
      | EmptyString => if is_space c then EmptyString else String c EmptyString
      | r => String c r
      end
  end.

(** [str.strip()] *)
Definition strip (s : string) : string := rstrip (lstrip s).

(** [sep.join(parts)] *)
Definition join (sep : string) (parts : list string) : string :=
  String.concat sep parts.

(** [s[:n]] *)
Definition take (n : nat) (s : string) : string := String.substring 0 n s.

(** The carriage return. *)
Definition cr : ascii := "013"%char.

(** The lines a file opened with [open(path, 'r')] yields when iterated,
    from its decoded text. The file is read with universal newlines: a
    line ends at a line feed, at a carriage return, or at a carriage
    return with the line feed that follows it, and each of these is read
    as one newline. Each line keeps that newline; the last one has none
    when the text does not end with a line end. *)
Fixpoint lines_from (cur : string -> string) (s : string) : list string :=
  match s with
  | EmptyString =>
      match cur EmptyString with
      | EmptyString => []
      | l => [l]
      end
  | String c s' =>
      if Ascii.eqb c newline
      then cur (String c EmptyString) :: lines_from (fun t => t) s'
      else if Ascii.eqb c cr
      then
        cur (String newline EmptyString) ::
          match s' with
          | String d s'' =>
              if Ascii.eqb d newline
              then lines_from (fun t => t) s''
              else lines_from (fun t => t) s'
          | EmptyString => lines_from (fun t => t) s'
          end
      else lines_from (fun t => cur (String c t)) s'
  end.

Definition readlines (s : string) : list string := lines_from (fun t => t) s.

End Text.

(* ------------------------------------------------------------------ *)
(** ** Regular expressions *)

Module Re.
Import Text.

(** Compiled patterns.  Quantifiers are greedy; [x?], [x+] and [x{m,n}]
    are expressed with [Branch], [Seq] and [Star] when a pattern is
    compiled. *)
Inductive regex : Type :=
| Empty
| Lit (c : ascii)
| Dot
| CharSet (negate : bool) (items : list (ascii * ascii))
| Seq (a b : regex)
| Branch (a b : regex)
| Star (a : regex)
| Bol
| Eol.

Definition in_item (c : ascii) (it : ascii * ascii) : bool :=
  between (fst it) (snd it) c.

Definition in_set (negate : bool) (items : list (ascii * ascii)) (c : ascii)
  : bool :=
  xorb negate (existsb (in_item c) items).

(** *** Compilation of the pattern syntax *)

Fixpoint take_digits (s : string) : string * string :=
  match s with
  | String c s' =>
      if is_digit c
      then let (d, r) := take_digits s' in (String c d, r)
      else (EmptyString, s)
  | EmptyString => (EmptyString, EmptyString)
  end.

Definition nat_of_digits (d : string) : nat :=
  fold_left (fun n c => 10 * n + (nat_of_ascii c - 48)) (chars d) 0.

(** [{m,n}] after an item: the bounds and the rest of the pattern, or
    [None] when the brace does not open a quantifier (it is then a
    literal brace). *)
Definition parse_bounds (s : string) : option (nat * option nat * string) :=
  match s with
  | String "}" _ => None
  | _ =>
      let (lo, r1) := take_digits s in
      let '(hi, r2, comma) :=
        match r1 with
        | String "," r =>
            let (hi, r2) := take_digits r in (hi, r2, true)
        | _ => (lo, r1, false)
        end in
      match r2 with
      | String "}" r3 =>
          let min := match lo with EmptyString => 0 | _ => nat_of_digits lo end in
          let max := match hi with
                     | EmptyString => None
                     | _ => Some (nat_of_digits hi)
                     end in
          Some (min, max, r3)
      | _ => None
      end
  end.

(** The character after a backslash. Escapes that do not stand for one
    character (classes such as [\d], anchors, back-references) are not
    part of the modelled syntax. *)
Definition escape (c : ascii) : option ascii :=
  if Ascii.eqb c "n" then Some newline
  else if Ascii.eqb c "t" then Some "009"%char
  else if Ascii.eqb c "r" then Some "013"%char
  else if Ascii.eqb c "f" then Some "012"%char
  else if Ascii.eqb c "v" then Some "011"%char
  else if Ascii.eqb c "a" then Some "007"%char
  else if is_alnum c then None
  else Some c.

(** One member of a set: a character or an escape. *)
Definition set_char (s : string) : option (ascii * string) :=
  match s with
  | String c r =>
      if Ascii.eqb c "\"
      then
        match r with
        | String e r' =>
            match escape e with Some x => Some (x, r') | None => None end
        | EmptyString => None
        end
      else Some (c, r)
  | EmptyString => None
  end.

Fixpoint parse_items (fuel : nat) (first : bool) (s : string)
  : option (list (ascii * ascii) * string) :=
  match fuel with
  | O => None
  | S fuel' =>
      match s with
      | EmptyString => None
      | String c r =>
          if (Ascii.eqb c "]" && negb first)%bool then Some ([], r)
          else
            match set_char s with
            | None => None
            | Some (lo, r1) =>
                let single :=
                  match parse_items fuel' false r1 with
                  | Some (its, r') => Some ((lo, lo) :: its, r')
                  | None => None
                  end in
                match r1 with
                | String d (String c2 r2) =>
                    if (Ascii.eqb d "-" && negb (Ascii.eqb c2 "]"))%bool
                    then
                      match set_char (String c2 r2) with
                      | None => None
                      | Some (hi, r3) =>
                          if Ascii.leb lo hi
                          then
                            match parse_items fuel' false r3 with
                            | Some (its, r') => Some ((lo, hi) :: its, r')
                            | None => None
                            end
                          else None
                      end
                    else single
                | _ => single
                end
            end
      end
  end.

(** The text after an opening bracket. *)
Definition parse_set (s : string) : option (regex * string) :=
  let (negate, body) :=
    match s with
    | String c r => if Ascii.eqb c "^" then (true, r) else (false, s)
    | EmptyString => (false, s)
    end in
  match parse_items (S (String.length body)) true body with
  | Some (its, r) => Some (CharSet negate its, r)
  | None => None
  end.

Fixpoint power (n : nat) (r tail : regex) : regex :=
  match n with
  | O => tail
  | S n' => Seq r (power n' r tail)
  end.

Fixpoint upto (n : nat) (r : regex) : regex :=
  match n with
  | O => Empty
  | S n' => Branch (Seq r (upto n' r)) Empty
  end.

Definition repeat (min : nat) (max : option nat) (r : regex) : option regex :=
  match max with
  | None => Some (power min r (Star r))
  | Some m => if Nat.ltb m min then None else Some (power min r (upto (m - min) r))
  end.

Definition is_anchor (r : regex) : bool :=
  match r with Bol | Eol => true | _ => false end.

(** A quantifier after [atom], if there is one. Lazy and possessive
    quantifiers are not part of the modelled syntax, and a quantifier
    after a quantifier is an error. *)
Definition parse_quantifier (atom : regex) (s : string)
  : option (regex * string) :=
  let quantified :=
    match s with
    | String "*" r => Some (Some (Star atom), r)
    | String "+" r => Some (Some (Seq atom (Star atom)), r)
    | String "?" r => Some (Some (Branch atom Empty), r)
    | String "{" r =>
        match parse_bounds r with
        | Some (min, max, r') => Some (repeat min max atom, r')
        | None => None
        end
    | _ => None
    end in
  match quantified with
  | None => Some (atom, s)
  | Some (None, _) => None
  | Some (Some q, r) =>
      if is_anchor atom then None
      else
        match r with
        | String "*" _ | String "+" _ | String "?" _ => None
        | String "{" r' =>
            match parse_bounds r' with
            | Some _ => None
            | None => Some (q, r)
            end
        | _ => Some (q, r)
        end
  end.

Fixpoint parse_alt (fuel : nat) (s : string) {struct fuel}
  : option (regex * string) :=
  match fuel with
  | O => None
  | S fuel' =>
      match parse_seq fuel' s with
      | Some (a, String "|" r) =>
          match parse_alt fuel' r with
          | Some (b, r') => Some (Branch a b, r')
          | None => None
          end
      | other => other
      end
  end

with parse_seq (fuel : nat) (s : string) {struct fuel}
  : option (regex * string) :=
  match fuel with
  | O => None
  | S fuel' =>
      let item (atom : option (regex * string)) :=
        match atom with
        | None => None
        | Some (a, r) =>
            match parse_quantifier a r with
            | None => None
            | Some (q, r') =>
                match parse_seq fuel' r' with
                | Some (rest, r'') => Some (Seq q rest, r'')
                | None => None
                end
            end
        end in
      match s with
      | EmptyString => Some (Empty, s)
      | String "|" _ => Some (Empty, s)
      | String ")" _ => Some (Empty, s)
      | String "(" (String "?" (String ":" r)) =>
          item
            match parse_alt fuel' r with
            | Some (a, String ")" r') => Some (a, r')
            | _ => None
            end
      | String "(" _ => None
      | String "[" r => item (parse_set r)
      | String "." r => item (Some (Dot, r))
      | String "^" r => item (Some (Bol, r))
      | String "$" r => item (Some (Eol, r))
      | String "\" (String c r) =>
          item
            match escape c with
            | Some x => Some (Lit x, r)
            | None => None
            end
      | String "\" EmptyString => None
      | String "*" _ => None
      | String "+" _ => None
      | String "?" _ => None
      | String "{" r =>
          match parse_bounds r with
          | Some _ => None
          | None => item (Some (Lit "{", r))
          end
      | String c r => item (Some (Lit c, r))
      end
  end.

(** [re.compile(pattern)], for the part of the pattern syntax that the
    patterns of the program use: literal characters, the dot, sets,
    groups that do not capture, alternation, the greedy quantifiers, the
    two anchors and escaped characters. [None] stands for [re.error], and
    also for a pattern with other syntax (character classes written with
    a backslash and a letter, capturing groups, lazy and possessive
    quantifiers, flags), which Python compiles: what is stated below of
    compiled patterns is stated of the patterns that compile here. *)
Definition compile (pattern : string) : option regex :=
  match parse_alt (2 * String.length pattern + 4) pattern with
  | Some (r, EmptyString) => Some r
  | _ => None
  end.

(** *** Matching *)

(** The loop of a greedy star: one more repetition of [body] is tried
    first; after a repetition that consumes nothing the loop is left and
    the rest of the pattern is tried at once, as the engine does. [n]
    bounds the number of repetitions that consume something; a text of
    length below [n] never reaches the bound. *)
Fixpoint star_loop {R : Type}
  (body : nat -> string -> (nat -> string -> option R) -> option R)
  (k : nat -> string -> option R) (n : nat) (pos : nat) (s : string)
  {struct n} : option R :=
  match n with
  | O => k pos s
  | S n' =>
      match body pos s
              (fun pos' s' =>
                 if Nat.eqb pos' pos then k pos' s'
                 else star_loop body k n' pos' s') with
      | Some x => Some x
      | None => k pos s
      end
  end.

(** The backtracking matcher. [run r pos s k] matches [r] against [s],
    the text that starts at position [pos] of the subject, and hands the
    position and text after the match to [k]; when [k] refuses, the next
    way of matching is tried, in the order of the engine: the left
    branch first, one more repetition first. *)
Fixpoint run {R : Type} (r : regex) (pos : nat) (s : string)
  (k : nat -> string -> option R) {struct r} : option R :=
  match r with
  | Empty => k pos s
  | Lit c =>
      match s with
      | String c' s' => if Ascii.eqb c c' then k (S pos) s' else None
      | EmptyString => None
      end
  | Dot =>
      match s with
      | String c' s' => if Ascii.eqb c' newline then None else k (S pos) s'
      | EmptyString => None
      end
  | CharSet negate items =>
      match s with
      | String c' s' => if in_set negate items c' then k (S pos) s' else None
      | EmptyString => None
      end
  | Seq a b => run a pos s (fun pos' s' => run b pos' s' k)
  | Branch a b =>
      match run a pos s k with
      | Some x => Some x
      | None => run b pos s k
      end
  | Star a => star_loop (run a) k (S (String.length s)) pos s
  | Bol => if Nat.eqb pos 0 then k pos s else None
  | Eol =>
      match s with
      | EmptyString => k pos s
      | String c EmptyString => if Ascii.eqb c newline then k pos s else None
      | _ => None
      end
  end.

(** The length of the first match of [r] at [pos]; with [must_advance]
    an empty match is refused. *)
Definition attempt (r : regex) (pos : nat) (s : string) (must_advance : bool)
  : option nat :=
  run r pos s
    (fun pos' _ =>
       if (must_advance && Nat.eqb pos' pos)%bool then None else Some (pos' - pos)).

(** [pattern.match(line)]: the text matched at position 0, if any. *)
Definition match_ (pattern : regex) (line : string) : option string :=
  match attempt pattern 0 line false with
  | Some n => Some (take n line)
  | None => None
  end.

(** [pattern.findall(line)] for a pattern without groups: the texts of
    the non-overlapping matches, from left to right. [skip] counts the
    characters of [s] that belong to the match found last. After an empty
    match the same position is tried once more for a match that is not
    empty. *)
Fixpoint findall_from (r : regex) (pos : nat) (s : string) (skip : nat)
  {struct s} : list string :=
  let step (skip' : nat) :=
    match s with
    | String _ s' => findall_from r (S pos) s' skip'
    | EmptyString => []
    end in
  match skip with
  | S skip' => step skip'
  | O =>
      match attempt r pos s false with
      | Some (S n) => take (S n) s :: step n
      | Some O =>
          EmptyString ::
            match attempt r pos s true with
            | Some (S n) => take (S n) s :: step n
            | _ => step 0
            end
      | None => step 0
      end
  end.

Definition findall (pattern : regex) (line : string) : list string :=
  findall_from pattern 0 line 0.

End Re.

(* ------------------------------------------------------------------ *)
(** ** Shell-style globs *)

Module Fnmatch.
Import Text Re.

(** The text up to the closing bracket, and the text after it. *)
Fixpoint until_close (s : string) : option (string * string) :=
  match s with
  | EmptyString => None
  | String c r =>
      if Ascii.eqb c "]" then Some (EmptyString, r)
      else
        match until_close r with
        | Some (a, b) => Some (String c a, b)
        | None => None
        end
  end.

(** The text after an opening bracket: negation, the members and the
    rest of the glob. A closing bracket that comes first is a member.
    [None] when the set is not closed: the bracket is then literal. *)
Definition glob_set (s : string) : option (bool * string * string) :=
  let (negate, s1) :=
    match s with
    | String "!" r => (true, r)
    | _ => (false, s)
    end in
  match s1 with
  | String "]" r =>
      match until_close r with
      | Some (a, b) => Some (negate, String "]" a, b)
      | None => None
      end
  | _ =>
      match until_close s1 with
      | Some (a, b) => Some (negate, a, b)
      | None => None
      end
  end.

Fixpoint glob_items (stuff : string) : list (ascii * ascii) :=
  match stuff with
  | String lo (String "-" (String hi r)) => (lo, hi) :: glob_items r
  | String c r => (c, c) :: glob_items r
  | EmptyString => []
  end.

Definition any_char : regex := CharSet true [].

(** [fnmatch.translate]: the pattern a glob stands for. A run of stars
    counts as one star. *)
Fixpoint translate_from (fuel : nat) (after_star : bool) (pat : string)
  : regex :=
  match fuel with
  | O => Empty
  | S fuel' =>
      match pat with
      | EmptyString => Empty
      | String "*" r =>
          if after_star then translate_from fuel' true r
          else Seq (Star any_char) (translate_from fuel' true r)
      | String "?" r => Seq any_char (translate_from fuel' false r)
      | String "[" r =>
          match glob_set r with
          | Some (negate, stuff, r') =>
              Seq (CharSet negate (glob_items stuff))
                (translate_from fuel' false r')
          | None => Seq (Lit "[") (translate_from fuel' false r)
          end
      | String c r => Seq (Lit c) (translate_from fuel' false r)
      end
  end.

Definition translate (pat : string) : regex :=
  translate_from (String.length pat) false pat.

(** [fnmatch.fnmatch(name, pat)] on POSIX, where case is kept: the whole
    of [name] has to match. *)
Definition fnmatch (name pat : string) : bool :=
  match run (translate pat) 0 name
          (fun _ rest =>
             match rest with
             | EmptyString => Some tt
             | _ => None
             end) with
  | Some _ => true
  | None => false
  end.

End Fnmatch.

(* ------------------------------------------------------------------ *)
(** ** Results, exceptions, library calls, files *)

Module Py.
Import Text Re Fnmatch.

Inductive exn : Type :=
| UnicodeDecodeError
| OSError.

(** What a call gives back: a value, or an exception on its way up. *)
Inductive outcome (A : Type) : Type :=
| Returned (a : A)
| Raised (e : exn).
Arguments Returned {A} a.
Arguments Raised {A} e.

(** The calls into the libraries that the program makes. *)
Inductive call : Type :=
| CallFnmatch (name pat : string)
| CallMatch (pattern : regex) (line : string)
| CallFindall (pattern : regex) (line : string)
| CallOpen (path : string).

(** A computation: its value and the calls it made, oldest first. *)
Definition M (A : Type) : Type := (A * list call)%type.

Definition ret {A : Type} (a : A) : M A := (a, []).

Definition bind {A B : Type} (m : M A) (f : A -> M B) : M B :=
  let (a, t1) := m in
  let (b, t2) := f a in
  (b, (t1 ++ t2)%list).

Definition value {A : Type} (m : M A) : A := fst m.
Definition calls {A : Type} (m : M A) : list call := snd m.

Arguments ret : simpl never.
Arguments bind : simpl never.
Arguments value : simpl never.
Arguments calls : simpl never.

(** What iterating over an open text file produces: a line, or an
    exception raised by the read. *)
Inductive read : Type :=
| Line (text : string)
| Fault (e : exn).

(** The part of the file system the program sees: [os.walk(top)] as the
    list of its [(root, dirs, files)] triples, and [open(path, 'r')] as
    the reads that iterating over the file will produce. *)
Record filesystem : Type := {
  walk : string -> list (string * list string * list string);
  open_ : string -> outcome (list read)
}.

(** A text file that decodes to [text]. *)
Definition text_file (text : string) : list read :=
  map Line (readlines text).

(** [os.path.join(a, b)] on POSIX. *)
Definition path_join (a b : string) : string :=
  match b with
  | String "/" _ => b
  | _ =>
      match a with
      | EmptyString => b
      | _ =>
          match String.get (String.length a - 1) a with
          | Some "/"%char => a ++ b
          | _ => a ++ "/" ++ b
          end
      end
  end.

Definition fnmatch_ (name pat : string) : M bool :=
  (fnmatch name pat, [CallFnmatch name pat]).

Definition pattern_match (pattern : regex) (line : string)
  : M (option string) :=
  (match_ pattern line, [CallMatch pattern line]).

Definition pattern_findall (pattern : regex) (line : string)
  : M (list string) :=
  (findall pattern line, [CallFindall pattern line]).

Definition open_file (fs : filesystem) (path : string)
  : M (outcome (list read)) :=
  (open_ fs path, [CallOpen path]).

(** [any(fnmatch.fnmatch(path, p) for p in paths)]: stops at the first
    glob that matches. *)
Fixpoint any_fnmatch (path : string) (paths : list string) : M bool :=
  match paths with
  | [] => ret false
  | p :: rest =>
      bind (fnmatch_ path p)
        (fun b => if b then ret true else any_fnmatch path rest)
  end.

End Py.

Notation "x <- m ;; k" := (Py.bind m (fun x => k))
  (at level 61, m at next level, right associativity).

(* ------------------------------------------------------------------ *)
(** ** pass.py *)

Import Text Re Fnmatch Py.

Definition DEFAULT_BAD_WORDS : list string :=
  ["token"; "oauth"; "secret"; "pass"; "password"; "senha"].

(** The two raw strings of the source; [\'] and [\n] are left to the
    pattern compiler, as in the source. *)
Definition DEFAULT_ANALYZERS : list string :=
  let q := String dquote EmptyString in
  [ " *[:=] *[" ++ q ++ "\'][^" ++ q ++ "\']{4,}[" ++ q ++ "\']";
    "[:=][^" ++ q ++ "\'& ,;{()<\n]{4,}" ].

Fixpoint check_exclude_pattern (checkers : list regex) (line : string)
  : M bool :=
  match checkers with
  | [] => ret false
  | pattern :: rest =>
      m <- pattern_match pattern line ;;
      match m with
      | Some _ => ret true
      | None => check_exclude_pattern rest line
      end
  end.

Definition can_analyze_file (include_paths exclude_paths : list string)
  (path : string) : M bool :=
  not_included <-
    match include_paths with
    | [] => ret false
    | _ => b <- any_fnmatch path include_paths ;; ret (negb b)
    end ;;
  if not_included then ret false
  else
    excluded <-
      match exclude_paths with
      | [] => ret false
      | _ => any_fnmatch path exclude_paths
      end ;;
    if excluded then ret false else ret true.

Definition build_bad_words (words : list string) : string :=
  let bad_words :=
    map (fun word =>
           let rule :=
             fold_left
               (fun rule ul =>
                  rule ++ "[" ++ String (fst ul) (String (snd ul) "]"))
               (combine (chars (upper word)) (chars (lower word)))
               "(?:" in
           rule ++ ")")
        words in
  join "|" bad_words.

(** [None] when [re.compile] raises. *)
Definition build_regex_analyzers (rules : list string) (bad_words : string)
  : option (list regex) :=
  fold_left
    (fun analyzers rule =>
       match analyzers with
       | None => None
       | Some done =>
           match compile ("(?:" ++ bad_words ++ ")(?:[a-zA-Z_][a-zA-Z0-9_]*)?"
                          ++ rule) with
           | Some checker => Some (done ++ [checker])%list
           | None => None
           end
       end)
    rules (Some []).

Record finding : Type := {
  f_file : string;
  f_target : string;
  f_line : nat;
  f_string : string
}.

(** The loop over the analyzers, for one line: [result] with the findings
    of this line appended. *)
Fixpoint for_checker (path : string) (patterns : list regex) (i : nat)
  (line : string) (analyzers : list regex) (result : list finding)
  : M (list finding) :=
  match analyzers with
  | [] => ret result
  | checker :: rest =>
      data <- pattern_findall checker line ;;
      result' <-
        match data with
        | [] => ret result
        | first :: _ =>
            false_positive <- check_exclude_pattern patterns line ;;
            if false_positive then ret result
            else ret (result ++ [ {| f_file := path; f_target := first;
                                     f_line := i; f_string := strip line |} ])%list
        end ;;
      for_checker path patterns i line rest result'
  end.

(** The loop over the lines of the open file. The list [result] is
    updated in place, so what was appended is still there when a read
    raises: the loop gives back the list and the exception, if any. *)
Fixpoint for_line (path : string) (max_length : Z) (analyzers patterns : list regex)
  (i : nat) (handler : list read) (result : list finding)
  : M (list finding * option exn) :=
  match handler with
  | [] => ret (result, None)
  | Fault e :: _ => ret (result, Some e)
  | Line line :: rest =>
      if (Z.of_nat (String.length line) >? max_length)%Z
      then for_line path max_length analyzers patterns (S i) rest result
      else
        result' <- for_checker path patterns i line analyzers result ;;
        for_line path max_length analyzers patterns (S i) rest result'
  end.

Definition check_file_handler (fs : filesystem) (path : string)
  (max_length : Z) (analyzers patterns : list regex)
  : M (outcome (list finding)) :=
  let result := [] in
  opened <- open_file fs path ;;
  tried <-
    match opened with
    | Raised e => ret (result, Some e)
    | Returned handler =>
        for_line path max_length analyzers patterns 0 handler result
    end ;;
  match tried with
  | (result, None) => ret (Returned result)
  | (result, Some UnicodeDecodeError) => ret (Returned result)
  | (_, Some e) => ret (Raised e)
  end.

(** How a loop body of [start_digging] ends: the loop goes on, the
    function returns, or an exception leaves it. *)
Inductive flow : Type :=
| Continue (counter : Z) (result : list finding)
| Return (counter : Z) (result : list finding)
| Raise (e : exn).

(** The loop over the files of one directory. *)
Fixpoint for_file (fs : filesystem) (limit max_length : Z)
  (analyzers patterns : list regex) (include_paths exclude_paths : list string)
  (root : string) (file_list : list string) (counter : Z)
  (result : list finding) : M flow :=
  match file_list with
  | [] => ret (Continue counter result)
  | file :: rest =>
      let path := path_join root file in
      ok <- can_analyze_file include_paths exclude_paths path ;;
      if negb ok
      then for_file fs limit max_length analyzers patterns include_paths
             exclude_paths root rest counter result
      else if (counter >? limit)%Z
      then ret (Return counter result)
      else
        let counter := (counter + 1)%Z in
        found <- check_file_handler fs path max_length analyzers patterns ;;
        match found with
        | Raised e => ret (Raise e)
        | Returned more =>
            for_file fs limit max_length analyzers patterns include_paths
              exclude_paths root rest counter (result ++ more)%list
        end
  end.

(** The loop over the directories of the walk. *)
Fixpoint for_root (fs : filesystem) (limit max_length : Z)
  (analyzers patterns : list regex) (include_paths exclude_paths : list string)
  (dirs : list (string * list string * list string)) (counter : Z)
  (result : list finding) : M (outcome (Z * list finding)) :=
  match dirs with
  | [] => ret (Returned (counter, result))
  | (root, subfolder_list, file_list) :: rest =>
      inner <- for_file fs limit max_length analyzers patterns include_paths
                 exclude_paths root file_list counter result ;;
      match inner with
      | Continue counter result =>
          for_root fs limit max_length analyzers patterns include_paths
            exclude_paths rest counter result
      | Return counter result => ret (Returned (counter, result))
      | Raise e => ret (Raised e)
      end
  end.

Definition start_digging (fs : filesystem) (root_path : string)
  (limit max_length : Z) (analyzers patterns : list regex)
  (include_paths exclude_paths : list string)
  : M (outcome (Z * list finding)) :=
  let counter := 0%Z in
  let result := [] in
  for_root fs limit max_length analyzers patterns include_paths exclude_paths
    (walk fs root_path) counter result.

(** The part of the script that prepares the detectors: [bad_words] is
    the list read from the file given with [--bad-words], or the empty
    list when the option is absent. *)
Definition main_analyzers (bad_words : list string) : option (list regex) :=
  let bad_words :=
    build_bad_words
      match bad_words with
      | [] => DEFAULT_BAD_WORDS
      | _ => bad_words
      end in
  build_regex_analyzers DEFAULT_ANALYZERS bad_words.


(* ------------------------------------------------------------------ *)
(** ** What it means for a pattern to match *)

(** [matches r pos s pos' s']: at position [pos] of the subject, where the
    text [s] starts, the pattern [r] can match up to position [pos'],
    where the text [s'] starts. The matcher [run] explores exactly these
    matches, in its own order. *)
Inductive matches : regex -> nat -> string -> nat -> string -> Prop :=
| MEmpty pos s : matches Empty pos s pos s
| MLit c pos s : matches (Lit c) pos (String c s) (S pos) s
| MDot c pos s :
    Ascii.eqb c newline = false -> matches Dot pos (String c s) (S pos) s
| MSet negate items c pos s :
    in_set negate items c = true ->
    matches (CharSet negate items) pos (String c s) (S pos) s
| MSeq a b pos s pos1 s1 pos2 s2 :
    matches a pos s pos1 s1 -> matches b pos1 s1 pos2 s2 ->
    matches (Seq a b) pos s pos2 s2
| MLeft a b pos s pos' s' :
    matches a pos s pos' s' -> matches (Branch a b) pos s pos' s'
| MRight a b pos s pos' s' :
    matches b pos s pos' s' -> matches (Branch a b) pos s pos' s'
| MStarStop a pos s : matches (Star a) pos s pos s
| MStarMore a pos s pos1 s1 pos2 s2 :
    matches a pos s pos1 s1 -> matches (Star a) pos1 s1 pos2 s2 ->
    matches (Star a) pos s pos2 s2
| MBol s : matches Bol 0 s 0 s
| MEolEnd pos : matches Eol pos EmptyString pos EmptyString
| MEolNewline pos :
    matches Eol pos (String newline EmptyString) pos (String newline EmptyString).

(** [r] has a match in [line] that covers exactly the text [w], between
    [pre] and [post]. *)
Definition match_at (r : regex) (pre w post : string) : Prop :=
  matches r (String.length pre) (w ++ post)
    (String.length pre + String.length w) post.

(** Patterns without anchors match a text whatever surrounds it: they
    have a language. *)
Fixpoint anchor_free (r : regex) : bool :=
  match r with
  | Bol | Eol => false
  | Seq a b | Branch a b => (anchor_free a && anchor_free b)%bool
  | Star a => anchor_free a
  | _ => true
  end.

Inductive star_of (P : string -> Prop) : string -> Prop :=
| StarNil : star_of P EmptyString
| StarApp u v : P u -> star_of P v -> star_of P (u ++ v).

Fixpoint lang (r : regex) (w : string) : Prop :=
  match r with
  | Empty => w = EmptyString
  | Lit c => w = String c EmptyString
  | Dot => exists c, w = String c EmptyString /\ Ascii.eqb c newline = false
  | CharSet negate items =>
      exists c, w = String c EmptyString /\ in_set negate items c = true
  | Seq a b => exists u v, w = u ++ v /\ lang a u /\ lang b v
  | Branch a b => lang a w \/ lang b w
  | Star a => star_of (lang a) w
  | Bol | Eol => False
  end.

(** Every character of a text satisfies [p]. *)
Fixpoint all_chars (p : ascii -> bool) (s : string) : bool :=
  match s with
  | EmptyString => true
  | String c s' => (p c && all_chars p s')%bool
  end.

(** A text [t] found in [s], which starts at position [pos]. *)
Definition found_in (r : regex) (pos : nat) (s t : string) : Prop :=
  exists pre post,
    s = pre ++ t ++ post
    /\ matches r (pos + String.length pre) (t ++ post)
         (pos + String.length pre + String.length t) post.

(* ------------------------------------------------------------------ *)
(** ** The detectors and the shape of what they find *)

(** The detectors of a run without [--bad-words]. *)
Definition default_analyzers : list regex :=
  match main_analyzers [] with
  | Some analyzers => analyzers
  | None => []
  end.

Definition assignment_detector : regex := nth 0 default_analyzers Empty.
Definition url_detector : regex := nth 1 default_analyzers Empty.

(** The compiled form of the parts of a detector. *)
Definition letter_set (k : ascii) : regex :=
  CharSet false [(upper_char k, upper_char k); (lower_char k, lower_char k)].

Fixpoint word_regex (word : string) : regex :=
  match word with
  | EmptyString => Empty
  | String k rest => Seq (letter_set k) (word_regex rest)
  end.

Fixpoint words_regex (words : list string) : regex :=
  match words with
  | [] => Empty
  | [word] => Seq (word_regex word) Empty
  | word :: rest => Branch (Seq (word_regex word) Empty) (words_regex rest)
  end.

Definition ident_start_set : regex :=
  CharSet false [("a", "z"); ("A", "Z"); ("_", "_")]%char.
Definition ident_char_set : regex :=
  CharSet false [("a", "z"); ("A", "Z"); ("0", "9"); ("_", "_")]%char.
Definition suffix_regex : regex :=
  Branch (Seq ident_start_set (Seq (Star ident_char_set) Empty)) Empty.

Definition sep_set : regex := CharSet false [(":", ":"); ("=", "=")]%char.
Definition quote_set (negate : bool) : regex :=
  CharSet negate [(dquote, dquote); (squote, squote)].
Definition url_set : regex :=
  CharSet true
    [(dquote, dquote); (squote, squote); ("&", "&"); (" ", " "); (",", ",");
     (";", ";"); ("{", "{"); ("(", "("); (")", ")"); ("<", "<");
     (newline, newline)]%char.

Definition assignment_tail : regex :=
  Seq (Star (Lit " "))
    (Seq sep_set
       (Seq (Star (Lit " "))
          (Seq (quote_set false)
             (Seq (power 4 (quote_set true) (Star (quote_set true)))
                (Seq (quote_set false) Empty))))).

Definition url_tail : regex :=
  Seq sep_set (Seq (power 4 url_set (Star url_set)) Empty).

Definition detector (words : list string) (tail : regex) : regex :=
  Seq (words_regex words) (Seq suffix_regex tail).

(** Keywords whose letters, in upper and in lower case, stand for
    themselves between brackets: no backslash, closing bracket, caret or
    hyphen. *)
Definition plain (c : ascii) : bool :=
  negb (char_in c ["\"; "]"; "^"; "-"]%char).

Definition plain_word (word : string) : bool :=
  all_chars (fun k => (plain (upper_char k) && plain (lower_char k))%bool) word.

(** Keywords in ASCII, the code points 0..127: on these [upper] and
    [lower] are [str.upper] and [str.lower]. *)
Definition is_ascii (c : ascii) : bool := Nat.ltb (nat_of_ascii c) 128.

Definition ascii_word (word : string) : bool := all_chars is_ascii word.

(** The text that [build_bad_words] writes for a word. *)
Fixpoint letters (word : string) : string :=
  match word with
  | EmptyString => EmptyString
  | String k rest =>
      String "[" (String (upper_char k) (String (lower_char k)
                                            (String "]" (letters rest))))
  end.

Definition rule_of (word : string) : string := "(?:" ++ letters word ++ ")".

(** The vocabulary of the shapes. *)

(** [c] is the letter [k] in upper or in lower case. *)
Definition same_letter (k c : ascii) : bool :=
  (Ascii.eqb c (upper_char k) || Ascii.eqb c (lower_char k))%bool.

(** [w] is [word], whatever the case of each letter. *)
Fixpoint spells (word w : string) : bool :=
  match word, w with
  | EmptyString, EmptyString => true
  | String k word', String c w' => (same_letter k c && spells word' w')%bool
  | _, _ => false
  end.

Definition is_keyword (words : list string) (w : string) : bool :=
  existsb (fun word => spells word w) words.

Definition ident_start (c : ascii) : bool :=
  (is_lower c || is_upper c || Ascii.eqb c "_")%bool.
Definition ident_char (c : ascii) : bool :=
  (is_lower c || is_upper c || is_digit c || Ascii.eqb c "_")%bool.

(** The optional identifier suffix: nothing, or letters, digits and
    underscores that do not start with a digit. *)
Definition is_suffix (w : string) : bool :=
  match w with
  | EmptyString => true
  | String c rest => (ident_start c && all_chars ident_char rest)%bool
  end.

Definition is_blank (c : ascii) : bool := Ascii.eqb " " c.
Definition is_sep (c : ascii) : bool := (Ascii.eqb c ":" || Ascii.eqb c "=")%bool.
Definition is_quote (c : ascii) : bool :=
  (Ascii.eqb c dquote || Ascii.eqb c squote)%bool.
Definition not_quote (c : ascii) : bool := negb (is_quote c).

(** The characters the tail of the url-style detector accepts. *)
Definition url_char (c : ascii) : bool :=
  negb (char_in c [dquote; squote; "&"; " "; ","; ";"; "{"; "("; ")"; "<";
                   newline]%char).

(** What the assignment-style detector finds: a keyword, the optional
    suffix, spaces, a separator, spaces, a quote, four or more characters
    that are not quotes, a quote. *)
Definition assignment_shape (words : list string) (m : string) : Prop :=
  exists kw suffix sp1 sep sp2 q1 body q2,
    m = kw ++ suffix ++ sp1
          ++ String sep (sp2 ++ String q1 (body ++ String q2 EmptyString))
    /\ is_keyword words kw = true
    /\ is_suffix suffix = true
    /\ all_chars is_blank sp1 = true
    /\ is_sep sep = true
    /\ all_chars is_blank sp2 = true
    /\ is_quote q1 = true
    /\ 4 <= String.length body
    /\ all_chars not_quote body = true
    /\ is_quote q2 = true.

(** What the url-style detector finds: a keyword, the optional suffix, a
    separator, four or more accepted characters. *)
Definition url_shape (words : list string) (m : string) : Prop :=
  exists kw suffix sep tail,
    m = kw ++ suffix ++ String sep tail
    /\ is_keyword words kw = true
    /\ is_suffix suffix = true
    /\ is_sep sep = true
    /\ 4 <= String.length tail
    /\ all_chars url_char tail = true.

(** A pattern that matches one character, those that satisfy [p]. *)
Definition one_char (r : regex) (p : ascii -> bool) : Prop :=
  forall w, lang r w <-> exists c, w = String c EmptyString /\ p c = true.

(* ------------------------------------------------------------------ *)
(** ** The vocabulary of the properties *)

Definition is_some {A : Type} (o : option A) : bool :=
  match o with Some _ => true | None => false end.

(** The elements of [l] that a search for the first one satisfying [p]
    looks at: those up to that one, included. *)
Fixpoint tried {A : Type} (p : A -> bool) (l : list A) : list A :=
  match l with
  | [] => []
  | x :: rest => if p x then [x] else x :: tried p rest
  end.

(** The files a computation opened, oldest first. *)
Definition opened (t : list call) : list string :=
  flat_map (fun c => match c with CallOpen path => [path] | _ => [] end) t.

(** The suppression check, as a value. *)
Definition suppressed (patterns : list regex) (line : string) : bool :=
  existsb (fun pattern => is_some (match_ pattern line)) patterns.

(** What one detector contributes for one line. *)
Definition contribution (path : string) (patterns : list regex) (i : nat)
  (line : string) (checker : regex) : list finding :=
  match findall checker line with
  | [] => []
  | first :: _ =>
      if suppressed patterns line then []
      else [ {| f_file := path; f_target := first; f_line := i;
                f_string := strip line |} ]
  end.

(** What one line contributes, and what the lines of a file contribute
    when the first of them has index [i]. *)
Definition line_findings (path : string) (max_length : Z)
  (analyzers patterns : list regex) (i : nat) (line : string) : list finding :=
  if (Z.of_nat (String.length line) >? max_length)%Z then []
  else flat_map (contribution path patterns i line) analyzers.

Fixpoint file_findings (path : string) (max_length : Z)
  (analyzers patterns : list regex) (i : nat) (lines : list string)
  : list finding :=
  match lines with
  | [] => []
  | line :: rest =>
      (line_findings path max_length analyzers patterns i line
       ++ file_findings path max_length analyzers patterns (S i) rest)%list
  end.

(** The path filter, as a value. *)
Definition accepted (include_paths exclude_paths : list string) (path : string)
  : bool :=
  ((match include_paths with [] => true | _ => false end
    || existsb (fnmatch path) include_paths)
   && negb (existsb (fnmatch path) exclude_paths))%bool.

(** The paths of a walk, in the order of the walk, and those among them
    that the path filter accepts. *)
Definition paths_of (dirs : list (string * list string * list string))
  : list string :=
  flat_map (fun d => map (path_join (fst (fst d))) (snd d)) dirs.

Definition eligible (include_paths exclude_paths : list string)
  (paths : list string) : list string :=
  filter (accepted include_paths exclude_paths) paths.

(** The line evaluator run on [paths] one after the other: the findings,
    appended to [result], or the first exception. *)
Fixpoint collect (fs : filesystem) (max_length : Z)
  (analyzers patterns : list regex) (paths : list string)
  (result : list finding) : outcome (list finding) :=
  match paths with
  | [] => Returned result
  | path :: rest =>
      match value (check_file_handler fs path max_length analyzers patterns) with
      | Returned more =>
          collect fs max_length analyzers patterns rest (result ++ more)%list
      | Raised e => Raised e
      end
  end.

(** The two loops of [start_digging] as one loop over the paths. *)
Fixpoint scan (fs : filesystem) (limit max_length : Z)
  (analyzers patterns : list regex) (include_paths exclude_paths : list string)
  (paths : list string) (counter : Z) (result : list finding) : M flow :=
  match paths with
  | [] => ret (Continue counter result)
  | path :: rest =>
      ok <- can_analyze_file include_paths exclude_paths path ;;
      if negb ok
      then scan fs limit max_length analyzers patterns include_paths
             exclude_paths rest counter result
      else if (counter >? limit)%Z
      then ret (Return counter result)
      else
        found <- check_file_handler fs path max_length analyzers patterns ;;
        match found with
        | Raised e => ret (Raise e)
        | Returned more =>
            scan fs limit max_length analyzers patterns include_paths
              exclude_paths rest (counter + 1)%Z (result ++ more)%list
        end
  end.

Definition finish (f : flow) : outcome (Z * list finding) :=
  match f with
  | Continue counter result => Returned (counter, result)
  | Return counter result => Returned (counter, result)
  | Raise e => Raised e
  end.

(** The quote that opens the quoted text of a finding and the character
    that closes it. *)
Fixpoint first_quote (s : string) : option ascii :=
  match s with
  | EmptyString => None
  | String c rest => if is_quote c then Some c else first_quote rest
  end.

Fixpoint last_char (s : string) : option ascii :=
  match s with
  | EmptyString => None
  | String c EmptyString => Some c
  | String _ rest => last_char rest
  end.

Definition quotes_agree (target : string) : bool :=
  match first_quote target, last_char target with
  | Some a, Some b => Ascii.eqb a b
  | _, _ => false
  end.

(** The url-style shape with the characters as the specification lists
    them: no quote, ampersand, space, comma, semicolon, brace,
    parenthesis, angle bracket or newline. *)
Definition spec_url_char (c : ascii) : bool :=
  negb (char_in c [dquote; squote; "&"; " "; ","; ";"; "{"; "}"; "("; ")";
                   "<"; ">"; newline]%char).

Fixpoint splits (s : string) : list (string * string) :=
  (EmptyString, s) ::
  match s with
  | EmptyString => []
  | String c rest => map (fun p => (String c (fst p), snd p)) (splits rest)
  end.

Definition spec_url_shape (words : list string) (target : string) : bool :=
  existsb
    (fun p =>
       match snd p with
       | String sep tail =>
           (is_keyword words (fst p) && is_sep sep
            && Nat.leb 4 (String.length tail)
            && all_chars spec_url_char tail)%bool
       | EmptyString => false
       end)
    (splits target).

Definition not_newline (c : ascii) : bool := negb (Ascii.eqb c newline).

(** A character that ends no line of a file: neither a line feed nor a
    carriage return. *)
Definition not_line_end (c : ascii) : bool :=
  negb (Ascii.eqb c newline || Ascii.eqb c cr).

(** The content of a line as read: the line without the newline that ends
    it, when one does. *)
Fixpoint content_of (line : string) : string :=
  match line with
  | EmptyString => EmptyString
  | String c rest =>
      match rest with
      | EmptyString => if Ascii.eqb c newline then EmptyString else line
      | _ => String c (content_of rest)
      end
  end.

(** Directory trees for the examples: the triples that a walk from [top]
    yields, and the reads of each file, by path. Any other path does not
    open. *)
Definition disk (top : string)
  (dirs : list (string * list string * list string))
  (contents : list (string * list read)) : filesystem :=
  {| walk := fun t => if String.eqb t top then dirs else [];
     open_ := fun p =>
                match find (fun e => String.eqb (fst e) p) contents with
                | Some e => Returned (snd e)
                | None => Raised OSError
                end |}.

(** The directory [src] with the given files. *)
Definition files (contents : list (string * list read)) : filesystem :=
  disk "src" [("src", [], map fst contents)]
    (map (fun e => (path_join "src" (fst e), snd e)) contents).

Definition one_file (name text : string) : filesystem :=
  files [(name, text_file text)].

(** The directory [src] with two files and a directory of three. *)
Definition five_files : filesystem :=
  disk "src"
    [("src", ["lib"], ["a"; "b"]); ("src/lib", [], ["c"; "d"; "e"])]
    [("src/a", text_file "token=abcd"); ("src/b", text_file "x = 1");
     ("src/lib/c", text_file "pass: 'word'"); ("src/lib/d", text_file "");
     ("src/lib/e", text_file "secret=zzzz")].

Fixpoint padding (n : nat) : string :=
  match n with
  | O => EmptyString
  | S n' => String "x" (padding n')
  end.

Definition quoted (s : string) : string :=
  String dquote (s ++ String dquote EmptyString).

(* ------------------------------------------------------------------ *)
(** ** More vocabulary: reads, scans and the log *)

(** The lines that iterating over a file yields before it ends or a read
    raises, and the exception that ends the iteration, if any. *)
Fixpoint lines_read (handler : list read) : list string :=
  match handler with
  | Line line :: rest => line :: lines_read rest
  | _ => []
  end.

Fixpoint fault_of (handler : list read) : option exn :=
  match handler with
  | [] => None
  | Line _ :: rest => fault_of rest
  | Fault e :: _ => Some e
  end.

(** The lines that are not longer than [max_length]. *)
Definition short_enough (max_length : Z) (line : string) : bool :=
  negb (Z.of_nat (String.length line) >? max_length)%Z.

(** The calls of [findall] in a log: detector and line, oldest first. *)
Definition searches (t : list call) : list (regex * string) :=
  flat_map
    (fun c => match c with CallFindall p line => [(p, line)] | _ => [] end) t.

(** The paths, among [paths], that a scan hands to the line evaluator:
    all of them up to the first one for which it raises, included. *)
Fixpoint attempted (fs : filesystem) (max_length : Z)
  (analyzers patterns : list regex) (paths : list string) : list string :=
  match paths with
  | [] => []
  | path :: rest =>
      match value (check_file_handler fs path max_length analyzers patterns) with
      | Returned _ =>
          path :: attempted fs max_length analyzers patterns rest
      | Raised _ => [path]
      end
  end.

Definition first_char (s : string) : option ascii :=
  match s with
  | EmptyString => None
  | String c _ => Some c
  end.

(** A text that neither starts nor ends with whitespace. *)
Definition trimmed (s : string) : Prop :=
  (forall c, first_char s = Some c -> is_space c = false)
  /\ (forall c, last_char s = Some c -> is_space c = false).

(** Three files, the second of which cannot be read. *)
Definition unreadable_second : filesystem :=
  files [("a", text_file "token=abcd"); ("b", [Fault OSError]);
         ("c", text_file "token=wxyz")].

(** The pattern that [build_regex_analyzers] compiles for a rule. *)
Definition pattern_of (bad_words rule : string) : string :=
  "(?:" ++ bad_words ++ ")(?:[a-zA-Z_][a-zA-Z0-9_]*)?" ++ rule.

Definition not_sep (c : ascii) : bool := negb (is_sep c).

(* ------------------------------------------------------------------ *)
(** ** The script *)

(** [str.splitlines()], among the code points 0..255: the lines of a
    text without their terminators; a line ends at a line feed, a carriage
    return (with the line feed that follows it, if any), a vertical tab, a
    form feed, a file, group or record separator, or a next-line
    character. *)
Definition is_linebreak (c : ascii) : bool :=
  let n := nat_of_ascii c in
  (Nat.leb 10 n && Nat.leb n 13 || Nat.leb 28 n && Nat.leb n 30
   || Nat.eqb n 133)%bool.

Fixpoint splitlines_from (cur : string -> string) (s : string) : list string :=
  match s with
  | EmptyString =>
      match cur EmptyString with
      | EmptyString => []
      | l => [l]
      end
  | String c s' =>
      if is_linebreak c
      then
        cur EmptyString ::
          match s' with
          | String d s'' =>
              if (Ascii.eqb c "013" && Ascii.eqb d newline)%bool
              then splitlines_from (fun t => t) s''
              else splitlines_from (fun t => t) s'
          | EmptyString => splitlines_from (fun t => t) s'
          end
      else splitlines_from (fun t => cur (String c t)) s'
  end.

Definition splitlines (s : string) : list string :=
  splitlines_from (fun t => t) s.

(** [str(n)] for an integer. *)
Definition str_int (z : Z) : string := NilZero.string_of_int (Z.to_int z).

(** The parsed command line: the text of each file that was given, the
    two numbers, the flag and the path. *)
Record arguments : Type := {
  arg_bad_words : option string;
  arg_ignore_patterns : option string;
  arg_include_file : option string;
  arg_exclude_file : option string;
  arg_max_length : Z;
  arg_max_checks : Z;
  arg_json : bool;
  arg_path : string
}.

(** What the script writes: a call of [print] with its text, or the call
    that prints [json.dumps(result, indent=2)]. *)
Inductive printed : Type :=
| PrintText (text : string)
| PrintJson (result : list finding) (indent : nat).

(** How the script ends: with its output and exit status, or with an
    exception that nothing catches. [ReError] is the end of a run one of
    whose patterns does not compile here: [re.error], or a pattern outside
    the modelled syntax, on which nothing is stated. *)
Inductive failure : Type :=
| ReError
| Propagated (e : exn).

Inductive ending : Type :=
| Exit (out : list printed) (status : Z)
| Uncaught (e : failure).

(** [file.read().splitlines()] for an optional file. *)
Definition read_lines (file : option string) : list string :=
  match file with
  | Some text => splitlines text
  | None => []
  end.

(** The loop that compiles the lines of the file of patterns to ignore:
    each line is compiled as iterated, with its newline. *)
Fixpoint compile_all (patterns : list string) : option (list regex) :=
  match patterns with
  | [] => Some []
  | pattern :: rest =>
      match compile pattern with
      | None => None
      | Some checker =>
          match compile_all rest with
          | Some l => Some (checker :: l)
          | None => None
          end
      end
  end.

Definition tab : ascii := "009"%char.

Definition dashes : string :=
  "--------------------------------------------------------------------------------".

(** The five calls of [print] for one finding. *)
Definition report_finding (r : finding) : list printed :=
  [ PrintText ("File:" ++ String tab (" " ++ f_file r));
    PrintText ("Line:" ++ String tab (" " ++ str_int (Z.of_nat (f_line r))));
    PrintText ("Target:" ++ String tab (" " ++ f_target r ++ " "
                                      ++ String newline EmptyString));
    PrintText (f_string r);
    PrintText (String newline (dashes ++ String newline EmptyString)) ].

Definition summary (max_checks counter : Z) (result : list finding) : string :=
  "Found: " ++ str_int (Z.of_nat (length result))
  ++ " | Files Checked: " ++ str_int counter
  ++ " | (Hit Upper Limit? "
  ++ (if (counter >=? max_checks)%Z then "Yes" else "No") ++ ")".

Definition status_line (result : list finding) : string :=
  "STATUS: " ++ match result with [] => "OK" | _ => "FAILED" end.

(** The output part of the script. *)
Definition report (json : bool) (max_checks counter : Z)
  (result : list finding) : list printed :=
  if json then [PrintJson result 2]
  else if (counter =? 0)%Z
  then [PrintText "No file found."; PrintText "STATUS: FAILED"]
  else
    (flat_map report_finding result
     ++ [PrintText (summary max_checks counter result);
         PrintText (status_line result)])%list.

(** The script, from the parsed command line on. *)
Definition main (fs : filesystem) (args : arguments) : M ending :=
  let bad_words := read_lines (arg_bad_words args) in
  match
    match arg_ignore_patterns args with
    | Some text => compile_all (readlines text)
    | None => Some []
    end
  with
  | None => ret (Uncaught ReError)
  | Some ignore_patterns =>
      let include_paths := read_lines (arg_include_file args) in
      let exclude_paths := read_lines (arg_exclude_file args) in
      match main_analyzers bad_words with
      | None => ret (Uncaught ReError)
      | Some analyzers =>
          dug <- start_digging fs (arg_path args) (arg_max_checks args)
                   (arg_max_length args) analyzers ignore_patterns
                   include_paths exclude_paths ;;
          match dug with
          | Raised e => ret (Uncaught (Propagated e))
          | Returned (counter, result) =>
              ret (Exit (report (arg_json args) (arg_max_checks args) counter
                           result)
                     (match result with [] => 0 | _ => 1 end)%Z)
          end
      end
  end.

(** The eligible files of a run of the script. *)
Definition candidates (fs : filesystem) (args : arguments) : list string :=
  eligible (read_lines (arg_include_file args))
    (read_lines (arg_exclude_file args))
    (paths_of (walk fs (arg_path args))).

(** Characters that stand for themselves in a pattern. *)
Definition not_special (c : ascii) : bool :=
  negb (char_in c ["|"; ")"; "("; "["; "."; "^"; "$"; "\"; "*"; "+"; "?";
                   "{"]%char).

Definition ordinary (c : ascii) : bool := (not_special c && not_line_end c)%bool.

Fixpoint literal_regex (t : string) : regex :=
  match t with
  | EmptyString => Empty
  | String c rest => Seq (Lit c) (literal_regex rest)
  end.

Definition no_linebreak (c : ascii) : bool := negb (is_linebreak c).

(** The text of a file with one word on each line. *)
Fixpoint one_per_line (words : list string) : string :=
  match words with
  | [] => EmptyString
  | word :: rest => word ++ String newline (one_per_line rest)
  end.

Definition run_defaults (path : string) : arguments :=
  {| arg_bad_words := None; arg_ignore_patterns := None;
     arg_include_file := None; arg_exclude_file := None;
     arg_max_length := 1000; arg_max_checks := 9223372036854775807;
     arg_json := false; arg_path := path |}.

Definition run_limited (path : string) (max_checks : Z) : arguments :=
  {| arg_bad_words := None; arg_ignore_patterns := None;
     arg_include_file := None; arg_exclude_file := None;
     arg_max_length := 1000; arg_max_checks := max_checks;
     arg_json := false; arg_path := path |}.

(** A file that does not open, or whose reading stops with an OSError. *)
Definition unreadable (fs : filesystem) (path : string) : Prop :=
  open_ fs path = Raised OSError
  \/ exists handler,
       open_ fs path = Returned handler /\ fault_of handler = Some OSError.

(** The files a run of the script hands to the line evaluator when none
    of them raises. *)
Definition to_scan (fs : filesystem) (args : arguments) : list string :=
  firstn (Z.to_nat (arg_max_checks args + 1)) (candidates fs args).

(** The patterns to ignore, as the script loads them. *)
Definition load_ignore_patterns (args : arguments) : option (list regex) :=
  match arg_ignore_patterns args with
  | Some text => compile_all (readlines text)
  | None => Some []
  end.

(** The findings in the example tree [five_files]. *)
Definition finding_a : finding :=
  {| f_file := "src/a"; f_target := "token=abcd"; f_line := 0;
     f_string := "token=abcd" |}.

Definition finding_c : finding :=
  {| f_file := "src/lib/c"; f_target := "pass: 'word'"; f_line := 0;
     f_string := "pass: 'word'" |}.

Definition finding_e : finding :=
  {| f_file := "src/lib/e"; f_target := "secret=zzzz"; f_line := 0;
     f_string := "secret=zzzz" |}.

(* ------------------------------------------------------------------ *)
(** * Properties *)

(** ** Strings *)

Lemma append_nil_r (s : string) : s ++ EmptyString = s.
Proof. induction s as [|c s IH]; simpl; [reflexivity | now rewrite IH]. Qed.

Lemma append_assoc (a b c : string) : (a ++ b) ++ c = a ++ (b ++ c).
Proof. induction a as [|x a IH]; simpl; [reflexivity | now rewrite IH]. Qed.

Lemma length_append (a b : string) :
  String.length (a ++ b) = String.length a + String.length b.
Proof. induction a as [|x a IH]; simpl; [reflexivity | now rewrite IH]. Qed.

Lemma length_zero (s : string) : String.length s = 0 -> s = EmptyString.
Proof. destruct s; simpl; [reflexivity | discriminate]. Qed.

Lemma take_append (w s : string) : take (String.length w) (w ++ s) = w.
Proof.
  unfold take. induction w as [|c w IH]; simpl.
  - destruct s; reflexivity.
  - now rewrite IH.
Qed.

Lemma append_same_length_inv (a b c d : string) :
  a ++ b = c ++ d -> String.length a = String.length c -> a = c /\ b = d.
Proof.
  revert c. induction a as [|x a IH]; intros [|y c] H L; simpl in *;
    try discriminate.
  - now split.
  - injection H as -> H. injection L as L.
    destruct (IH _ H L) as [-> ->]. now split.
Qed.

(** ** The matcher explores exactly the matches of a pattern *)

Lemma matches_consumes r pos s pos' s' :
  matches r pos s pos' s' ->
  exists w, s = w ++ s' /\ pos' = pos + String.length w.
Proof.
  induction 1.
  - exists EmptyString. simpl. split; [reflexivity | lia].
  - exists (String c EmptyString). simpl. split; [reflexivity | lia].
  - exists (String c EmptyString). simpl. split; [reflexivity | lia].
  - exists (String c EmptyString). simpl. split; [reflexivity | lia].
  - destruct IHmatches1 as (u & -> & ->). destruct IHmatches2 as (v & -> & ->).
    exists (u ++ v). rewrite append_assoc, length_append. split; [reflexivity | lia].
  - assumption.
  - assumption.
  - exists EmptyString. simpl. split; [reflexivity | lia].
  - destruct IHmatches1 as (u & -> & ->). destruct IHmatches2 as (v & -> & ->).
    exists (u ++ v). rewrite append_assoc, length_append. split; [reflexivity | lia].
  - exists EmptyString. simpl. split; reflexivity.
  - exists EmptyString. simpl. split; [reflexivity | lia].
  - exists EmptyString. simpl. split; [reflexivity | lia].
Qed.

Lemma matches_same_pos r pos s s' : matches r pos s pos s' -> s' = s.
Proof.
  intros H. destruct (matches_consumes H) as (w & -> & L).
  assert (String.length w = 0) by lia.
  now rewrite (length_zero w).
Qed.

Lemma matches_length r pos s pos' s' :
  matches r pos s pos' s' ->
  String.length s = (pos' - pos) + String.length s' /\ pos <= pos'.
Proof.
  intros H. destruct (matches_consumes H) as (w & -> & ->).
  rewrite length_append. lia.
Qed.

Section Run.
Variable R : Type.

Lemma star_loop_sound (a : regex)
  (IH : forall pos s (k : nat -> string -> option R) x,
      run a pos s k = Some x ->
      exists pos' s', matches a pos s pos' s' /\ k pos' s' = Some x)
  (k : nat -> string -> option R) n :
  forall pos s x,
    star_loop (run a) k n pos s = Some x ->
    exists pos' s', matches (Star a) pos s pos' s' /\ k pos' s' = Some x.
Proof.
  induction n as [|n IHn]; intros pos s x H; simpl in H.
  - exists pos, s. split; [constructor | assumption].
  - destruct (run a pos s _) as [y|] eqn:E.
    + injection H as ->.
      apply IH in E. destruct E as (pos1 & s1 & Ha & Hk).
      destruct (Nat.eqb pos1 pos).
      * exists pos1, s1. split; [|assumption].
        eapply MStarMore; [eassumption | constructor].
      * apply IHn in Hk. destruct Hk as (pos2 & s2 & Hs & Hk).
        exists pos2, s2. split; [econstructor; eassumption | assumption].
    + exists pos, s. split; [constructor | assumption].
Qed.

Lemma run_sound r :
  forall pos s (k : nat -> string -> option R) x,
    run r pos s k = Some x ->
    exists pos' s', matches r pos s pos' s' /\ k pos' s' = Some x.
Proof.
  induction r as [|c| |negate items|a IHa b IHb|a IHa b IHb|a IHa| |];
    intros pos s k x H; simpl in H.
  - exists pos, s. split; [constructor | assumption].
  - destruct s as [|c' s']; [discriminate|].
    destruct (Ascii.eqb_spec c c') as [<-|]; [|discriminate].
    exists (S pos), s'. split; [constructor | assumption].
  - destruct s as [|c' s']; [discriminate|].
    destruct (Ascii.eqb c' newline) eqn:E; [discriminate|].
    exists (S pos), s'. split; [now constructor | assumption].
  - destruct s as [|c' s']; [discriminate|].
    destruct (in_set negate items c') eqn:E; [|discriminate].
    exists (S pos), s'. split; [now constructor | assumption].
  - apply IHa in H. destruct H as (pos1 & s1 & Ha & H).
    apply IHb in H. destruct H as (pos2 & s2 & Hb & H).
    exists pos2, s2. split; [econstructor; eassumption | assumption].
  - destruct (run a pos s k) as [y|] eqn:E.
    + injection H as ->. apply IHa in E. destruct E as (pos' & s' & Ha & Hk).
      exists pos', s'. split; [now apply MLeft | assumption].
    + apply IHb in H. destruct H as (pos' & s' & Hb & Hk).
      exists pos', s'. split; [now apply MRight | assumption].
  - exact (star_loop_sound IHa k (S (String.length s)) pos s H).
  - destruct (Nat.eqb_spec pos 0) as [->|]; [|discriminate].
    exists 0, s. split; [constructor | assumption].
  - destruct s as [|c [|c' s']]; try discriminate.
    + exists pos, EmptyString. split; [constructor | assumption].
    + destruct (Ascii.eqb_spec c newline) as [->|]; [|discriminate].
      exists pos, (String newline EmptyString). split; [constructor | assumption].
Qed.

End Run.

Lemma run_complete r pos s pos' s' :
  matches r pos s pos' s' ->
  (forall (R : Type) (k : nat -> string -> option R),
      k pos' s' <> None -> run r pos s k <> None)
  /\ (forall a, r = Star a ->
      forall (R : Type) (k : nat -> string -> option R) n,
        String.length s < n -> k pos' s' <> None ->
        star_loop (run a) k n pos s <> None).
Proof.
  induction 1 as
    [pos s|c pos s|c pos s E|negate items c pos s E
    |a b pos s pos1 s1 pos2 s2 Ha [IHa _] Hb [IHb _]
    |a b pos s pos' s' Ha [IHa _]|a b pos s pos' s' Hb [IHb _]
    |a pos s|a pos s pos1 s1 pos2 s2 Ha [IHa _] Hs [_ IHs]
    |s|pos|pos].
  - split; [|discriminate]. intros R k Hk. exact Hk.
  - split; [|discriminate]. intros R k Hk. simpl. now rewrite Ascii.eqb_refl.
  - split; [|discriminate]. intros R k Hk. simpl. now rewrite E.
  - split; [|discriminate]. intros R k Hk. simpl. now rewrite E.
  - split; [|discriminate]. intros R k Hk. simpl.
    apply IHa. now apply IHb.
  - split; [|discriminate]. intros R k Hk. simpl.
    specialize (IHa R k Hk). destruct (run a pos s k); [discriminate | contradiction].
  - split; [|discriminate]. intros R k Hk. simpl.
    destruct (run a pos s k); [discriminate | now apply IHb].
  - assert (G : forall (R : Type) (k : nat -> string -> option R) n,
               k pos s <> None -> star_loop (run a) k n pos s <> None).
    { intros R k n Hk. destruct n as [|n]; simpl; [assumption|].
      destruct (run a pos s _); [discriminate | assumption]. }
    split.
    + intros R k Hk. exact (G R k (S (String.length s)) Hk).
    + intros a' Ea R k n _ Hk. injection Ea as <-. now apply G.
  - assert (G : forall (R : Type) (k : nat -> string -> option R) n,
               String.length s < n -> k pos2 s2 <> None ->
               star_loop (run a) k n pos s <> None).
    { intros R k n Hn Hk. destruct n as [|n]; [lia|]. simpl.
      destruct (Nat.eq_dec pos1 pos) as [->|Hne].
      - apply matches_same_pos in Ha. subst s1.
        specialize (IHs a eq_refl R k (S n) Hn Hk). simpl in IHs. exact IHs.
      - assert (Hc : run a pos s
                       (fun pos' s' =>
                          if Nat.eqb pos' pos then k pos' s'
                          else star_loop (run a) k n pos' s') <> None).
        { apply IHa. rewrite (proj2 (Nat.eqb_neq pos1 pos) Hne).
          apply (IHs a eq_refl); [|assumption].
          apply matches_length in Ha. lia. }
        destruct (run a pos s _); [discriminate | contradiction]. }
    split.
    + intros R k Hk. apply (G R k (S (String.length s))); [lia | assumption].
    + intros a' Ea R k n Hn Hk. injection Ea as <-. now apply G.
  - split; [|discriminate]. intros R k Hk. exact Hk.
  - split; [|discriminate]. intros R k Hk. exact Hk.
  - split; [|discriminate]. intros R k Hk. simpl. exact Hk.
Qed.

Lemma run_none r pos s (R : Type) (k : nat -> string -> option R) :
  run r pos s k = None ->
  forall pos' s', matches r pos s pos' s' -> k pos' s' = None.
Proof.
  intros H pos' s' Hm.
  destruct (k pos' s') eqn:E; [|reflexivity].
  exfalso. apply (proj1 (run_complete Hm) R k); [now rewrite E | assumption].
Qed.

(** ** [match] and [findall] *)

Lemma attempt_some r pos s must_advance n :
  attempt r pos s must_advance = Some n ->
  exists w s',
    s = w ++ s' /\ String.length w = n /\ matches r pos s (pos + n) s'
    /\ (must_advance = true -> n <> 0).
Proof.
  unfold attempt. intros H. apply run_sound in H.
  destruct H as (pos' & s' & Hm & Hk).
  destruct (matches_consumes Hm) as (w & -> & ->).
  destruct (must_advance && Nat.eqb (pos + String.length w) pos)%bool eqn:E;
    [discriminate|].
  injection Hk as <-.
  replace (pos + String.length w - pos) with (String.length w) by lia.
  exists w, s'. repeat split; [assumption|].
  intros ->. simpl in E. apply Nat.eqb_neq in E. lia.
Qed.

Lemma attempt_none r pos s :
  attempt r pos s false = None -> forall pos' s', ~ matches r pos s pos' s'.
Proof.
  unfold attempt. intros H pos' s' Hm.
  pose proof (run_none _ H Hm) as Hk. simpl in Hk. discriminate.
Qed.

Lemma attempt_found r pos s pos' s' :
  matches r pos s pos' s' -> attempt r pos s false <> None.
Proof.
  intros Hm. unfold attempt. apply (proj1 (run_complete Hm)). simpl. discriminate.
Qed.

(** [pattern.match(line)] finds a match exactly when the pattern can match
    a text that starts at position 0 of the line. *)
Lemma match_spec pattern line :
  match_ pattern line <> None <->
  exists w rest, line = w ++ rest /\ matches pattern 0 line (String.length w) rest.
Proof.
  unfold match_. split.
  - destruct (attempt pattern 0 line false) as [n|] eqn:E; [|congruence].
    intros _. apply attempt_some in E.
    destruct E as (w & s' & -> & <- & Hm & _). now exists w, s'.
  - intros (w & rest & -> & Hm). apply attempt_found in Hm.
    destruct (attempt pattern 0 (w ++ rest) false); [discriminate | contradiction].
Qed.

Lemma found_in_here r pos s n must_advance :
  attempt r pos s must_advance = Some n -> found_in r pos s (take n s).
Proof.
  intros H. apply attempt_some in H. destruct H as (w & s' & -> & <- & Hm & _).
  rewrite take_append. exists EmptyString, s'. simpl.
  rewrite Nat.add_0_r. now split.
Qed.

Lemma found_in_later r pos c s t :
  found_in r (S pos) s t -> found_in r pos (String c s) t.
Proof.
  intros (pre & post & -> & Hm). exists (String c pre), post. simpl.
  split; [reflexivity|].
  now replace (pos + S (String.length pre)) with (S pos + String.length pre) by lia.
Qed.

Lemma findall_from_sound r s :
  forall pos skip t, In t (findall_from r pos s skip) -> found_in r pos s t.
Proof.
  induction s as [|c s IH]; intros pos skip t H.
  - destruct skip as [|skip]; simpl in H; [|contradiction].
    destruct (attempt r pos EmptyString false) as [[|n]|] eqn:E.
    + destruct H as [<-|H].
      * exact (found_in_here _ _ _ _ E).
      * destruct (attempt r pos EmptyString true) as [[|m]|] eqn:E';
          try contradiction.
        destruct H as [<-|[]]. exact (found_in_here _ _ _ _ E').
    + destruct H as [<-|[]]. exact (found_in_here _ _ _ _ E).
    + contradiction.
  - destruct skip as [|skip]; simpl in H.
    + destruct (attempt r pos (String c s) false) as [[|n]|] eqn:E.
      * destruct H as [<-|H]; [exact (found_in_here _ _ _ _ E)|].
        destruct (attempt r pos (String c s) true) as [[|m]|] eqn:E'.
        -- apply found_in_later. eapply IH; eassumption.
        -- destruct H as [<-|H]; [exact (found_in_here _ _ _ _ E')|].
           apply found_in_later. eapply IH; eassumption.
        -- apply found_in_later. eapply IH; eassumption.
      * destruct H as [<-|H]; [exact (found_in_here _ _ _ _ E)|].
        apply found_in_later. eapply IH; eassumption.
      * apply found_in_later. eapply IH; eassumption.
    + apply found_in_later. eapply IH; eassumption.
Qed.

Lemma findall_from_complete r s :
  forall pos t, found_in r pos s t -> findall_from r pos s 0 <> [].
Proof.
  induction s as [|c s IH]; intros pos t (pre & post & E & Hm).
  - destruct pre; [|discriminate]. simpl in E, Hm.
    rewrite Nat.add_0_r in Hm. rewrite <- E in Hm.
    apply attempt_found in Hm. simpl.
    destruct (attempt r pos EmptyString false) as [[|n]|]; congruence.
  - destruct pre as [|c' pre].
    + simpl in E, Hm. rewrite Nat.add_0_r in Hm. rewrite <- E in Hm.
      apply attempt_found in Hm. simpl.
      destruct (attempt r pos (String c s) false) as [[|n]|]; congruence.
    + simpl in E. injection E as <- E. simpl.
      destruct (attempt r pos _ false) as [[|n]|]; try discriminate.
      apply (IH (S pos) t). exists pre, post. split; [assumption|].
      simpl in Hm.
      now replace (S pos + String.length pre) with (pos + S (String.length pre)) by lia.
Qed.

(** Every text that [findall] returns is a match of the pattern in the
    line, and [findall] returns at least one text exactly when the pattern
    matches somewhere in the line. *)
Lemma findall_sound pattern line t :
  In t (findall pattern line) ->
  exists pre post, line = pre ++ t ++ post /\ match_at pattern pre t post.
Proof.
  intros H. apply findall_from_sound in H.
  destruct H as (pre & post & E & Hm). now exists pre, post.
Qed.

Lemma findall_nonempty pattern line :
  findall pattern line <> [] <->
  exists pre t post, line = pre ++ t ++ post /\ match_at pattern pre t post.
Proof.
  split.
  - intros H. destruct (findall pattern line) as [|t l] eqn:E; [congruence|].
    destruct (findall_sound pattern line t) as (pre & post & E1 & Hm);
      [rewrite E; now left|].
    now exists pre, t, post.
  - intros (pre & t & post & E & Hm).
    apply (findall_from_complete (pos := 0) (t := t)). now exists pre, post.
Qed.

(** The first text that [findall] returns is the leftmost match: the
    pattern matches at no position before it. *)
Lemma first_here r pos s n must_advance first :
  attempt r pos s must_advance = Some n ->
  first = take n s ->
  exists pre post,
    s = pre ++ first ++ post
    /\ matches r (pos + String.length pre) (first ++ post)
         (pos + String.length pre + String.length first) post
    /\ (forall pre1 rest1,
           s = pre1 ++ rest1 ->
           String.length pre1 < String.length pre ->
           forall pos' s', ~ matches r (pos + String.length pre1) rest1 pos' s').
Proof.
  intros H ->. apply attempt_some in H.
  destruct H as (w & s' & -> & <- & Hm & _). rewrite take_append.
  exists EmptyString, s'. simpl. rewrite !Nat.add_0_r.
  split; [reflexivity|]. split; [exact Hm|].
  intros pre1 rest1 _ L. lia.
Qed.

Lemma findall_from_first r s :
  forall pos first others,
    findall_from r pos s 0 = first :: others ->
    exists pre post,
      s = pre ++ first ++ post
      /\ matches r (pos + String.length pre) (first ++ post)
           (pos + String.length pre + String.length first) post
      /\ (forall pre1 rest1,
             s = pre1 ++ rest1 ->
             String.length pre1 < String.length pre ->
             forall pos' s', ~ matches r (pos + String.length pre1) rest1 pos' s').
Proof.
  induction s as [|c s IH]; intros pos first others H; simpl in H.
  - destruct (attempt r pos EmptyString false) as [[|n]|] eqn:E;
      [| |discriminate]; injection H as <- _;
      exact (first_here _ _ _ _ E eq_refl).
  - destruct (attempt r pos (String c s) false) as [[|n]|] eqn:E.
    + injection H as <- _. exact (first_here _ _ _ _ E eq_refl).
    + injection H as <- _. exact (first_here _ _ _ _ E eq_refl).
    + destruct (IH _ _ _ H) as (pre & post & -> & Hm & Hl).
      exists (String c pre), post. simpl. split; [reflexivity|].
      split.
      * now replace (pos + S (String.length pre))
          with (S pos + String.length pre) by lia.
      * intros pre1 rest1 E1 L pos' s'.
        destruct pre1 as [|c1 pre1]; simpl in E1.
        -- subst rest1. simpl. rewrite Nat.add_0_r.
           intros Hm'. exact (attempt_none E Hm').
        -- injection E1 as <- E1. simpl in L. simpl.
           replace (pos + S (String.length pre1))
             with (S pos + String.length pre1) by lia.
           apply (Hl pre1 rest1 E1). lia.
Qed.

Lemma findall_first pattern line first others :
  findall pattern line = first :: others ->
  exists pre post,
    line = pre ++ first ++ post
    /\ match_at pattern pre first post
    /\ (forall pre1 rest1,
           line = pre1 ++ rest1 ->
           String.length pre1 < String.length pre ->
           forall pos' s', ~ matches pattern (String.length pre1) rest1 pos' s').
Proof. intros H. exact (findall_from_first _ _ _ H). Qed.

(** ** The language of a pattern without anchors *)

Lemma matches_lang r :
  anchor_free r = true ->
  forall pos s pos' s',
    matches r pos s pos' s' <->
    exists w, s = w ++ s' /\ pos' = pos + String.length w /\ lang r w.
Proof.
  intros AF pos s pos' s'. split.
  - intros Hm. revert AF. induction Hm; intros AF; simpl in AF;
      try discriminate.
    + exists EmptyString. simpl. repeat split. lia.
    + exists (String c EmptyString). simpl. repeat split. lia.
    + exists (String c EmptyString). simpl. repeat split; [lia|]. now exists c.
    + exists (String c EmptyString). simpl. repeat split; [lia|]. now exists c.
    + apply andb_true_iff in AF. destruct AF as [A1 A2].
      destruct (IHHm1 A1) as (u & -> & -> & Lu).
      destruct (IHHm2 A2) as (v & -> & -> & Lv).
      exists (u ++ v). rewrite append_assoc, length_append.
      repeat split; [lia|]. now exists u, v.
    + apply andb_true_iff in AF. destruct AF as [A1 A2].
      destruct (IHHm A1) as (w & -> & -> & L).
      exists w. repeat split. now left.
    + apply andb_true_iff in AF. destruct AF as [A1 A2].
      destruct (IHHm A2) as (w & -> & -> & L).
      exists w. repeat split. now right.
    + exists EmptyString. simpl. repeat split; [lia | constructor].
    + destruct (IHHm1 AF) as (u & -> & -> & Lu).
      destruct (IHHm2 AF) as (v & -> & -> & Lv).
      exists (u ++ v). rewrite append_assoc, length_append.
      repeat split; [lia|]. simpl. now constructor.
  - intros (w & -> & -> & L). revert pos s' w L.
    induction r as [|c| |negate items|a IHa b IHb|a IHa b IHb|a IHa| |];
      intros pos s' w L; simpl in L, AF; try discriminate.
    + subst w. simpl. rewrite Nat.add_0_r. constructor.
    + subst w. simpl. rewrite Nat.add_1_r. constructor.
    + destruct L as (c & -> & E). simpl. rewrite Nat.add_1_r. now constructor.
    + destruct L as (c & -> & E). simpl. rewrite Nat.add_1_r. now constructor.
    + apply andb_true_iff in AF. destruct AF as [A1 A2].
      destruct L as (u & v & -> & Lu & Lv).
      rewrite append_assoc, length_append, Nat.add_assoc.
      econstructor; [apply IHa | apply IHb]; assumption.
    + apply andb_true_iff in AF. destruct AF as [A1 A2].
      destruct L as [L|L]; [apply MLeft, IHa | apply MRight, IHb]; assumption.
    + revert pos. induction L as [|u v Lu Lv IHv]; intros pos.
      * simpl. rewrite Nat.add_0_r. constructor.
      * rewrite append_assoc, length_append, Nat.add_assoc.
        econstructor; [apply IHa; assumption | apply IHv].
Qed.

(** ** The default detectors *)

Lemma default_analyzers_compiled :
  main_analyzers [] = Some [assignment_detector; url_detector].
Proof. vm_compute. reflexivity. Qed.

Lemma assignment_detector_eq :
  assignment_detector = detector DEFAULT_BAD_WORDS assignment_tail.
Proof. vm_compute. reflexivity. Qed.

Lemma url_detector_eq : url_detector = detector DEFAULT_BAD_WORDS url_tail.
Proof. vm_compute. reflexivity. Qed.

(** ** The language of the parts of a detector *)

Lemma leb_refl (a : ascii) : Ascii.leb a a = true.
Proof. destruct (Ascii.leb_total a a); assumption. Qed.

Lemma between_same (a c : ascii) : between a a c = Ascii.eqb c a.
Proof.
  unfold between. destruct (Ascii.eqb_spec c a) as [->|N].
  - now rewrite leb_refl.
  - destruct (Ascii.leb a c) eqn:E1, (Ascii.leb c a) eqn:E2; try reflexivity.
    exfalso. apply N. now apply Ascii.leb_antisym.
Qed.

Lemma one_char_lit (c : ascii) : one_char (Lit c) (Ascii.eqb c).
Proof.
  intros w. simpl. split.
  - intros ->. exists c. split; [reflexivity | apply Ascii.eqb_refl].
  - intros (c' & -> & E). apply Ascii.eqb_eq in E. now subst.
Qed.

Lemma one_char_set negate items :
  one_char (CharSet negate items) (in_set negate items).
Proof. intros w. simpl. reflexivity. Qed.

Lemma one_char_ext r (p q : ascii -> bool) :
  one_char r p -> (forall c, p c = q c) -> one_char r q.
Proof.
  intros H E w. rewrite (H w). split; intros (c & -> & Hc); exists c;
    (split; [reflexivity|]); [rewrite <- E | rewrite E]; assumption.
Qed.

Lemma lang_seq_empty r w : lang (Seq r Empty) w <-> lang r w.
Proof.
  simpl. split.
  - intros (u & v & -> & Hu & ->). now rewrite append_nil_r.
  - intros H. exists w, EmptyString. now rewrite append_nil_r.
Qed.

Lemma lang_star_one r p :
  one_char r p -> forall w, lang (Star r) w <-> all_chars p w = true.
Proof.
  intros H w. simpl. split.
  - induction 1 as [|u v Hu Hv IH]; [reflexivity|].
    apply H in Hu. destruct Hu as (c & -> & Hc). simpl. now rewrite Hc.
  - induction w as [|c w IH]; intros A; simpl in A.
    + constructor.
    + apply andb_true_iff in A. destruct A as [Hc A].
      change (String c w) with (String c EmptyString ++ w).
      constructor; [|now apply IH]. apply H. now exists c.
Qed.

Lemma lang_power_star r p n :
  one_char r p ->
  forall w,
    lang (power n r (Star r)) w <->
    n <= String.length w /\ all_chars p w = true.
Proof.
  intros H. induction n as [|n IH]; intros w.
  - simpl power. rewrite (lang_star_one H). split; [intros A | intros [_ A]]; auto.
    split; [lia | assumption].
  - simpl power. simpl lang. split.
    + intros (u & v & -> & Hu & Hv). apply H in Hu. destruct Hu as (c & -> & Hc).
      apply IH in Hv. destruct Hv as [L A]. simpl. rewrite Hc, A.
      split; [lia | reflexivity].
    + intros [L A]. destruct w as [|c w]; simpl in L; [lia|].
      simpl in A. apply andb_true_iff in A. destruct A as [Hc A].
      exists (String c EmptyString), w. split; [reflexivity|].
      split; [apply H; now exists c | apply IH; split; [lia | assumption]].
Qed.

Lemma letter_set_char k : one_char (letter_set k) (same_letter k).
Proof.
  eapply one_char_ext; [apply one_char_set|]. intros c.
  unfold in_set, in_item, same_letter. simpl.
  rewrite !between_same. now rewrite orb_false_r.
Qed.

Lemma lang_word word : forall w, lang (word_regex word) w <-> spells word w = true.
Proof.
  induction word as [|k word IH]; intros w.
  - simpl. destruct w; split; congruence.
  - simpl word_regex. simpl lang. split.
    + intros (u & v & -> & Hu & Hv). apply letter_set_char in Hu.
      destruct Hu as (c & -> & Hc). apply IH in Hv. simpl. now rewrite Hc, Hv.
    + destruct w as [|c w]; simpl; [discriminate|]. intros A.
      apply andb_true_iff in A. destruct A as [Hc A].
      exists (String c EmptyString), w. split; [reflexivity|].
      split; [apply letter_set_char; now exists c | now apply IH].
Qed.

Lemma lang_words words :
  words <> [] ->
  forall w, lang (words_regex words) w <-> is_keyword words w = true.
Proof.
  induction words as [|word rest IH]; intros N w; [congruence|].
  destruct rest as [|word' rest].
  - simpl words_regex. rewrite (lang_seq_empty (word_regex word) w), lang_word. simpl.
    now rewrite orb_false_r.
  - change (words_regex (word :: word' :: rest))
      with (Branch (Seq (word_regex word) Empty) (words_regex (word' :: rest))).
    change (is_keyword (word :: word' :: rest) w)
      with (spells word w || is_keyword (word' :: rest) w)%bool.
    rewrite orb_true_iff, <- (IH ltac:(discriminate) w), <- lang_word.
    rewrite <- (lang_seq_empty (word_regex word) w). reflexivity.
Qed.

Lemma ident_start_set_char : one_char ident_start_set ident_start.
Proof.
  eapply one_char_ext; [apply one_char_set|].
  intros c. destruct c as [[] [] [] [] [] [] [] []]; reflexivity.
Qed.

Lemma ident_char_set_char : one_char ident_char_set ident_char.
Proof.
  eapply one_char_ext; [apply one_char_set|].
  intros c. destruct c as [[] [] [] [] [] [] [] []]; reflexivity.
Qed.

Lemma sep_set_char : one_char sep_set is_sep.
Proof.
  eapply one_char_ext; [apply one_char_set|].
  intros c. destruct c as [[] [] [] [] [] [] [] []]; reflexivity.
Qed.

Lemma quote_set_char : one_char (quote_set false) is_quote.
Proof.
  eapply one_char_ext; [apply one_char_set|].
  intros c. destruct c as [[] [] [] [] [] [] [] []]; reflexivity.
Qed.

Lemma not_quote_set_char : one_char (quote_set true) not_quote.
Proof.
  eapply one_char_ext; [apply one_char_set|].
  intros c. destruct c as [[] [] [] [] [] [] [] []]; reflexivity.
Qed.

Lemma url_set_char : one_char url_set url_char.
Proof.
  eapply one_char_ext; [apply one_char_set|].
  intros c. destruct c as [[] [] [] [] [] [] [] []]; reflexivity.
Qed.

Lemma blank_char : one_char (Lit " ") is_blank.
Proof. apply one_char_lit. Qed.

Lemma lang_suffix w : lang suffix_regex w <-> is_suffix w = true.
Proof.
  unfold suffix_regex. simpl lang.
  fold (lang (Star ident_char_set)). split.
  - intros [(u & v & -> & Hu & (x & y & -> & Hx & ->))| ->]; [|reflexivity].
    apply ident_start_set_char in Hu. destruct Hu as (c & -> & Hc).
    apply (lang_star_one ident_char_set_char) in Hx.
    rewrite append_nil_r. simpl. now rewrite Hc, Hx.
  - destruct w as [|c w]; [now right|]. simpl. intros A.
    apply andb_true_iff in A. destruct A as [Hc A]. left.
    exists (String c EmptyString), w. split; [reflexivity|].
    split; [apply ident_start_set_char; now exists c|].
    exists w, EmptyString. rewrite append_nil_r. split; [reflexivity|].
    split; [|reflexivity]. now apply (lang_star_one ident_char_set_char).
Qed.

Lemma lang_assignment_tail w :
  lang assignment_tail w <->
  exists sp1 sep sp2 q1 body q2,
    w = sp1 ++ String sep (sp2 ++ String q1 (body ++ String q2 EmptyString))
    /\ all_chars is_blank sp1 = true
    /\ is_sep sep = true
    /\ all_chars is_blank sp2 = true
    /\ is_quote q1 = true
    /\ 4 <= String.length body
    /\ all_chars not_quote body = true
    /\ is_quote q2 = true.
Proof.
  unfold assignment_tail. split.
  - intros (sp1 & w1 & -> & H1 & (u2 & w2 & -> & H2 & (sp2 & w3 & -> & H3
            & (u4 & w4 & -> & H4 & (body & w5 & -> & H5
            & (u6 & w6 & -> & H6 & H7)))))).
    simpl in H7. subst w6.
    apply (lang_star_one blank_char) in H1, H3.
    apply sep_set_char in H2. destruct H2 as (sep & -> & Hsep).
    apply quote_set_char in H4. destruct H4 as (q1 & -> & Hq1).
    apply quote_set_char in H6. destruct H6 as (q2 & -> & Hq2).
    apply (lang_power_star 4 not_quote_set_char) in H5. destruct H5 as [L A].
    exists sp1, sep, sp2, q1, body, q2. simpl. repeat split; assumption.
  - intros (sp1 & sep & sp2 & q1 & body & q2 & -> & H1 & H2 & H3 & H4 & L & A & H6).
    exists sp1, (String sep (sp2 ++ String q1 (body ++ String q2 EmptyString))).
    split; [reflexivity|]. split; [now apply (lang_star_one blank_char)|].
    exists (String sep EmptyString), (sp2 ++ String q1 (body ++ String q2 EmptyString)).
    split; [reflexivity|]. split; [apply sep_set_char; now exists sep|].
    exists sp2, (String q1 (body ++ String q2 EmptyString)).
    split; [reflexivity|]. split; [now apply (lang_star_one blank_char)|].
    exists (String q1 EmptyString), (body ++ String q2 EmptyString).
    split; [reflexivity|]. split; [apply quote_set_char; now exists q1|].
    exists body, (String q2 EmptyString).
    split; [reflexivity|].
    split; [apply (lang_power_star 4 not_quote_set_char); now split|].
    exists (String q2 EmptyString), EmptyString.
    split; [reflexivity|]. split; [apply quote_set_char; now exists q2 | reflexivity].
Qed.

Lemma lang_url_tail w :
  lang url_tail w <->
  exists sep tail,
    w = String sep tail /\ is_sep sep = true
    /\ 4 <= String.length tail /\ all_chars url_char tail = true.
Proof.
  unfold url_tail. split.
  - intros (u & w1 & -> & H1 & (tail & w2 & -> & H2 & H3)).
    simpl in H3. subst w2.
    apply sep_set_char in H1. destruct H1 as (sep & -> & Hsep).
    apply (lang_power_star 4 url_set_char) in H2. destruct H2 as [L A].
    exists sep, tail. rewrite append_nil_r. simpl. repeat split; assumption.
  - intros (sep & tail & -> & Hsep & L & A).
    exists (String sep EmptyString), tail. split; [reflexivity|].
    split; [apply sep_set_char; now exists sep|].
    exists tail, EmptyString. rewrite append_nil_r. split; [reflexivity|].
    split; [apply (lang_power_star 4 url_set_char); now split | reflexivity].
Qed.

Lemma lang_detector words tail m :
  words <> [] ->
  lang (detector words tail) m <->
  exists kw suffix rest,
    m = kw ++ suffix ++ rest
    /\ is_keyword words kw = true /\ is_suffix suffix = true /\ lang tail rest.
Proof.
  intros N. unfold detector. simpl lang.
  fold (lang (words_regex words)). fold (lang suffix_regex). split.
  - intros (kw & w1 & -> & H1 & (suffix & rest & -> & H2 & H3)).
    apply (lang_words N) in H1. apply lang_suffix in H2.
    now exists kw, suffix, rest.
  - intros (kw & suffix & rest & -> & H1 & H2 & H3).
    exists kw, (suffix ++ rest). split; [reflexivity|].
    split; [now apply (lang_words N)|].
    exists suffix, rest. split; [reflexivity|].
    split; [now apply lang_suffix | assumption].
Qed.

(** A pattern without anchors matches a text of the line exactly when the
    text is in its language. *)
Lemma match_at_lang r pre w post :
  anchor_free r = true -> (match_at r pre w post <-> lang r w).
Proof.
  intros AF. unfold match_at. rewrite (matches_lang r AF). split.
  - intros (w' & E & L & H).
    assert (String.length w = String.length w') as L' by lia.
    destruct (append_same_length_inv _ _ _ _ E L') as [-> _]. assumption.
  - intros H. now exists w.
Qed.

(** ** Computations *)

Lemma bind_ret_l (A B : Type) (a : A) (f : A -> M B) : bind (ret a) f = f a.
Proof. unfold bind, ret. destruct (f a). reflexivity. Qed.

Lemma bind_ret_r (A : Type) (m : M A) : bind m (fun a => ret a) = m.
Proof. destruct m as [a t]. unfold bind, ret. now rewrite app_nil_r. Qed.

Lemma bind_assoc (A B C : Type) (m : M A) (f : A -> M B) (g : B -> M C) :
  bind (bind m f) g = bind m (fun a => bind (f a) g).
Proof.
  destruct m as [a t]. unfold bind. destruct (f a) as [b t1].
  destruct (g b) as [c t2]. now rewrite app_assoc.
Qed.

Lemma value_bind (A B : Type) (m : M A) (f : A -> M B) :
  value (bind m f) = value (f (value m)).
Proof. destruct m as [a t]. unfold bind, value. simpl. now destruct (f a). Qed.

Lemma calls_bind (A B : Type) (m : M A) (f : A -> M B) :
  calls (bind m f) = (calls m ++ calls (f (value m)))%list.
Proof. destruct m as [a t]. unfold bind, calls, value. simpl. now destruct (f a). Qed.

Lemma opened_app (t u : list call) :
  opened (t ++ u) = (opened t ++ opened u)%list.
Proof. unfold opened. apply flat_map_app. Qed.


(** ** The path filter *)

Lemma any_fnmatch_value path paths :
  value (any_fnmatch path paths) = existsb (fnmatch path) paths.
Proof.
  induction paths as [|p rest IH]; [reflexivity|].
  simpl any_fnmatch. rewrite value_bind. unfold fnmatch_, value at 2. simpl.
  destruct (fnmatch path p); [reflexivity | exact IH].
Qed.

Lemma any_fnmatch_calls path paths :
  calls (any_fnmatch path paths)
  = map (CallFnmatch path) (tried (fnmatch path) paths).
Proof.
  induction paths as [|p rest IH]; [reflexivity|].
  simpl any_fnmatch. rewrite calls_bind. unfold fnmatch_, value, calls at 1. simpl.
  destruct (fnmatch path p); simpl; [reflexivity | now rewrite IH].
Qed.

Lemma exclude_step_value exclude_paths path :
  value (excluded <-
           match exclude_paths with
           | [] => ret false
           | _ => any_fnmatch path exclude_paths
           end ;;
         if excluded then ret false else ret true)
  = negb (existsb (fnmatch path) exclude_paths).
Proof.
  destruct exclude_paths as [|x exclude_paths].
  - now rewrite bind_ret_l.
  - rewrite value_bind, any_fnmatch_value.
    now destruct (existsb (fnmatch path) (x :: exclude_paths)).
Qed.

Lemma exclude_step_calls exclude_paths path :
  calls (excluded <-
           match exclude_paths with
           | [] => ret false
           | _ => any_fnmatch path exclude_paths
           end ;;
         if excluded then ret false else ret true)
  = map (CallFnmatch path) (tried (fnmatch path) exclude_paths).
Proof.
  destruct exclude_paths as [|x exclude_paths].
  - now rewrite bind_ret_l.
  - rewrite calls_bind, any_fnmatch_calls, any_fnmatch_value.
    destruct (existsb (fnmatch path) (x :: exclude_paths));
      unfold ret, calls; simpl; now rewrite app_nil_r.
Qed.

Lemma can_analyze_file_value include_paths exclude_paths path :
  value (can_analyze_file include_paths exclude_paths path)
  = accepted include_paths exclude_paths path.
Proof.
  unfold can_analyze_file, accepted.
  destruct include_paths as [|p include_paths].
  - rewrite bind_ret_l. apply exclude_step_value.
  - rewrite bind_assoc, value_bind, any_fnmatch_value. cbv beta.
    rewrite bind_ret_l.
    destruct (existsb (fnmatch path) (p :: include_paths)); simpl negb;
      cbv iota; [apply exclude_step_value | reflexivity].
Qed.

Lemma can_analyze_file_calls include_paths exclude_paths path :
  calls (can_analyze_file include_paths exclude_paths path)
  = map (CallFnmatch path)
      (tried (fnmatch path) include_paths
       ++ (if (match include_paths with [] => true | _ => false end
               || existsb (fnmatch path) include_paths)%bool
           then tried (fnmatch path) exclude_paths else []))%list.
Proof.
  unfold can_analyze_file.
  destruct include_paths as [|p include_paths].
  - rewrite bind_ret_l. apply exclude_step_calls.
  - rewrite bind_assoc, calls_bind, any_fnmatch_calls, any_fnmatch_value.
    cbv beta. rewrite bind_ret_l, map_app.
    destruct (existsb (fnmatch path) (p :: include_paths)); simpl negb;
      cbv iota.
    + now rewrite exclude_step_calls.
    + reflexivity.
Qed.

(** C1 fails on the code: a path that matches an include glob and an
    exclude glob is rejected, although the help text of the include option
    in the source says that it has precedence over the exclude option. *)
Lemma include_does_not_override_exclude :
  ~ (forall include_paths exclude_paths path,
        include_paths <> [] ->
        existsb (fnmatch path) include_paths = true ->
        value (can_analyze_file include_paths exclude_paths path) = true
        /\ calls (can_analyze_file include_paths exclude_paths path)
           = map (CallFnmatch path) (tried (fnmatch path) include_paths)).
Proof.
  intros H.
  destruct (H ["*.py"] ["*test*"] "app/test_main.py") as [V _];
    [discriminate | reflexivity | vm_compute in V; discriminate].
Qed.

(** C1, what the code does where the specification and the help text of
    the source say otherwise. When the include list is not empty and the path
    matches one of its globs, the filter goes on to the exclude list: the
    globs of both lists are evaluated, each list up to its first match,
    and the path is accepted exactly when no exclude glob matches it. At
    the failing input, include [*.py] and exclude [*test*] with the path
    [app/test_main.py], the path is rejected; [app/main.py] is
    accepted. *)
Theorem can_analyze_file_include_then_exclude :
  (forall include_paths exclude_paths path,
      include_paths <> [] ->
      existsb (fnmatch path) include_paths = true ->
      value (can_analyze_file include_paths exclude_paths path)
      = negb (existsb (fnmatch path) exclude_paths)
      /\ calls (can_analyze_file include_paths exclude_paths path)
         = map (CallFnmatch path)
             (tried (fnmatch path) include_paths
              ++ tried (fnmatch path) exclude_paths)%list)
  /\ value (can_analyze_file ["*.py"] ["*test*"] "app/main.py") = true
  /\ value (can_analyze_file ["*.py"] ["*test*"] "app/test_main.py") = false.
Proof.
  split; [|split; reflexivity].
  intros include_paths exclude_paths path N I.
  rewrite can_analyze_file_value, can_analyze_file_calls. unfold accepted.
  rewrite I, orb_true_r. now split.
Qed.

Lemma can_analyze_file_include_then_exclude_witness :
  (["*.py"] <> ([] : list string)
   /\ existsb (fnmatch "app/test_main.py") ["*.py"] = true)
  /\ value (can_analyze_file ["*.py"] ["*test*"] "app/test_main.py")
     = negb (existsb (fnmatch "app/test_main.py") ["*test*"]).
Proof.
  split.
  - split; [discriminate | reflexivity].
  - apply (proj1 can_analyze_file_include_then_exclude);
      [discriminate | reflexivity].
Defined.

(** ** The suppression check and the loop over the detectors *)

Lemma check_exclude_pattern_value patterns line :
  value (check_exclude_pattern patterns line) = suppressed patterns line.
Proof.
  induction patterns as [|p rest IH]; [reflexivity|].
  simpl. rewrite value_bind. unfold pattern_match at 1, value at 2. simpl.
  destruct (match_ p line); [reflexivity | exact IH].
Qed.

Lemma check_exclude_pattern_calls patterns line :
  calls (check_exclude_pattern patterns line)
  = map (fun p => CallMatch p line)
      (tried (fun p => is_some (match_ p line)) patterns).
Proof.
  induction patterns as [|p rest IH]; [reflexivity|].
  simpl. rewrite calls_bind. unfold pattern_match, value, calls at 1. simpl.
  destruct (match_ p line); simpl; [reflexivity | now rewrite IH].
Qed.

Lemma suppressed_iff patterns line :
  suppressed patterns line = true <->
  exists pattern w rest,
    In pattern patterns /\ line = w ++ rest
    /\ matches pattern 0 line (String.length w) rest.
Proof.
  unfold suppressed. rewrite existsb_exists. split.
  - intros (p & I & S).
    destruct (proj1 (match_spec p line)) as (w & rest & E & Hm).
    { destruct (match_ p line); [discriminate | discriminate S]. }
    now exists p, w, rest.
  - intros (p & w & rest & I & E & Hm). exists p. split; [assumption|].
    destruct (match_ p line) eqn:F; [reflexivity|].
    exfalso. apply (proj2 (match_spec p line)); [|assumption].
    now exists w, rest.
Qed.

Lemma for_checker_value path patterns i line analyzers :
  forall result,
    value (for_checker path patterns i line analyzers result)
    = (result ++ flat_map (contribution path patterns i line) analyzers)%list.
Proof.
  induction analyzers as [|checker rest IH]; intros result.
  - simpl. now rewrite app_nil_r.
  - simpl for_checker. rewrite value_bind, value_bind, IH.
    unfold pattern_findall at 1, value at 2. simpl fst.
    simpl flat_map. unfold contribution at 2. rewrite app_assoc. f_equal.
    destruct (findall checker line) as [|first others].
    + unfold ret, value. simpl. now rewrite app_nil_r.
    + rewrite value_bind, check_exclude_pattern_value.
      destruct (suppressed patterns line); unfold ret, value; simpl;
        [now rewrite app_nil_r | reflexivity].
Qed.

Lemma contribution_suppressed path patterns i line checker :
  suppressed patterns line = true ->
  contribution path patterns i line checker = [].
Proof.
  intros S. unfold contribution. rewrite S. now destruct (findall checker line).
Qed.

(** ** The loop over the lines *)

Lemma for_line_skip path max_length analyzers patterns i line rest result :
  (Z.of_nat (String.length line) > max_length)%Z ->
  for_line path max_length analyzers patterns i (Line line :: rest) result
  = for_line path max_length analyzers patterns (S i) rest result.
Proof.
  intros L. simpl.
  destruct (Z.gtb_spec (Z.of_nat (String.length line)) max_length);
    [reflexivity | lia].
Qed.

Lemma for_line_value path max_length analyzers patterns lines :
  forall i result stop,
    (stop = [] \/ exists e more, stop = Fault e :: more) ->
    value (for_line path max_length analyzers patterns i
             (map Line lines ++ stop)%list result)
    = ((result ++ file_findings path max_length analyzers patterns i lines)%list,
       match stop with
       | Fault e :: _ => Some e
       | _ => None
       end).
Proof.
  induction lines as [|line rest IH]; intros i result stop S.
  - simpl. rewrite app_nil_r.
    destruct S as [->|(e & more & ->)]; reflexivity.
  - simpl map. simpl app. simpl for_line. unfold file_findings.
    fold file_findings. unfold line_findings.
    destruct (Z.of_nat (String.length line) >? max_length)%Z.
    + now rewrite (IH _ _ _ S).
    + rewrite value_bind, (IH _ _ _ S), for_checker_value.
      now rewrite app_assoc.
Qed.

Lemma check_file_handler_value fs path max_length analyzers patterns lines stop :
  open_ fs path = Returned (map Line lines ++ stop)%list ->
  (stop = [] \/ exists e more, stop = Fault e :: more) ->
  value (check_file_handler fs path max_length analyzers patterns)
  = match stop with
    | Fault OSError :: _ => Raised OSError
    | _ => Returned (file_findings path max_length analyzers patterns 0 lines)
    end.
Proof.
  intros O S. unfold check_file_handler.
  rewrite value_bind. unfold open_file at 1, value at 2. simpl fst. rewrite O.
  rewrite value_bind, (for_line_value _ _ _ _ _ _ _ S). simpl app.
  destruct S as [->|(e & more & ->)]; [reflexivity|].
  destruct e; reflexivity.
Qed.

Lemma check_file_handler_opens fs path max_length analyzers patterns :
  opened (calls (check_file_handler fs path max_length analyzers patterns))
  = [path].
Proof.
  assert (C : forall i line ans result,
             opened (calls (for_checker path patterns i line ans result)) = []).
  { intros i line ans. induction ans as [|checker rest IH]; intros result;
      [reflexivity|].
    simpl for_checker. rewrite !calls_bind, !opened_app, IH, app_nil_r.
    unfold pattern_findall at 1 2, value, calls at 1. simpl.
    destruct (findall checker line); [reflexivity|].
    rewrite calls_bind, opened_app, check_exclude_pattern_calls.
    assert (P : forall ps, opened (map (fun p => CallMatch p line) ps) = []).
    { induction ps as [|p ps IHps]; [reflexivity | exact IHps]. }
    rewrite P. simpl.
    now destruct (value (check_exclude_pattern patterns line)). }
  assert (L : forall handler i result,
             opened (calls (for_line path max_length analyzers patterns i
                              handler result)) = []).
  { induction handler as [|[line|e] rest IH]; intros i result;
      try reflexivity.
    simpl for_line.
    destruct (Z.of_nat (String.length line) >? max_length)%Z; [apply IH|].
    now rewrite calls_bind, opened_app, C, IH. }
  unfold check_file_handler. rewrite calls_bind, opened_app.
  unfold open_file at 1 2, value at 1, calls at 1. simpl fst. simpl snd.
  rewrite calls_bind, opened_app.
  replace (opened
             (calls
                match open_ fs path with
                | Returned handler =>
                    for_line path max_length analyzers patterns 0 handler []
                | Raised e => ret ([], Some e)
                end)) with ([] : list string)
    by (destruct (open_ fs path); [now rewrite L | reflexivity]).
  simpl.
  match goal with
  | |- context [calls (match ?x with _ => _ end)] =>
      destruct x as [r [[|]|]]; reflexivity
  end.
Qed.

(** ** C6: the suppression check *)

(** C6. The suppression check returns true exactly when some pattern of
    the set matches at position 0 of the raw line, so never for the empty
    set; it tries the patterns in order and stops at the first that
    matches; and a line on which it returns true gets no finding from any
    detector. With the pattern [^#.*], the line
    [# password = ] followed by [example1234] in double quotes yields no
    finding, although the assignment-style detector matches it. *)
Theorem check_exclude_pattern_spec :
  (forall patterns line,
      (value (check_exclude_pattern patterns line) = true <->
       exists pattern w rest,
         In pattern patterns /\ line = w ++ rest
         /\ matches pattern 0 line (String.length w) rest)
      /\ calls (check_exclude_pattern patterns line)
         = map (fun p => CallMatch p line)
             (tried (fun p => is_some (match_ p line)) patterns)
      /\ (forall path i analyzers result,
             value (check_exclude_pattern patterns line) = true ->
             value (for_checker path patterns i line analyzers result) = result))
  /\ (forall line, value (check_exclude_pattern [] line) = false)
  /\ (exists pattern,
         compile "^#.*" = Some pattern
         /\ let line := "# password = " ++ quoted "example1234" in
            findall assignment_detector line
            = ["password = " ++ quoted "example1234"]
            /\ value (check_exclude_pattern [pattern] line) = true
            /\ value (check_file_handler (one_file "conf" line) "src/conf" 1000
                        default_analyzers [pattern])
               = Returned []
            /\ value (check_file_handler (one_file "conf" line) "src/conf" 1000
                        default_analyzers [])
               = Returned [ {| f_file := "src/conf";
                               f_target := "password = " ++ quoted "example1234";
                               f_line := 0;
                               f_string := line |} ]).
Proof.
  split; [|split].
  - intros patterns line. split; [|split].
    + rewrite check_exclude_pattern_value. apply suppressed_iff.
    + apply check_exclude_pattern_calls.
    + intros path i analyzers result S.
      rewrite check_exclude_pattern_value in S. rewrite for_checker_value.
      replace (flat_map (contribution path patterns i line) analyzers)
        with ([] : list finding); [apply app_nil_r|].
      induction analyzers as [|c rest IH]; [reflexivity|].
      simpl. now rewrite contribution_suppressed.
  - reflexivity.
  - eexists. split; [vm_compute; reflexivity|].
    vm_compute. repeat split.
Qed.

Lemma check_exclude_pattern_spec_witness :
  value (check_exclude_pattern [Seq Bol (Seq (Lit "#") Empty)] "# x") = true
  /\ value (for_checker "src/conf" [Seq Bol (Seq (Lit "#") Empty)] 0 "# x"
              default_analyzers [])
     = [].
Proof.
  split; [reflexivity|].
  apply (proj2 (proj2 (proj1 check_exclude_pattern_spec _ _))). reflexivity.
Defined.

(** ** C7: one finding per detector and line *)

(** C7. For a line, each detector contributes at most one finding, in the
    order of the detectors and whatever the other detectors contribute:
    nothing when the detector finds no match or the line is suppressed,
    and otherwise one finding that carries the path, the text of the first
    of the matches that [findall] returns, the zero-based index of the line
    and the line stripped of leading and trailing whitespace. That first
    text is the leftmost match of the detector in the line. The findings of
    a file are those of its lines, in order, the first line having
    index 0. *)
Theorem one_finding_per_detector :
  (forall path patterns i line analyzers result,
      value (for_checker path patterns i line analyzers result)
      = (result ++ flat_map (contribution path patterns i line) analyzers)%list)
  /\ (forall path patterns i line checker,
         (contribution path patterns i line checker = []
          /\ (findall checker line = []
              \/ value (check_exclude_pattern patterns line) = true))
         \/ (exists first others,
                findall checker line = first :: others
                /\ value (check_exclude_pattern patterns line) = false
                /\ contribution path patterns i line checker
                   = [ {| f_file := path; f_target := first; f_line := i;
                          f_string := strip line |} ]))
  /\ (forall checker line first others,
         findall checker line = first :: others ->
         exists pre post,
           line = pre ++ first ++ post
           /\ match_at checker pre first post
           /\ (forall pre1 rest1,
                  line = pre1 ++ rest1 ->
                  String.length pre1 < String.length pre ->
                  forall pos' s',
                    ~ matches checker (String.length pre1) rest1 pos' s'))
  /\ (forall fs path max_length analyzers patterns lines,
         open_ fs path = Returned (map Line lines) ->
         value (check_file_handler fs path max_length analyzers patterns)
         = Returned (file_findings path max_length analyzers patterns 0 lines))
  /\ (let text := "x = 1" ++ String newline
                    ("  secret_key='abcd1234' token=xyz123 token=second  "
                       ++ String newline EmptyString) in
      value (check_file_handler (one_file "app.cfg" text) "src/app.cfg" 1000
               default_analyzers [])
      = Returned
          [ {| f_file := "src/app.cfg"; f_target := "secret_key='abcd1234'";
               f_line := 1;
               f_string := "secret_key='abcd1234' token=xyz123 token=second" |};
            {| f_file := "src/app.cfg"; f_target := "token=xyz123";
               f_line := 1;
               f_string := "secret_key='abcd1234' token=xyz123 token=second" |} ]).
Proof.
  split; [|split; [|split; [|split]]].
  - intros. apply for_checker_value.
  - intros path patterns i line checker. unfold contribution.
    rewrite check_exclude_pattern_value.
    destruct (findall checker line) as [|first others]; [left; split; auto|].
    destruct (suppressed patterns line); [left; split; auto|].
    right. now exists first, others.
  - intros checker line first others. apply findall_first.
  - intros fs path max_length analyzers patterns lines O.
    rewrite (@check_file_handler_value fs path max_length analyzers patterns
               lines []); [reflexivity | now rewrite app_nil_r | now left].
  - vm_compute. reflexivity.
Qed.

Lemma one_finding_per_detector_witness :
  open_ (one_file "f" "token=abcd") "src/f" = Returned (map Line ["token=abcd"])
  /\ value (check_file_handler (one_file "f" "token=abcd") "src/f" 1000
              default_analyzers [])
     = Returned (file_findings "src/f" 1000 default_analyzers [] 0 ["token=abcd"]).
Proof.
  split; [reflexivity|].
  apply (proj1 (proj2 (proj2 (proj2 one_finding_per_detector)))). reflexivity.
Defined.

(** ** C8: lines longer than [max_length] *)

(** C8. A line whose length exceeds [max_length] is passed over: the loop
    goes on with the next line as if the line were not there, so no
    detector is run on it and no finding is added, whatever the line
    contains. A line of 1001 characters that contains [password=]
    followed by [abcd] in double quotes yields no finding with [max_length] 1000, and the only call made for
    its file is the one that opens it. *)
Theorem long_line_skipped :
  (forall path max_length analyzers patterns i line rest result,
      (Z.of_nat (String.length line) > max_length)%Z ->
      for_line path max_length analyzers patterns i (Line line :: rest) result
      = for_line path max_length analyzers patterns (S i) rest result
      /\ for_line path max_length analyzers patterns i [Line line] result
         = ret (result, None)
      /\ line_findings path max_length analyzers patterns i line = [])
  /\ (let line := "password=" ++ quoted "abcd" ++ padding 985
                    ++ String newline EmptyString in
      String.length line = 1001
      /\ check_file_handler (one_file "min.js" line) "src/min.js" 1000
           default_analyzers []
         = (Returned [], [CallOpen "src/min.js"])).
Proof.
  split.
  - intros path max_length analyzers patterns i line rest result L.
    split; [|split].
    + now apply for_line_skip.
    + now rewrite for_line_skip.
    + unfold line_findings.
      destruct (Z.gtb_spec (Z.of_nat (String.length line)) max_length);
        [reflexivity | lia].
  - vm_compute. split; reflexivity.
Qed.

Lemma long_line_skipped_witness :
  (Z.of_nat (String.length "password='abcd'") > 10)%Z
  /\ for_line "f" 10 default_analyzers [] 0 [Line "password='abcd'"] []
     = ret ([], None).
Proof.
  split; [reflexivity|].
  apply (proj1 long_line_skipped "f" 10%Z default_analyzers [] 0
           "password='abcd'" [] []).
  reflexivity.
Defined.

(** ** C10: the newline counts in the length of a line *)

Lemma not_line_end_inv c :
  not_line_end c = true ->
  Ascii.eqb c newline = false /\ Ascii.eqb c cr = false.
Proof.
  unfold not_line_end. intros H. apply negb_true_iff in H.
  now apply orb_false_iff in H.
Qed.

Lemma not_line_end_not_newline content :
  all_chars not_line_end content = true ->
  all_chars not_newline content = true.
Proof.
  induction content as [|c content IH]; [reflexivity|]. simpl. intros H.
  apply andb_true_iff in H. destruct H as [Hc H].
  apply not_line_end_inv in Hc. destruct Hc as [Hc _].
  rewrite (IH H). unfold not_newline. now rewrite Hc.
Qed.

Lemma lines_from_line content :
  all_chars not_line_end content = true ->
  forall cur more,
    lines_from cur (content ++ String newline more)
    = cur (content ++ String newline EmptyString) :: readlines more.
Proof.
  induction content as [|c content IH]; intros N cur more.
  - reflexivity.
  - simpl in N. apply andb_true_iff in N. destruct N as [Nc N].
    apply not_line_end_inv in Nc. destruct Nc as [Nl Nr].
    simpl. rewrite Nl, Nr.
    exact (IH N (fun t => cur (String c t)) more).
Qed.

Lemma lines_from_crlf content :
  all_chars not_line_end content = true ->
  forall cur more,
    lines_from cur (content ++ String cr (String newline more))
    = cur (content ++ String newline EmptyString) :: readlines more.
Proof.
  induction content as [|c content IH]; intros N cur more.
  - reflexivity.
  - simpl in N. apply andb_true_iff in N. destruct N as [Nc N].
    apply not_line_end_inv in Nc. destruct Nc as [Nl Nr].
    simpl. rewrite Nl, Nr.
    exact (IH N (fun t => cur (String c t)) more).
Qed.

Lemma lines_from_last content :
  all_chars not_line_end content = true ->
  forall cur,
    lines_from cur content
    = match cur content with EmptyString => [] | l => [l] end.
Proof.
  induction content as [|c content IH]; intros N cur.
  - reflexivity.
  - simpl in N. apply andb_true_iff in N. destruct N as [Nc N].
    apply not_line_end_inv in Nc. destruct Nc as [Nl Nr].
    simpl. rewrite Nl, Nr.
    exact (IH N (fun t => cur (String c t))).
Qed.

(** C10, as it is stated, fails: the last line of a file that does
    not end with a newline is read without one. With [max_length] 10, the
    ten characters [token=abcd] at the end of such a file are a line whose
    content has exactly [max_length] characters; it measures 10, not 11,
    it is not passed over, and the finding is returned. *)
Lemma unterminated_line_is_not_skipped :
  ~ (forall text max_length i line,
        nth_error (readlines text) i = Some line ->
        Z.of_nat (String.length (content_of line)) = max_length ->
        Z.of_nat (String.length line) = (max_length + 1)%Z
        /\ forall result f,
             value (check_file_handler (one_file "a" text) "src/a" max_length
                      default_analyzers [])
             = Returned result ->
             In f result -> f_line f <> i).
Proof.
  intros H.
  destruct (H "token=abcd" 10%Z 0 "token=abcd" eq_refl eq_refl) as [_ F].
  apply (F [ {| f_file := "src/a"; f_target := "token=abcd"; f_line := 0;
                f_string := "token=abcd" |} ]
           {| f_file := "src/a"; f_target := "token=abcd"; f_line := 0;
              f_string := "token=abcd" |}).
  - vm_compute. reflexivity.
  - now left.
  - reflexivity.
Qed.

(** C10 (amended). The length that is compared with [max_length] is the
    one of the line as read, with the newline that ends it: a line feed,
    or a carriage return with or without a line feed, which a file opened
    in text mode gives as one newline. A line that ends with a newline and
    whose content, without the newline, has exactly [max_length]
    characters is read as a line of [max_length + 1] characters and is
    passed over, so no detector is run on it. A last line that no newline
    ends is read as it is: with exactly [max_length] characters it is not
    passed over and the detectors are run on it. With [max_length] 10, the
    line [token=abcd] followed by a newline, or by a carriage return and a
    line feed, yields nothing, and the same ten characters at the end of a
    file without a final newline are found. *)
Theorem newline_counts_in_line_length :
  (forall content max_length,
      all_chars not_line_end content = true ->
      Z.of_nat (String.length content) = max_length ->
      forall more path analyzers patterns i rest result,
        readlines (content ++ String newline more)
        = (content ++ String newline EmptyString) :: readlines more
        /\ readlines (content ++ String cr (String newline more))
           = (content ++ String newline EmptyString) :: readlines more
        /\ Z.of_nat (String.length (content ++ String newline EmptyString))
           = (max_length + 1)%Z
        /\ for_line path max_length analyzers patterns i
             (Line (content ++ String newline EmptyString) :: rest) result
           = for_line path max_length analyzers patterns (S i) rest result
        /\ line_findings path max_length analyzers patterns i
             (content ++ String newline EmptyString) = [])
  /\ (forall content max_length,
         all_chars not_line_end content = true ->
         content <> EmptyString ->
         Z.of_nat (String.length content) = max_length ->
         forall path analyzers patterns i rest result,
           readlines content = [content]
           /\ for_line path max_length analyzers patterns i
                (Line content :: rest) result
              = (result' <- for_checker path patterns i content analyzers
                              result ;;
                 for_line path max_length analyzers patterns (S i) rest
                   result'))
  /\ check_file_handler
       (one_file "a" ("token=abcd" ++ String newline EmptyString)) "src/a" 10
       default_analyzers []
     = (Returned [], [CallOpen "src/a"])
  /\ check_file_handler
       (one_file "a" ("token=abcd" ++ String cr (String newline EmptyString)))
       "src/a" 10 default_analyzers []
     = (Returned [], [CallOpen "src/a"])
  /\ value (check_file_handler (one_file "a" "token=abcd") "src/a" 10
              default_analyzers [])
     = Returned [ {| f_file := "src/a"; f_target := "token=abcd"; f_line := 0;
                     f_string := "token=abcd" |} ].
Proof.
  split; [|split; [|repeat split; vm_compute; reflexivity]].
  - intros content max_length N L more path analyzers patterns i rest result.
    assert (L' : Z.of_nat
                   (String.length (content ++ String newline EmptyString))
                 = (max_length + 1)%Z).
    { rewrite length_append. simpl. lia. }
    split; [|split; [|split; [|split]]].
    + unfold readlines at 1. now rewrite lines_from_line.
    + unfold readlines at 1. now rewrite lines_from_crlf.
    + exact L'.
    + apply for_line_skip. lia.
    + unfold line_findings.
      destruct (Z.gtb_spec
                  (Z.of_nat
                     (String.length (content ++ String newline EmptyString)))
                  max_length); [reflexivity | lia].
  - intros content max_length N E L path analyzers patterns i rest result.
    split.
    + unfold readlines. rewrite lines_from_last by assumption.
      destruct content; [congruence | reflexivity].
    + simpl for_line.
      destruct (Z.gtb_spec (Z.of_nat (String.length content)) max_length);
        [lia | reflexivity].
Qed.

Lemma newline_counts_in_line_length_witness :
  (all_chars not_line_end "token=abcd" = true
   /\ Z.of_nat (String.length "token=abcd") = 10%Z)
  /\ readlines ("token=abcd" ++ String newline "next")
     = ("token=abcd" ++ String newline EmptyString) :: readlines "next"
  /\ readlines ("token=abcd" ++ String cr (String newline "next"))
     = ("token=abcd" ++ String newline EmptyString) :: readlines "next".
Proof.
  split; [split; reflexivity|].
  destruct (proj1 newline_counts_in_line_length "token=abcd" 10%Z eq_refl
              eq_refl "next" EmptyString [] [] 0 [] []) as (A & B & _).
  split; [exact A | exact B].
Defined.

(** ** C5: the empty keyword list *)

(** C5, as the specification states it, fails: for the empty list the
    builder produces a pattern, the empty one, and the detectors are
    compiled from it. *)
Lemma empty_keyword_list_builds_a_pattern :
  ~ (forall pattern : string, build_bad_words [] <> pattern)
  /\ build_bad_words [] = EmptyString
  /\ exists a u,
       build_regex_analyzers DEFAULT_ANALYZERS (build_bad_words []) = Some [a; u]
       /\ findall a ": 'abcd'" = [": 'abcd'"].
Proof.
  split; [|split].
  - intros H. now apply (H EmptyString).
  - reflexivity.
  - eexists. eexists. split; [vm_compute; reflexivity|].
    vm_compute. reflexivity.
Qed.

(** C5 (amended). For the empty keyword list the builder raises nothing:
    it returns the empty pattern. The script does not hand it an empty
    list: when no keyword was read, it builds the pattern from the default
    keywords, and otherwise from the keywords read. *)
Theorem build_bad_words_empty :
  build_bad_words [] = EmptyString
  /\ main_analyzers []
     = build_regex_analyzers DEFAULT_ANALYZERS (build_bad_words DEFAULT_BAD_WORDS)
  /\ (forall words,
         words <> [] ->
         main_analyzers words
         = build_regex_analyzers DEFAULT_ANALYZERS (build_bad_words words)).
Proof.
  split; [reflexivity|]. split; [reflexivity|].
  intros [|w words] N; [congruence | reflexivity].
Qed.

Lemma build_bad_words_empty_witness :
  ["key"] <> ([] : list string)
  /\ main_analyzers ["key"]
     = build_regex_analyzers DEFAULT_ANALYZERS (build_bad_words ["key"]).
Proof.
  split; [discriminate|].
  apply (proj2 (proj2 build_bad_words_empty)). discriminate.
Defined.

(** ** C9: files that do not decode *)

Lemma for_file_step fs limit max_length analyzers patterns include_paths
  exclude_paths root file rest counter result :
  accepted include_paths exclude_paths (path_join root file) = true ->
  (counter <= limit)%Z ->
  value (for_file fs limit max_length analyzers patterns include_paths
           exclude_paths root (file :: rest) counter result)
  = match value (check_file_handler fs (path_join root file) max_length
                   analyzers patterns) with
    | Returned more =>
        value (for_file fs limit max_length analyzers patterns include_paths
                 exclude_paths root rest (counter + 1)%Z (result ++ more)%list)
    | Raised e => Raise e
    end.
Proof.
  intros A L. simpl for_file.
  rewrite value_bind, can_analyze_file_value, A. simpl negb. cbv iota.
  destruct (Z.gtb_spec counter limit); [lia|].
  rewrite value_bind.
  now destruct (value (check_file_handler fs (path_join root file) max_length
                         analyzers patterns)).
Qed.

(** C9. When the reads of a file fail with a decoding error after some
    lines, the line evaluator returns, as an ordinary result, exactly the
    findings of the lines read before the failure, and the loop over the
    files goes on with the next file, the file counted and these findings
    kept. In the example the first file stops decoding after its first
    line: its finding is reported, and so is the one of the second file. *)
Theorem decode_failure_keeps_earlier_findings :
  (forall fs path max_length analyzers patterns lines more,
      open_ fs path
      = Returned (map Line lines ++ Fault UnicodeDecodeError :: more)%list ->
      value (check_file_handler fs path max_length analyzers patterns)
      = Returned (file_findings path max_length analyzers patterns 0 lines)
      /\ (forall limit include_paths exclude_paths root file rest counter result,
             path_join root file = path ->
             accepted include_paths exclude_paths path = true ->
             (counter <= limit)%Z ->
             value (for_file fs limit max_length analyzers patterns
                      include_paths exclude_paths root (file :: rest)
                      counter result)
             = value (for_file fs limit max_length analyzers patterns
                        include_paths exclude_paths root rest (counter + 1)%Z
                        (result
                         ++ file_findings path max_length analyzers patterns 0
                              lines)%list)))
  /\ value (start_digging
              (files [("blob", [Line ("password='abcd'" ++ String newline "");
                                Fault UnicodeDecodeError;
                                Line "token=never_read"]);
                      ("b.txt", text_file "token=abcd")])
              "src" 100 1000 default_analyzers [] [] [])
     = Returned (2%Z,
                 [ {| f_file := "src/blob"; f_target := "password='abcd'";
                      f_line := 0; f_string := "password='abcd'" |};
                   {| f_file := "src/b.txt"; f_target := "token=abcd";
                      f_line := 0; f_string := "token=abcd" |} ]).
Proof.
  split; [|vm_compute; reflexivity].
  intros fs path max_length analyzers patterns lines more O.
  assert (V : value (check_file_handler fs path max_length analyzers patterns)
              = Returned (file_findings path max_length analyzers patterns 0 lines)).
  { rewrite (@check_file_handler_value fs path max_length analyzers patterns
               lines (Fault UnicodeDecodeError :: more) O); [reflexivity|].
    right. now exists UnicodeDecodeError, more. }
  split; [exact V|].
  intros limit include_paths exclude_paths root file rest counter result <- A L.
  rewrite for_file_step by assumption. now rewrite V.
Qed.

Lemma decode_failure_keeps_earlier_findings_witness :
  open_ (files [("blob", [Line "token=abcd"; Fault UnicodeDecodeError])])
    "src/blob"
  = Returned (map Line ["token=abcd"] ++ [Fault UnicodeDecodeError])%list
  /\ value (check_file_handler
              (files [("blob", [Line "token=abcd"; Fault UnicodeDecodeError])])
              "src/blob" 1000 default_analyzers [])
     = Returned (file_findings "src/blob" 1000 default_analyzers [] 0 ["token=abcd"]).
Proof.
  split; [reflexivity|].
  apply (proj1 (proj1 decode_failure_keeps_earlier_findings
                  (files [("blob", [Line "token=abcd"; Fault UnicodeDecodeError])])
                  "src/blob" 1000%Z default_analyzers [] ["token=abcd"] [] eq_refl)).
Defined.

(** ** C2: the ceiling on the number of files *)

Lemma bind_ext (A B : Type) (m : M A) (f g : A -> M B) :
  (forall a, f a = g a) -> bind m f = bind m g.
Proof. intros E. destruct m as [a t]. unfold bind. now rewrite E. Qed.

Lemma for_file_scan fs limit max_length analyzers patterns include_paths
  exclude_paths root file_list :
  forall counter result,
    for_file fs limit max_length analyzers patterns include_paths exclude_paths
      root file_list counter result
    = scan fs limit max_length analyzers patterns include_paths exclude_paths
        (map (path_join root) file_list) counter result.
Proof.
  induction file_list as [|file rest IH]; intros counter result;
    [reflexivity|].
  simpl. apply bind_ext. intros ok.
  destruct (negb ok); [apply IH|].
  destruct (counter >? limit)%Z; [reflexivity|].
  apply bind_ext. intros [more|e]; [apply IH | reflexivity].
Qed.

Lemma scan_app fs limit max_length analyzers patterns include_paths
  exclude_paths paths1 paths2 :
  forall counter result,
    scan fs limit max_length analyzers patterns include_paths exclude_paths
      (paths1 ++ paths2)%list counter result
    = (f <- scan fs limit max_length analyzers patterns include_paths
              exclude_paths paths1 counter result ;;
       match f with
       | Continue counter result =>
           scan fs limit max_length analyzers patterns include_paths
             exclude_paths paths2 counter result
       | other => ret other
       end).
Proof.
  induction paths1 as [|path rest IH]; intros counter result.
  - simpl. now rewrite bind_ret_l.
  - simpl. rewrite bind_assoc. apply bind_ext. intros ok.
    destruct (negb ok); [apply IH|].
    destruct (counter >? limit)%Z; [now rewrite bind_ret_l|].
    rewrite bind_assoc. apply bind_ext. intros [more|e];
      [apply IH | now rewrite bind_ret_l].
Qed.

Lemma for_root_scan fs limit max_length analyzers patterns include_paths
  exclude_paths dirs :
  forall counter result,
    for_root fs limit max_length analyzers patterns include_paths exclude_paths
      dirs counter result
    = (f <- scan fs limit max_length analyzers patterns include_paths
              exclude_paths (paths_of dirs) counter result ;;
       ret (finish f)).
Proof.
  induction dirs as [|[[root subfolder_list] file_list] rest IH];
    intros counter result.
  - simpl. now rewrite bind_ret_l.
  - simpl for_root. unfold paths_of. simpl flat_map. fold (paths_of rest).
    rewrite scan_app, bind_assoc, for_file_scan. apply bind_ext.
    intros [c r|c r|e]; [apply IH | now rewrite bind_ret_l ..].
Qed.

Lemma opened_fnmatch path globs : opened (map (CallFnmatch path) globs) = [].
Proof. induction globs as [|g globs IH]; [reflexivity | exact IH]. Qed.

Section Ceiling.
Variable fs : filesystem.
Variables limit max_length : Z.
Variables analyzers patterns : list regex.
Variables include_paths exclude_paths : list string.

Lemma scan_ceiling paths :
  forall counter result,
    (counter <= limit + 1)%Z ->
    Z.to_nat (limit + 1 - counter) <= length (eligible include_paths exclude_paths paths) ->
    finish (value (scan fs limit max_length analyzers patterns include_paths
                     exclude_paths paths counter result))
    = match collect fs max_length analyzers patterns
              (firstn (Z.to_nat (limit + 1 - counter))
                 (eligible include_paths exclude_paths paths)) result with
      | Returned r => Returned ((limit + 1)%Z, r)
      | Raised e => Raised e
      end.
Proof.
  induction paths as [|path rest IH]; intros counter result C K.
  - simpl in K. assert (counter = (limit + 1)%Z) as -> by lia.
    now rewrite firstn_nil.
  - simpl scan. rewrite value_bind, can_analyze_file_value.
    simpl eligible in *.
    destruct (accepted include_paths exclude_paths path); simpl negb; cbv iota.
    + destruct (Z.gtb_spec counter limit) as [G|G].
      * assert (counter = (limit + 1)%Z) as -> by lia.
        now replace (Z.to_nat (limit + 1 - (limit + 1))) with 0 by lia.
      * replace (Z.to_nat (limit + 1 - counter))
          with (S (Z.to_nat (limit + 1 - (counter + 1)))) in * by lia.
        simpl firstn. simpl collect. rewrite value_bind.
        destruct (value (check_file_handler fs path max_length analyzers
                           patterns)) as [more|e]; [|reflexivity].
        apply IH; [lia|]. simpl in K. lia.
    + now apply IH.
Qed.

Lemma scan_opens paths :
  forall counter result r,
    (counter <= limit + 1)%Z ->
    Z.to_nat (limit + 1 - counter) <= length (eligible include_paths exclude_paths paths) ->
    collect fs max_length analyzers patterns
      (firstn (Z.to_nat (limit + 1 - counter))
         (eligible include_paths exclude_paths paths)) result
    = Returned r ->
    opened (calls (scan fs limit max_length analyzers patterns include_paths
                     exclude_paths paths counter result))
    = firstn (Z.to_nat (limit + 1 - counter)) (eligible include_paths exclude_paths paths).
Proof.
  induction paths as [|path rest IH]; intros counter result r C K R.
  - now rewrite firstn_nil.
  - simpl scan.
    rewrite calls_bind, opened_app, can_analyze_file_calls, opened_fnmatch,
      can_analyze_file_value.
    simpl eligible in *. simpl app.
    destruct (accepted include_paths exclude_paths path); simpl negb; cbv iota.
    + destruct (Z.gtb_spec counter limit) as [G|G].
      * assert (counter = (limit + 1)%Z) as -> by lia.
        now replace (Z.to_nat (limit + 1 - (limit + 1))) with 0 by lia.
      * replace (Z.to_nat (limit + 1 - counter))
          with (S (Z.to_nat (limit + 1 - (counter + 1)))) in * by lia.
        simpl firstn in *. simpl collect in R.
        rewrite calls_bind, opened_app, check_file_handler_opens.
        destruct (value (check_file_handler fs path max_length analyzers
                           patterns)) as [more|e]; [|discriminate].
        simpl app. f_equal. apply (IH _ _ r); [lia | simpl in K; lia | exact R].
    + now apply (IH _ _ r).
Qed.

End Ceiling.

(** C2, as the specification states it, fails for a limit below -1: the
    walk stops at the first eligible file with the counter at 0. *)
Lemma negative_limit_counts_nothing :
  ~ (forall fs root_path limit max_length analyzers patterns include_paths
       exclude_paths,
        (limit < Z.of_nat (length (eligible include_paths exclude_paths
                                     (paths_of (walk fs root_path)))))%Z ->
        exists result,
          value (start_digging fs root_path limit max_length analyzers patterns
                   include_paths exclude_paths)
          = Returned ((limit + 1)%Z, result)).
Proof.
  intros H.
  destruct (H (one_file "a" "token=abcd") "src" (-2)%Z 1000%Z default_analyzers
              [] [] []) as [result E]; [vm_compute; reflexivity|].
  vm_compute in E. discriminate.
Qed.

(** C2 (amended). For a limit of at least -1: the counter is compared with
    the limit by a strict greater-than before it is incremented, so when
    more than [limit] files are eligible, the first [limit + 1] eligible
    files of the walk, and no others, are counted and passed to the line
    evaluator; the scan then gives back the counter [limit + 1] and the
    findings of these files as an ordinary result. An exception of the
    line evaluator, which is not a decoding failure, leaves the scan at the
    file that raises it. *)
Theorem start_digging_ceiling fs root_path limit max_length analyzers patterns
  include_paths exclude_paths :
  let candidates :=
    eligible include_paths exclude_paths (paths_of (walk fs root_path)) in
  let scanned := firstn (Z.to_nat (limit + 1)) candidates in
  (-1 <= limit)%Z ->
  (limit < Z.of_nat (length candidates))%Z ->
  Z.of_nat (length scanned) = (limit + 1)%Z
  /\ value (start_digging fs root_path limit max_length analyzers patterns
              include_paths exclude_paths)
     = match collect fs max_length analyzers patterns scanned [] with
       | Returned result => Returned ((limit + 1)%Z, result)
       | Raised e => Raised e
       end
  /\ (forall result,
         collect fs max_length analyzers patterns scanned [] = Returned result ->
         opened (calls (start_digging fs root_path limit max_length analyzers
                          patterns include_paths exclude_paths))
         = scanned).
Proof.
  intros candidates scanned L1 L2.
  assert (K : Z.to_nat (limit + 1 - 0) <= length candidates) by lia.
  assert (E : Z.to_nat (limit + 1 - 0) = Z.to_nat (limit + 1)) by (f_equal; lia).
  split; [|split].
  - unfold scanned. rewrite firstn_length_le by lia. lia.
  - unfold start_digging. rewrite for_root_scan, value_bind.
    unfold ret at 1, value at 1. simpl fst.
    rewrite scan_ceiling by (fold candidates; lia).
    fold candidates. now rewrite E.
  - intros result R. unfold start_digging.
    rewrite for_root_scan, calls_bind, opened_app.
    unfold ret at 1, calls at 2. simpl snd. rewrite app_nil_r.
    rewrite (@scan_opens fs limit max_length analyzers patterns include_paths
               exclude_paths (paths_of (walk fs root_path)) 0%Z [] result);
      fold candidates; rewrite ?E; [reflexivity | lia | lia | exact R].
Qed.

(** With a limit of 2 and five eligible files, three files are opened and
    the counter is 3. *)
Lemma start_digging_ceiling_witness :
  ((-1 <= 2)%Z
   /\ (2 < Z.of_nat (length (eligible [] [] (paths_of (walk five_files "src")))))%Z)
  /\ value (start_digging five_files "src" 2 1000 default_analyzers [] [] [])
     = Returned (3%Z,
                 [ {| f_file := "src/a"; f_target := "token=abcd"; f_line := 0;
                      f_string := "token=abcd" |};
                   {| f_file := "src/lib/c"; f_target := "pass: 'word'";
                      f_line := 0;
                      f_string := "pass: 'word'" |} ])
  /\ opened (calls (start_digging five_files "src" 2 1000 default_analyzers
                      [] [] []))
     = ["src/a"; "src/b"; "src/lib/c"].
Proof.
  assert (L1 : (-1 <= 2)%Z) by lia.
  assert (L2 : (2 < Z.of_nat (length (eligible [] []
                                        (paths_of (walk five_files "src")))))%Z)
    by (vm_compute; reflexivity).
  split; [split; assumption|].
  destruct (@start_digging_ceiling five_files "src" 2%Z 1000%Z default_analyzers
              [] [] [] L1 L2) as (_ & V & O).
  split.
  - rewrite V. vm_compute. reflexivity.
  - rewrite (O _ eq_refl). vm_compute. reflexivity.
Defined.

(** ** The detectors of any list of plain keywords *)

Lemma plain_spec c :
  plain c = true ->
  Ascii.eqb c "\" = false /\ Ascii.eqb c "]" = false
  /\ Ascii.eqb c "^" = false /\ Ascii.eqb c "-" = false.
Proof.
  unfold plain, char_in. simpl. intros H. apply negb_true_iff in H.
  repeat (apply orb_false_iff in H; destruct H as [? H]). auto.
Qed.

Lemma combine_upper_lower word :
  combine (chars (upper word)) (chars (lower word))
  = map (fun k => (upper_char k, lower_char k)) (chars word).
Proof.
  induction word as [|k word IH]; [reflexivity|].
  unfold chars, upper, lower in *. simpl. now rewrite IH.
Qed.

Lemma fold_letters word :
  forall rule,
    fold_left
      (fun rule ul => rule ++ "[" ++ String (fst ul) (String (snd ul) "]"))
      (map (fun k => (upper_char k, lower_char k)) (chars word)) rule
    = rule ++ letters word.
Proof.
  induction word as [|k word IH]; intros rule.
  - simpl. now rewrite append_nil_r.
  - unfold chars in *. simpl. rewrite IH, append_assoc. reflexivity.
Qed.

Lemma build_bad_words_rules words :
  build_bad_words words = join "|" (map rule_of words).
Proof.
  unfold build_bad_words. f_equal. apply map_ext. intros word.
  rewrite combine_upper_lower, fold_letters, append_assoc. reflexivity.
Qed.

Lemma parse_items_close n r :
  parse_items (S n) false (String "]" r) = Some ([], r).
Proof. reflexivity. Qed.

Lemma parse_items_plain n first c d r :
  plain c = true ->
  Ascii.eqb d "-" = false ->
  parse_items (S n) first (String c (String d r))
  = match parse_items n false (String d r) with
    | Some (its, r') => Some ((c, c) :: its, r')
    | None => None
    end.
Proof.
  intros Hc Hd. destruct (plain_spec c Hc) as (C1 & C2 & C3 & C4).
  simpl. rewrite C2, C1. simpl andb. cbv iota.
  destruct r as [|c2 r]; [reflexivity|]. now rewrite Hd.
Qed.

Lemma parse_set_letter u l rest :
  plain u = true -> plain l = true ->
  parse_set (String u (String l (String "]" rest)))
  = Some (CharSet false [(u, u); (l, l)], rest).
Proof.
  intros Hu Hl.
  destruct (plain_spec u Hu) as (U1 & U2 & U3 & U4).
  destruct (plain_spec l Hl) as (L1 & L2 & L3 & L4).
  unfold parse_set. rewrite U3.
  change (String.length (String u (String l (String "]" rest))))
    with (S (S (S (String.length rest)))).
  rewrite parse_items_plain by assumption.
  rewrite parse_items_plain by (assumption || reflexivity).
  now rewrite parse_items_close.
Qed.

Lemma parse_quantifier_none atom c r :
  char_in c ["["; ")"; "|"; "("]%char = true ->
  parse_quantifier atom (String c r) = Some (atom, String c r).
Proof.
  unfold char_in. simpl. intros H.
  repeat (apply orb_true_iff in H; destruct H as [H|H]);
    try discriminate; apply Ascii.eqb_eq in H; subst c; reflexivity.
Qed.

Lemma letters_head word more :
  exists c r,
    letters word ++ String ")" more = String c r
    /\ char_in c ["["; ")"; "|"; "("]%char = true.
Proof.
  destruct word as [|k word]; simpl; eexists; eexists; split; reflexivity.
Qed.

Lemma parse_letters word :
  forall fuel more,
    plain_word word = true ->
    String.length (letters word) < fuel ->
    parse_seq fuel (letters word ++ String ")" more)
    = Some (word_regex word, String ")" more).
Proof.
  induction word as [|k word IH]; intros fuel more P L.
  - destruct fuel as [|fuel]; [simpl in L; lia | reflexivity].
  - simpl in P. apply andb_true_iff in P. destruct P as [Pk P].
    apply andb_true_iff in Pk. destruct Pk as [Pu Pl].
    destruct fuel as [|fuel]; [simpl in L; lia|].
    simpl letters. simpl append.
    change (parse_seq (S fuel)
              (String "[" (String (upper_char k) (String (lower_char k)
                 (String "]" (letters word ++ String ")" more))))))
      with (match parse_set (String (upper_char k) (String (lower_char k)
                      (String "]" (letters word ++ String ")" more)))) with
            | None => None
            | Some (a, r) =>
                match parse_quantifier a r with
                | None => None
                | Some (q, r') =>
                    match parse_seq fuel r' with
                    | Some (rest, r'') => Some (Seq q rest, r'')
                    | None => None
                    end
                end
            end).
    rewrite parse_set_letter by assumption.
    destruct (letters_head word more) as (c & r & E & Hc).
    rewrite E, parse_quantifier_none by assumption. rewrite <- E.
    rewrite IH; [reflexivity | assumption | simpl in L; lia].
Qed.

Lemma parse_seq_stop fuel c r :
  char_in c [")"; "|"]%char = true ->
  parse_seq (S fuel) (String c r) = Some (Empty, String c r).
Proof.
  unfold char_in. simpl. intros H.
  repeat (apply orb_true_iff in H; destruct H as [H|H]);
    try discriminate; apply Ascii.eqb_eq in H; subst c; reflexivity.
Qed.

Lemma length_rule_of word :
  String.length (rule_of word) = String.length (letters word) + 4.
Proof. unfold rule_of. simpl. rewrite length_append. simpl. lia. Qed.

Lemma rule_of_append word rest :
  rule_of word ++ rest
  = String "(" (String "?" (String ":" (letters word ++ String ")" rest))).
Proof. unfold rule_of. simpl. now rewrite append_assoc. Qed.

Lemma parse_rule word fuel c more :
  plain_word word = true ->
  char_in c [")"; "|"]%char = true ->
  String.length (rule_of word) <= fuel ->
  parse_seq fuel (rule_of word ++ String c more)
  = Some (Seq (word_regex word) Empty, String c more).
Proof.
  intros P Hc L. rewrite length_rule_of in L.
  destruct fuel as [|[|[|fuel]]]; try lia.
  rewrite rule_of_append.
  change (parse_seq (S (S (S fuel)))
            (String "(" (String "?" (String ":"
               (letters word ++ String ")" (String c more))))))
    with (match
             match
               match parse_seq (S fuel)
                       (letters word ++ String ")" (String c more)) with
               | Some (a, String "|" r) =>
                   match parse_alt (S fuel) r with
                   | Some (b, r') => Some (Branch a b, r')
                   | None => None
                   end
               | other => other
               end
             with
             | Some (a, String ")" r') => Some (a, r')
             | _ => None
             end
           with
           | None => None
           | Some (a, r) =>
               match parse_quantifier a r with
               | None => None
               | Some (q, r') =>
                   match parse_seq (S (S fuel)) r' with
                   | Some (rest, r'') => Some (Seq q rest, r'')
                   | None => None
                   end
               end
           end).
  rewrite parse_letters by (assumption || lia).
  cbv iota beta.
  assert (Hc' : char_in c ["["; ")"; "|"; "("]%char = true).
  { unfold char_in in *. simpl in *.
    destruct (Ascii.eqb c ")"), (Ascii.eqb c "|");
      simpl in *; try discriminate; now rewrite ?orb_true_r. }
  rewrite parse_quantifier_none by assumption.
  now rewrite parse_seq_stop by assumption.
Qed.

Lemma length_cons c (s : string) :
  String.length (String c s) = S (String.length s).
Proof. reflexivity. Qed.

Lemma parse_alt_step fuel s :
  parse_alt (S fuel) s
  = match parse_seq fuel s with
    | Some (a, String "|" r) =>
        match parse_alt fuel r with
        | Some (b, r') => Some (Branch a b, r')
        | None => None
        end
    | other => other
    end.
Proof. reflexivity. Qed.

Lemma parse_words words :
  forall fuel more,
    words <> [] ->
    forallb plain_word words = true ->
    String.length (join "|" (map rule_of words)) < fuel ->
    parse_alt fuel (join "|" (map rule_of words) ++ String ")" more)
    = Some (words_regex words, String ")" more).
Proof.
  induction words as [|word rest IH]; intros fuel more N P L; [congruence|].
  simpl in P. apply andb_true_iff in P. destruct P as [Pw P].
  destruct fuel as [|fuel]; [lia|].
  destruct rest as [|word' rest].
  - assert (L0 : String.length (rule_of word) < S fuel) by exact L.
    change (join "|" (map rule_of [word])) with (rule_of word).
    rewrite parse_alt_step.
    rewrite parse_rule; [reflexivity | exact Pw | reflexivity | lia].
  - assert (E : join "|" (map rule_of (word :: word' :: rest))
                = rule_of word
                  ++ String "|" (join "|" (map rule_of (word' :: rest))))
      by reflexivity.
    rewrite E in *. rewrite length_append, length_cons in L.
    rewrite append_assoc. simpl append at 2.
    rewrite parse_alt_step.
    rewrite parse_rule; [| exact Pw | reflexivity | lia].
    rewrite IH; [reflexivity | discriminate | assumption | lia].
Qed.

Lemma parse_seq_group fuel r :
  parse_seq (S fuel) (String "(" (String "?" (String ":" r)))
  = match
      match parse_alt fuel r with
      | Some (a, String ")" r') => Some (a, r')
      | _ => None
      end
    with
    | None => None
    | Some (a, r0) =>
        match parse_quantifier a r0 with
        | None => None
        | Some (q, r') =>
            match parse_seq fuel r' with
            | Some (rest, r'') => Some (Seq q rest, r'')
            | None => None
            end
        end
    end.
Proof. reflexivity. Qed.

(** The pattern that [build_regex_analyzers] hands to [re.compile]
    compiles to the detector of the keywords, for every list of plain
    keywords that is not empty. *)
Lemma compile_detector words rule tail :
  words <> [] ->
  forallb plain_word words = true ->
  (forall n,
      parse_seq (30 + n) ("(?:[a-zA-Z_][a-zA-Z0-9_]*)?" ++ rule)
      = Some (Seq suffix_regex tail, EmptyString)) ->
  compile ("(?:" ++ build_bad_words words ++ ")(?:[a-zA-Z_][a-zA-Z0-9_]*)?"
           ++ rule)
  = Some (detector words tail).
Proof.
  intros N P H. rewrite build_bad_words_rules.
  set (B := join "|" (map rule_of words)).
  set (T := "(?:[a-zA-Z_][a-zA-Z0-9_]*)?" ++ rule).
  change ("(?:" ++ B ++ ")(?:[a-zA-Z_][a-zA-Z0-9_]*)?" ++ rule)
    with (String "(" (String "?" (String ":" (B ++ String ")" T)))).
  unfold compile.
  assert (F : exists f,
             2 * String.length
                   (String "(" (String "?" (String ":" (B ++ String ")" T))))
             + 4 = S (S (30 + f))
             /\ String.length B < 30 + f).
  { exists (2 * String.length B + 2 * String.length T - 20).
    rewrite !length_cons, length_append, length_cons.
    assert (27 <= String.length T)
      by (unfold T; rewrite length_append; simpl; lia).
    lia. }
  destruct F as (f & -> & LB).
  rewrite parse_alt_step, parse_seq_group.
  unfold B in *. rewrite parse_words by assumption.
  cbv iota beta.
  assert (E : exists t, T = String "(" t) by (eexists; reflexivity).
  destruct E as (t & E). rewrite E, parse_quantifier_none by reflexivity.
  rewrite <- E. unfold T. rewrite H. reflexivity.
Qed.

Lemma analyzers_of_plain_words words :
  words <> [] ->
  forallb plain_word words = true ->
  build_regex_analyzers DEFAULT_ANALYZERS (build_bad_words words)
  = Some [detector words assignment_tail; detector words url_tail].
Proof.
  intros N P. unfold build_regex_analyzers, DEFAULT_ANALYZERS.
  cbv zeta. cbn [fold_left].
  rewrite (@compile_detector words _ assignment_tail N P)
    by (intros n; reflexivity).
  rewrite (@compile_detector words _ url_tail N P)
    by (intros n; reflexivity).
  reflexivity.
Qed.

Lemma main_analyzers_of_plain_words words :
  words <> [] ->
  forallb plain_word words = true ->
  main_analyzers words
  = Some [detector words assignment_tail; detector words url_tail].
Proof.
  intros N P. unfold main_analyzers.
  destruct words as [|w words]; [congruence|].
  now apply analyzers_of_plain_words.
Qed.

(** ** C3 and C4: what the two detectors find *)

Lemma anchor_free_word word : anchor_free (word_regex word) = true.
Proof. induction word as [|k word IH]; [reflexivity | exact IH]. Qed.

Lemma anchor_free_words words : anchor_free (words_regex words) = true.
Proof.
  induction words as [|word rest IH]; [reflexivity|].
  destruct rest as [|word' rest].
  - simpl. now rewrite anchor_free_word.
  - change (anchor_free (words_regex (word :: word' :: rest)))
      with (anchor_free (word_regex word) && true
            && anchor_free (words_regex (word' :: rest)))%bool.
    now rewrite anchor_free_word, IH.
Qed.

Lemma anchor_free_detector words tail :
  anchor_free tail = true -> anchor_free (detector words tail) = true.
Proof.
  intros H. unfold detector. simpl. now rewrite anchor_free_words, H.
Qed.

Lemma lang_assignment words m :
  words <> [] ->
  lang (detector words assignment_tail) m <-> assignment_shape words m.
Proof.
  intros N. rewrite lang_detector by assumption.
  unfold assignment_shape. split.
  - intros (kw & suffix & rest & -> & H1 & H2 & H3).
    apply lang_assignment_tail in H3.
    destruct H3 as (sp1 & sep & sp2 & q1 & body & q2 & -> & H3).
    exists kw, suffix, sp1, sep, sp2, q1, body, q2.
    split; [reflexivity|]. tauto.
  - intros (kw & suffix & sp1 & sep & sp2 & q1 & body & q2 & -> & H1 & H2 & H3).
    exists kw, suffix,
      (sp1 ++ String sep (sp2 ++ String q1 (body ++ String q2 EmptyString))).
    split; [reflexivity|]. split; [assumption|]. split; [assumption|].
    apply lang_assignment_tail.
    exists sp1, sep, sp2, q1, body, q2. split; [reflexivity | assumption].
Qed.

Lemma lang_url words m :
  words <> [] -> lang (detector words url_tail) m <-> url_shape words m.
Proof.
  intros N. rewrite lang_detector by assumption.
  unfold url_shape. split.
  - intros (kw & suffix & rest & -> & H1 & H2 & H3).
    apply lang_url_tail in H3. destruct H3 as (sep & tail & -> & H3).
    exists kw, suffix, sep, tail. split; [reflexivity|]. tauto.
  - intros (kw & suffix & sep & tail & -> & H1 & H2 & H3).
    exists kw, suffix, (String sep tail).
    split; [reflexivity|]. split; [assumption|]. split; [assumption|].
    apply lang_url_tail. exists sep, tail. split; [reflexivity | assumption].
Qed.

Lemma detector_finds r (shape : string -> Prop) :
  anchor_free r = true ->
  (forall m, lang r m <-> shape m) ->
  forall line,
    (findall r line <> [] <->
     exists pre m post, line = pre ++ m ++ post /\ shape m)
    /\ (forall target, In target (findall r line) -> shape target).
Proof.
  intros AF L line. split.
  - rewrite findall_nonempty. split.
    + intros (pre & t & post & E & Hm). exists pre, t, post.
      split; [assumption|]. now apply L, (match_at_lang r pre t post AF).
    + intros (pre & m & post & E & S). exists pre, m, post.
      split; [assumption|]. now apply (match_at_lang r pre m post AF), L.
  - intros target I. apply findall_sound in I.
    destruct I as (pre & post & E & Hm).
    now apply L, (match_at_lang r pre target post AF).
Qed.

(** C3, as the specification states it, fails: the quote that closes the
    quoted text need not be the one that opens it. *)
Lemma assignment_detector_accepts_mixed_quotes :
  ~ (forall line target,
        In target (findall assignment_detector line) ->
        quotes_agree target = true).
Proof.
  intros H.
  specialize (H ("password = " ++ String dquote "abcd'")
                ("password = " ++ String dquote "abcd'")).
  assert (I : In ("password = " ++ String dquote "abcd'")
                (findall assignment_detector
                   ("password = " ++ String dquote "abcd'")))
    by (vm_compute; now left).
  apply H in I. vm_compute in I. discriminate.
Qed.

(** C3 (amended). For every list of keywords that is not empty and whose
    keywords are written in ASCII without backslash, closing bracket,
    caret or hyphen, and so for the default keywords, the assignment-style
    detector finds a match in a line exactly when the line contains a
    keyword, in any case of its letters, then an optional identifier
    suffix, spaces or none, [:] or [=], spaces or none, a double or single
    quote, four or more characters that are not quotes, and a double or
    single quote, which need not be the one that opened; every text it
    returns has this shape. With the default keywords it matches the line
    [password = ] followed by [abcd] in double quotes and the line
    [secret: 'xyzw1234'], not [password = ] followed by [abc] in double
    quotes, and it matches [password = ] followed by [abcd] between a
    double quote and a single quote. A tab before the separator is not
    accepted. *)
Theorem assignment_detector_shape :
  (forall words,
      words <> [] ->
      forallb ascii_word words = true ->
      forallb plain_word words = true ->
      exists assignment url,
        main_analyzers words = Some [assignment; url]
        /\ forall line,
             (findall assignment line <> [] <->
              exists pre m post,
                line = pre ++ m ++ post /\ assignment_shape words m)
             /\ (forall target,
                    In target (findall assignment line) ->
                    assignment_shape words target))
  /\ main_analyzers [] = Some [assignment_detector; url_detector]
  /\ (forall line,
         (findall assignment_detector line <> [] <->
          exists pre m post,
            line = pre ++ m ++ post /\ assignment_shape DEFAULT_BAD_WORDS m)
         /\ (forall target,
                In target (findall assignment_detector line) ->
                assignment_shape DEFAULT_BAD_WORDS target))
  /\ findall assignment_detector ("password = " ++ quoted "abcd")
     = ["password = " ++ quoted "abcd"]
  /\ findall assignment_detector "secret: 'xyzw1234'" = ["secret: 'xyzw1234'"]
  /\ findall assignment_detector ("password = " ++ quoted "abc") = []
  /\ findall assignment_detector ("password = " ++ String dquote "abcd'")
     = ["password = " ++ String dquote "abcd'"]
  /\ findall assignment_detector ("password" ++ String "009" "= 'abcd'") = [].
Proof.
  split; [|split; [exact default_analyzers_compiled|split]].
  - intros words N _ P.
    exists (detector words assignment_tail), (detector words url_tail).
    split; [now apply main_analyzers_of_plain_words|].
    apply detector_finds; [now apply anchor_free_detector|].
    intros m. now apply lang_assignment.
  - rewrite assignment_detector_eq.
    apply detector_finds; [now apply anchor_free_detector|].
    intros m. apply lang_assignment. discriminate.
  - repeat split; vm_compute; reflexivity.
Qed.

Lemma assignment_detector_shape_witness :
  (["pwd"; "api_key"] <> ([] : list string)
   /\ forallb ascii_word ["pwd"; "api_key"] = true
   /\ forallb plain_word ["pwd"; "api_key"] = true)
  /\ exists assignment url,
       main_analyzers ["pwd"; "api_key"] = Some [assignment; url]
       /\ forall line,
            (findall assignment line <> [] <->
             exists pre m post,
               line = pre ++ m ++ post
               /\ assignment_shape ["pwd"; "api_key"] m)
            /\ (forall target,
                   In target (findall assignment line) ->
                   assignment_shape ["pwd"; "api_key"] target).
Proof.
  split; [split; [discriminate | split; reflexivity]|].
  apply (proj1 assignment_detector_shape);
    [discriminate | reflexivity | reflexivity].
Defined.

(** C4, as the specification states it, fails: a closing brace and a
    closing angle bracket are among the characters the tail accepts. *)
Lemma url_detector_accepts_closing_brace :
  ~ (forall line target,
        In target (findall url_detector line) ->
        spec_url_shape DEFAULT_BAD_WORDS target = true).
Proof.
  intros H. specialize (H "token=a}b>" "token=a}b>").
  assert (I : In "token=a}b>" (findall url_detector "token=a}b>"))
    by (vm_compute; now left).
  apply H in I. vm_compute in I. discriminate.
Qed.

(** C4 (amended). For every list of keywords that is not empty and whose
    keywords are written in ASCII without backslash, closing bracket,
    caret or hyphen, and so for the default keywords, the url-style
    detector finds a match in a line exactly when the line contains a
    keyword, in any case of its letters, then an optional identifier
    suffix, [:] or [=], and four or more characters none of which is a
    double or single quote, [&], a space, a comma, a semicolon, an opening
    brace, a parenthesis, an opening angle bracket or a newline; every
    text it returns has this shape. With the default keywords it matches
    [token=abcdef123], neither [token= ] nor [token={abcd}], and it
    matches [token=a}b>]. *)
Theorem url_detector_shape :
  (forall words,
      words <> [] ->
      forallb ascii_word words = true ->
      forallb plain_word words = true ->
      exists assignment url,
        main_analyzers words = Some [assignment; url]
        /\ forall line,
             (findall url line <> [] <->
              exists pre m post, line = pre ++ m ++ post /\ url_shape words m)
             /\ (forall target,
                    In target (findall url line) -> url_shape words target))
  /\ main_analyzers [] = Some [assignment_detector; url_detector]
  /\ (forall line,
         (findall url_detector line <> [] <->
          exists pre m post,
            line = pre ++ m ++ post /\ url_shape DEFAULT_BAD_WORDS m)
         /\ (forall target,
                In target (findall url_detector line) ->
                url_shape DEFAULT_BAD_WORDS target))
  /\ findall url_detector "token=abcdef123" = ["token=abcdef123"]
  /\ findall url_detector "token= " = []
  /\ findall url_detector "token={abcd}" = []
  /\ findall url_detector "token=a}b>" = ["token=a}b>"].
Proof.
  split; [|split; [exact default_analyzers_compiled|split]].
  - intros words N _ P.
    exists (detector words assignment_tail), (detector words url_tail).
    split; [now apply main_analyzers_of_plain_words|].
    apply detector_finds; [now apply anchor_free_detector|].
    intros m. now apply lang_url.
  - rewrite url_detector_eq.
    apply detector_finds; [now apply anchor_free_detector|].
    intros m. apply lang_url. discriminate.
  - repeat split; vm_compute; reflexivity.
Qed.

Lemma url_detector_shape_witness :
  (["pwd"; "api_key"] <> ([] : list string)
   /\ forallb ascii_word ["pwd"; "api_key"] = true
   /\ forallb plain_word ["pwd"; "api_key"] = true)
  /\ exists assignment url,
       main_analyzers ["pwd"; "api_key"] = Some [assignment; url]
       /\ forall line,
            (findall url line <> [] <->
             exists pre m post,
               line = pre ++ m ++ post /\ url_shape ["pwd"; "api_key"] m)
            /\ (forall target,
                   In target (findall url line) ->
                   url_shape ["pwd"; "api_key"] target).
Proof.
  split; [split; [discriminate | split; reflexivity]|].
  apply (proj1 url_detector_shape);
    [discriminate | reflexivity | reflexivity].
Defined.

(* ------------------------------------------------------------------ *)
(** * Further properties *)

(** ** The line evaluator on any file *)

Lemma for_line_any path max_length analyzers patterns handler :
  forall i result,
    value (for_line path max_length analyzers patterns i handler result)
    = ((result
        ++ file_findings path max_length analyzers patterns i
             (lines_read handler))%list,
       fault_of handler).
Proof.
  induction handler as [|[line|e] rest IH]; intros i result.
  - simpl. now rewrite app_nil_r.
  - simpl for_line. simpl lines_read. simpl fault_of.
    unfold file_findings. fold file_findings. unfold line_findings.
    destruct (Z.of_nat (String.length line) >? max_length)%Z.
    + now rewrite IH.
    + now rewrite value_bind, IH, for_checker_value, app_assoc.
  - simpl. now rewrite app_nil_r.
Qed.

(** What [check_file_handler] gives back, for every file. *)
Lemma check_file_handler_any fs path max_length analyzers patterns :
  value (check_file_handler fs path max_length analyzers patterns)
  = match open_ fs path with
    | Raised UnicodeDecodeError => Returned []
    | Raised OSError => Raised OSError
    | Returned handler =>
        match fault_of handler with
        | Some OSError => Raised OSError
        | _ =>
            Returned (file_findings path max_length analyzers patterns 0
                        (lines_read handler))
        end
    end.
Proof.
  unfold check_file_handler.
  rewrite value_bind. unfold open_file at 1, value at 2. simpl fst.
  rewrite value_bind.
  destruct (open_ fs path) as [handler|[|]]; try reflexivity.
  rewrite for_line_any. simpl app.
  destruct (fault_of handler) as [[|]|]; reflexivity.
Qed.

Lemma in_line_findings path max_length analyzers patterns i line f :
  In f (line_findings path max_length analyzers patterns i line) <->
  (Z.of_nat (String.length line) <= max_length)%Z
  /\ suppressed patterns line = false
  /\ exists checker first others,
       In checker analyzers
       /\ findall checker line = first :: others
       /\ f = {| f_file := path; f_target := first; f_line := i;
                 f_string := strip line |}.
Proof.
  unfold line_findings.
  destruct (Z.gtb_spec (Z.of_nat (String.length line)) max_length) as [G|G].
  - split; [intros [] | intros (L & _); lia].
  - rewrite in_flat_map. unfold contribution. split.
    + intros (checker & I & H).
      destruct (findall checker line) as [|first others] eqn:E; [destruct H|].
      destruct (suppressed patterns line); [destruct H|].
      destruct H as [<-|[]].
      split; [lia|]. split; [reflexivity|]. now exists checker, first, others.
    + intros (_ & S & checker & first & others & I & E & ->).
      exists checker. split; [assumption|]. rewrite E, S. now left.
Qed.

Lemma in_file_findings path max_length analyzers patterns lines :
  forall i f,
    In f (file_findings path max_length analyzers patterns i lines) <->
    exists k line,
      nth_error lines k = Some line
      /\ In f (line_findings path max_length analyzers patterns (i + k) line).
Proof.
  induction lines as [|l rest IH]; intros i f.
  - simpl. split; [intros [] | intros (k & line & E & _)].
    destruct k; discriminate.
  - simpl file_findings. rewrite in_app_iff, IH. split.
    + intros [H|(k & line & E & H)].
      * exists 0, l. rewrite Nat.add_0_r. now split.
      * exists (S k), line. split; [exact E|].
        now replace (i + S k) with (S i + k) by lia.
    + intros ([|k] & line & E & H).
      * simpl in E. injection E as <-. rewrite Nat.add_0_r in H. now left.
      * right. exists k, line. split; [exact E|].
        now replace (S i + k) with (i + S k) by lia.
Qed.

(** X1. Every finding can be traced: it names the file that was read and
    the zero-based index of a line of that file; the line is not longer
    than [max_length] and is not suppressed; the target is a match of one
    of the detectors in that line; the text is the line, stripped. *)
Theorem findings_are_matches fs path max_length analyzers patterns result f :
  value (check_file_handler fs path max_length analyzers patterns)
  = Returned result ->
  In f result ->
  f_file f = path
  /\ exists handler line checker pre post,
       open_ fs path = Returned handler
       /\ nth_error (lines_read handler) (f_line f) = Some line
       /\ (Z.of_nat (String.length line) <= max_length)%Z
       /\ suppressed patterns line = false
       /\ In checker analyzers
       /\ line = pre ++ f_target f ++ post
       /\ match_at checker pre (f_target f) post
       /\ f_string f = strip line.
Proof.
  rewrite check_file_handler_any. intros V I.
  destruct (open_ fs path) as [handler|[|]] eqn:O.
  - assert (R : result
                = file_findings path max_length analyzers patterns 0
                    (lines_read handler)).
    { destruct (fault_of handler) as [[|]|]; congruence. }
    subst result. apply in_file_findings in I.
    destruct I as (k & line & E & I). apply in_line_findings in I.
    destruct I as (L & S & checker & first & others & Ic & F & ->).
    simpl. split; [reflexivity|].
    destruct (findall_sound checker line first) as (pre & post & El & Hm);
      [rewrite F; now left|].
    exists handler, line, checker, pre, post. repeat split; assumption.
  - injection V as <-. destruct I.
  - discriminate.
Qed.

Lemma findings_are_matches_witness :
  (value (check_file_handler (one_file "f" ("x = 1" ++ String newline "my token=abcd")) "src/f" 1000 default_analyzers [])
   = Returned [ {| f_file := "src/f"; f_target := "token=abcd"; f_line := 1;
                   f_string := "my token=abcd" |} ]
   /\ In {| f_file := "src/f"; f_target := "token=abcd"; f_line := 1;
            f_string := "my token=abcd" |}
        [ {| f_file := "src/f"; f_target := "token=abcd"; f_line := 1;
             f_string := "my token=abcd" |} ])
  /\ f_file {| f_file := "src/f"; f_target := "token=abcd"; f_line := 1;
               f_string := "my token=abcd" |} = "src/f".
Proof.
  assert (V : value (check_file_handler (one_file "f" ("x = 1" ++ String newline "my token=abcd")) "src/f" 1000 default_analyzers [])
              = Returned [ {| f_file := "src/f"; f_target := "token=abcd";
                              f_line := 1; f_string := "my token=abcd" |} ])
    by (vm_compute; reflexivity).
  split; [split; [exact V | now left]|].
  exact (proj1 (@findings_are_matches _ _ _ _ _ _ _ V (or_introl eq_refl))).
Defined.

(** X2. No match is missed: on a line that is read, is not longer than
    [max_length] and is not suppressed, every detector that finds a match
    yields the finding with the index of the line and the first text
    found, unless a read of the file raises an OSError. *)
Theorem matches_are_found fs path max_length analyzers patterns handler k line
  checker first others :
  open_ fs path = Returned handler ->
  fault_of handler <> Some OSError ->
  nth_error (lines_read handler) k = Some line ->
  (Z.of_nat (String.length line) <= max_length)%Z ->
  suppressed patterns line = false ->
  In checker analyzers ->
  findall checker line = first :: others ->
  exists result,
    value (check_file_handler fs path max_length analyzers patterns)
    = Returned result
    /\ In {| f_file := path; f_target := first; f_line := k;
             f_string := strip line |} result.
Proof.
  intros O NF E L S Ic F. rewrite check_file_handler_any, O.
  exists (file_findings path max_length analyzers patterns 0 (lines_read handler)).
  split.
  - destruct (fault_of handler) as [[|]|]; congruence.
  - apply in_file_findings. exists k, line. split; [exact E|].
    apply in_line_findings. split; [exact L|]. split; [exact S|].
    now exists checker, first, others.
Qed.

Lemma matches_are_found_witness :
  exists result,
    value (check_file_handler
             (files [("blob", [Line "x = 1"; Line "my token=abcd";
                               Fault UnicodeDecodeError])])
             "src/blob" 1000 default_analyzers [])
    = Returned result
    /\ In {| f_file := "src/blob"; f_target := "token=abcd"; f_line := 1;
             f_string := strip "my token=abcd" |} result.
Proof.
  apply (@matches_are_found
           (files [("blob", [Line "x = 1"; Line "my token=abcd";
                             Fault UnicodeDecodeError])])
           "src/blob" 1000%Z default_analyzers []
           [Line "x = 1"; Line "my token=abcd"; Fault UnicodeDecodeError]
           1 "my token=abcd" url_detector "token=abcd" []).
  - reflexivity.
  - discriminate.
  - reflexivity.
  - vm_compute. discriminate.
  - reflexivity.
  - vm_compute. right. now left.
  - vm_compute. reflexivity.
Defined.

Lemma line_findings_index path max_length analyzers patterns i line f :
  In f (line_findings path max_length analyzers patterns i line) ->
  f_line f = i.
Proof.
  intros H. apply in_line_findings in H.
  destruct H as (_ & _ & c & first & others & _ & _ & ->). reflexivity.
Qed.

Lemma file_findings_sorted path max_length analyzers patterns lines :
  forall i,
    StronglySorted le
      (map f_line (file_findings path max_length analyzers patterns i lines))
    /\ Forall (fun n => i <= n)
         (map f_line (file_findings path max_length analyzers patterns i lines)).
Proof.
  induction lines as [|line rest IH]; intros i.
  - simpl. split; constructor.
  - simpl file_findings. rewrite map_app.
    destruct (IH (S i)) as [S1 B1].
    assert (E : Forall (fun n => n = i)
                  (map f_line
                     (line_findings path max_length analyzers patterns i line))).
    { apply Forall_forall. intros n I. apply in_map_iff in I.
      destruct I as (f & <- & I). now apply line_findings_index in I. }
    split.
    + induction E as [|n l -> E IHE]; simpl; [exact S1|].
      constructor; [exact IHE|]. apply Forall_app. split.
      * eapply Forall_impl; [|exact E]. intros a ->. lia.
      * eapply Forall_impl; [|exact B1]. intros a Ha. simpl in Ha. lia.
    + apply Forall_app. split.
      * eapply Forall_impl; [|exact E]. intros a ->. lia.
      * eapply Forall_impl; [|exact B1]. intros a Ha. simpl in Ha. lia.
Qed.

Lemma file_findings_length path max_length analyzers patterns lines :
  forall i,
    length (file_findings path max_length analyzers patterns i lines)
    <= length lines * length analyzers.
Proof.
  assert (C : forall i line,
             length (line_findings path max_length analyzers patterns i line)
             <= length analyzers).
  { intros i line. unfold line_findings.
    destruct (Z.of_nat (String.length line) >? max_length)%Z; [simpl; lia|].
    induction analyzers as [|c rest IH]; [simpl; lia|].
    simpl. rewrite length_app. unfold contribution at 1.
    destruct (findall c line); [simpl; lia|].
    destruct (suppressed patterns line); simpl; lia. }
  induction lines as [|line rest IH]; intros i; [simpl; lia|].
  simpl. rewrite length_app. specialize (C i line). specialize (IH (S i)). lia.
Qed.

(** X3. The findings of a file come in the order of its lines, and there
    are at most as many as lines read times detectors. *)
Theorem findings_in_line_order fs path max_length analyzers patterns handler
  result :
  open_ fs path = Returned handler ->
  value (check_file_handler fs path max_length analyzers patterns)
  = Returned result ->
  StronglySorted le (map f_line result)
  /\ Forall (fun f => f_line f < length (lines_read handler)) result
  /\ length result <= length (lines_read handler) * length analyzers.
Proof.
  intros O V. rewrite check_file_handler_any, O in V.
  assert (R : result
              = file_findings path max_length analyzers patterns 0
                  (lines_read handler)).
  { destruct (fault_of handler) as [[|]|]; congruence. }
  subst result. split; [|split].
  - apply file_findings_sorted.
  - apply Forall_forall. intros f I. apply in_file_findings in I.
    destruct I as (k & line & E & I). apply line_findings_index in I.
    simpl in I. rewrite I. apply nth_error_Some. congruence.
  - apply file_findings_length.
Qed.

Lemma findings_in_line_order_witness :
  (open_ (one_file "f" ("pass='abcd'" ++ String newline "my token=abcd"))
     "src/f"
   = Returned [Line ("pass='abcd'" ++ String newline EmptyString); Line "my token=abcd"]
   /\ value (check_file_handler
               (one_file "f" ("pass='abcd'" ++ String newline "my token=abcd"))
               "src/f" 1000 default_analyzers [])
      = Returned [ {| f_file := "src/f"; f_target := "pass='abcd'";
                      f_line := 0; f_string := "pass='abcd'" |};
                   {| f_file := "src/f"; f_target := "token=abcd";
                      f_line := 1; f_string := "my token=abcd" |} ])
  /\ StronglySorted le [0; 1].
Proof.
  assert (O : open_ (one_file "f" ("pass='abcd'" ++ String newline "my token=abcd"))
                "src/f"
              = Returned [Line ("pass='abcd'" ++ String newline EmptyString);
                          Line "my token=abcd"]) by reflexivity.
  assert (V : value (check_file_handler
                       (one_file "f"
                          ("pass='abcd'" ++ String newline "my token=abcd"))
                       "src/f" 1000 default_analyzers [])
              = Returned [ {| f_file := "src/f"; f_target := "pass='abcd'";
                              f_line := 0; f_string := "pass='abcd'" |};
                           {| f_file := "src/f"; f_target := "token=abcd";
                              f_line := 1; f_string := "my token=abcd" |} ])
    by (vm_compute; reflexivity).
  split; [split; assumption|].
  exact (proj1 (@findings_in_line_order _ _ _ _ _ _ _ O V)).
Defined.

(** X4. An OSError is not caught: when the file does not open, or a read
    raises it after any number of lines, the line evaluator raises it and
    gives back no finding, whatever was found in the lines read before. *)
Theorem oserror_propagates fs path max_length analyzers patterns :
  (open_ fs path = Raised OSError
   \/ exists handler,
        open_ fs path = Returned handler /\ fault_of handler = Some OSError) ->
  value (check_file_handler fs path max_length analyzers patterns)
  = Raised OSError.
Proof.
  rewrite check_file_handler_any. intros [O|(handler & O & F)]; rewrite O.
  - reflexivity.
  - now rewrite F.
Qed.

Lemma oserror_propagates_witness :
  (open_ (files [("f", [Line "token=abcd"; Fault OSError])]) "src/f"
   = Raised OSError
   \/ exists handler,
        open_ (files [("f", [Line "token=abcd"; Fault OSError])]) "src/f"
        = Returned handler
        /\ fault_of handler = Some OSError)
  /\ value (check_file_handler
              (files [("f", [Line "token=abcd"; Fault OSError])])
              "src/f" 1000 default_analyzers [])
     = Raised OSError.
Proof.
  assert (H : open_ (files [("f", [Line "token=abcd"; Fault OSError])]) "src/f"
              = Raised OSError
              \/ exists handler,
                   open_ (files [("f", [Line "token=abcd"; Fault OSError])])
                     "src/f"
                   = Returned handler
                   /\ fault_of handler = Some OSError).
  { right. exists [Line "token=abcd"; Fault OSError]. split; reflexivity. }
  split; [exact H|].
  exact (oserror_propagates _ _ 1000%Z default_analyzers [] H).
Defined.

Lemma searches_app (t u : list call) :
  searches (t ++ u) = (searches t ++ searches u)%list.
Proof. unfold searches. apply flat_map_app. Qed.

Lemma searches_match line ps :
  searches (map (fun p => CallMatch p line) ps) = [].
Proof. induction ps as [|p ps IH]; [reflexivity | exact IH]. Qed.

Lemma for_checker_searches path patterns i line analyzers :
  forall result,
    searches (calls (for_checker path patterns i line analyzers result))
    = map (fun c => (c, line)) analyzers.
Proof.
  induction analyzers as [|checker rest IH]; intros result; [reflexivity|].
  simpl for_checker. rewrite !calls_bind, !searches_app, IH.
  unfold pattern_findall at 1 2, value, calls at 1. simpl fst. simpl snd.
  simpl map. simpl searches at 1. simpl app.
  destruct (findall checker line); [reflexivity|].
  rewrite calls_bind, searches_app, check_exclude_pattern_calls,
    searches_match.
  now destruct (value (check_exclude_pattern patterns line)).
Qed.

Lemma for_line_searches path max_length analyzers patterns handler :
  forall i result,
    searches (calls (for_line path max_length analyzers patterns i handler
                       result))
    = flat_map (fun line => map (fun c => (c, line)) analyzers)
        (filter (short_enough max_length) (lines_read handler)).
Proof.
  induction handler as [|[line|e] rest IH]; intros i result; try reflexivity.
  simpl for_line. simpl lines_read. simpl filter. unfold short_enough at 1.
  destruct (Z.of_nat (String.length line) >? max_length)%Z; simpl negb;
    cbv iota.
  - apply IH.
  - rewrite calls_bind, searches_app, for_checker_searches, IH. reflexivity.
Qed.

(** X5. All analyzers run on every line, as the comment in the source
    says, with one exception: on the lines read that are not longer than
    [max_length], every detector is run once, in the order of the
    detectors, line after line; no detector is run on any other text. *)
Theorem all_analyzers_run_on_every_short_line fs path max_length analyzers
  patterns handler :
  open_ fs path = Returned handler ->
  searches (calls (check_file_handler fs path max_length analyzers patterns))
  = flat_map (fun line => map (fun c => (c, line)) analyzers)
      (filter (short_enough max_length) (lines_read handler)).
Proof.
  intros O. unfold check_file_handler.
  rewrite calls_bind, searches_app.
  unfold open_file at 1 2, value at 1, calls at 1. simpl fst. simpl snd.
  rewrite O. simpl searches at 1. simpl app.
  rewrite calls_bind, searches_app, for_line_searches.
  match goal with
  | |- (_ ++ searches (calls (match ?x with _ => _ end)))%list = _ =>
      destruct x as [r [[|]|]]; simpl; now rewrite app_nil_r
  end.
Qed.

Lemma all_analyzers_run_on_every_short_line_witness :
  open_ (one_file "f" ("x" ++ String newline "a much longer line")) "src/f"
  = Returned [Line ("x" ++ String newline EmptyString); Line "a much longer line"]
  /\ searches (calls (check_file_handler
                        (one_file "f" ("x" ++ String newline "a much longer line"))
                        "src/f" 5 default_analyzers []))
     = [(assignment_detector, "x" ++ String newline EmptyString);
        (url_detector, "x" ++ String newline EmptyString)].
Proof.
  assert (O : open_ (one_file "f" ("x" ++ String newline "a much longer line"))
                "src/f"
              = Returned [Line ("x" ++ String newline EmptyString);
                          Line "a much longer line"]) by reflexivity.
  split; [exact O|].
  rewrite (@all_analyzers_run_on_every_short_line _ _ 5%Z default_analyzers []
             _ O).
  reflexivity.
Defined.

(** ** The stripped line *)

Lemma lstrip_spec s :
  exists a,
    s = a ++ lstrip s /\ all_chars is_space a = true
    /\ (forall c, first_char (lstrip s) = Some c -> is_space c = false).
Proof.
  induction s as [|c s (a & E & A & F)].
  - exists EmptyString. repeat split. intros c H. discriminate.
  - simpl. destruct (is_space c) eqn:S.
    + exists (String c a). simpl. rewrite S, A. split; [now f_equal|].
      split; [reflexivity | exact F].
    + exists EmptyString. simpl. repeat split.
      intros c' H. injection H as <-. exact S.
Qed.

Lemma rstrip_spec s :
  exists b,
    s = rstrip s ++ b /\ all_chars is_space b = true
    /\ (forall c, last_char (rstrip s) = Some c -> is_space c = false)
    /\ (forall c, first_char s = Some c -> is_space c = false ->
        first_char (rstrip s) = Some c).
Proof.
  induction s as [|c s (b & E & B & L & F)].
  - exists EmptyString. repeat split; intros c H; discriminate.
  - simpl. destruct (rstrip s) as [|d r] eqn:R.
    + simpl in E. subst b. destruct (is_space c) eqn:S.
      * exists (String c s). simpl. rewrite S, B. repeat split.
        -- intros c' H. discriminate.
        -- intros c' H N. injection H as <-. congruence.
      * exists s. simpl. repeat split; try assumption.
        -- intros c' H. injection H as <-. exact S.
        -- intros c' H _. exact H.
    + exists b. split; [simpl; f_equal; exact E|]. split; [exact B|]. split.
      * intros c' H. apply L. destruct r; exact H.
      * intros c' H _. exact H.
Qed.

Lemma strip_spec s :
  exists a b,
    s = a ++ strip s ++ b
    /\ all_chars is_space a = true
    /\ all_chars is_space b = true
    /\ trimmed (strip s).
Proof.
  unfold strip.
  destruct (lstrip_spec s) as (a & E & A & F).
  destruct (rstrip_spec (lstrip s)) as (b & E' & B & L & K).
  exists a, b. split; [now rewrite <- E'|]. split; [exact A|]. split; [exact B|].
  split; [|exact L].
  intros c H. destruct (first_char (lstrip s)) as [d|] eqn:D.
  - pose proof (F d eq_refl) as N. rewrite (K d eq_refl N) in H.
    injection H as <-. exact N.
  - destruct (lstrip s); [discriminate H | discriminate D].
Qed.

(** X6. The line text of a finding is the line as read without its
    leading and trailing whitespace, and nothing else is removed: the line
    is that text between two runs of whitespace, and the text neither
    starts nor ends with whitespace. *)
Theorem finding_text_is_trimmed fs path max_length analyzers patterns result f :
  value (check_file_handler fs path max_length analyzers patterns)
  = Returned result ->
  In f result ->
  trimmed (f_string f)
  /\ exists handler line a b,
       open_ fs path = Returned handler
       /\ nth_error (lines_read handler) (f_line f) = Some line
       /\ line = a ++ f_string f ++ b
       /\ all_chars is_space a = true
       /\ all_chars is_space b = true.
Proof.
  rewrite check_file_handler_any. intros V I.
  destruct (open_ fs path) as [handler|[|]] eqn:O.
  - assert (R : result
                = file_findings path max_length analyzers patterns 0
                    (lines_read handler)).
    { destruct (fault_of handler) as [[|]|]; congruence. }
    subst result. apply in_file_findings in I.
    destruct I as (k & line & E & I). apply in_line_findings in I.
    destruct I as (_ & _ & checker & first & others & _ & _ & ->). simpl.
    destruct (strip_spec line) as (a & b & El & A & B & T).
    split; [exact T|]. exists handler, line, a, b. repeat split; assumption.
  - injection V as <-. destruct I.
  - discriminate.
Qed.

Lemma finding_text_is_trimmed_witness :
  (value (check_file_handler
            (one_file "f" ("   token=abcd  " ++ String newline EmptyString))
            "src/f" 1000 default_analyzers [])
   = Returned [ {| f_file := "src/f"; f_target := "token=abcd"; f_line := 0;
                   f_string := "token=abcd" |} ]
   /\ In {| f_file := "src/f"; f_target := "token=abcd"; f_line := 0;
            f_string := "token=abcd" |}
        [ {| f_file := "src/f"; f_target := "token=abcd"; f_line := 0;
             f_string := "token=abcd" |} ])
  /\ trimmed "token=abcd".
Proof.
  assert (V : value (check_file_handler
                       (one_file "f" ("   token=abcd  " ++ String newline EmptyString))
                       "src/f" 1000 default_analyzers [])
              = Returned [ {| f_file := "src/f"; f_target := "token=abcd";
                              f_line := 0; f_string := "token=abcd" |} ])
    by (vm_compute; reflexivity).
  split; [split; [exact V | now left]|].
  exact (proj1 (@finding_text_is_trimmed _ _ _ _ _ _ _ V (or_introl eq_refl))).
Defined.

(** ** The scanner on any tree and any limit *)

Section Scan.
Variable fs : filesystem.
Variables limit max_length : Z.
Variables analyzers patterns : list regex.
Variables include_paths exclude_paths : list string.

Lemma scan_value_any paths :
  forall counter result,
    finish (value (scan fs limit max_length analyzers patterns include_paths
                     exclude_paths paths counter result))
    = match collect fs max_length analyzers patterns
              (firstn (Z.to_nat (limit + 1 - counter))
                 (eligible include_paths exclude_paths paths)) result with
      | Returned r =>
          Returned ((counter
                     + Z.of_nat
                         (length
                            (firstn (Z.to_nat (limit + 1 - counter))
                               (eligible include_paths exclude_paths paths))))%Z,
                    r)
      | Raised e => Raised e
      end.
Proof.
  induction paths as [|path rest IH]; intros counter result.
  - simpl. rewrite firstn_nil. simpl. now rewrite Z.add_0_r.
  - simpl scan. rewrite value_bind, can_analyze_file_value.
    simpl eligible.
    destruct (accepted include_paths exclude_paths path); simpl negb; cbv iota.
    + destruct (Z.gtb_spec counter limit) as [G|G].
      * replace (Z.to_nat (limit + 1 - counter)) with 0 by lia.
        simpl. now rewrite Z.add_0_r.
      * replace (Z.to_nat (limit + 1 - counter))
          with (S (Z.to_nat (limit + 1 - (counter + 1)))) by lia.
        simpl firstn. simpl collect. rewrite value_bind.
        destruct (value (check_file_handler fs path max_length analyzers
                           patterns)) as [more|e]; [|reflexivity].
        rewrite IH.
        destruct (collect fs max_length analyzers patterns _ _);
          [|reflexivity].
        simpl length. f_equal. f_equal. lia.
    + apply IH.
Qed.

Lemma scan_opens_any paths :
  forall counter result,
    opened (calls (scan fs limit max_length analyzers patterns include_paths
                     exclude_paths paths counter result))
    = attempted fs max_length analyzers patterns
        (firstn (Z.to_nat (limit + 1 - counter))
           (eligible include_paths exclude_paths paths)).
Proof.
  induction paths as [|path rest IH]; intros counter result.
  - simpl. now rewrite firstn_nil.
  - simpl scan.
    rewrite calls_bind, opened_app, can_analyze_file_calls, opened_fnmatch,
      can_analyze_file_value.
    simpl eligible. simpl app.
    destruct (accepted include_paths exclude_paths path); simpl negb; cbv iota.
    + destruct (Z.gtb_spec counter limit) as [G|G].
      * now replace (Z.to_nat (limit + 1 - counter)) with 0 by lia.
      * replace (Z.to_nat (limit + 1 - counter))
          with (S (Z.to_nat (limit + 1 - (counter + 1)))) by lia.
        simpl firstn. simpl attempted.
        rewrite calls_bind, opened_app, check_file_handler_opens.
        destruct (value (check_file_handler fs path max_length analyzers
                           patterns)) as [more|e]; [|reflexivity].
        simpl app. f_equal. apply IH.
    + apply IH.
Qed.

Lemma start_digging_any root_path :
  let scanned :=
    firstn (Z.to_nat (limit + 1))
      (eligible include_paths exclude_paths (paths_of (walk fs root_path))) in
  value (start_digging fs root_path limit max_length analyzers patterns
           include_paths exclude_paths)
  = match collect fs max_length analyzers patterns scanned [] with
    | Returned r => Returned (Z.of_nat (length scanned), r)
    | Raised e => Raised e
    end
  /\ opened (calls (start_digging fs root_path limit max_length analyzers
                      patterns include_paths exclude_paths))
     = attempted fs max_length analyzers patterns scanned.
Proof.
  intros scanned. unfold start_digging. rewrite for_root_scan. split.
  - rewrite value_bind. unfold ret at 1, value at 1. simpl fst.
    rewrite scan_value_any. rewrite Z.sub_0_r. fold scanned.
    now destruct (collect fs max_length analyzers patterns scanned []).
  - rewrite calls_bind, opened_app. unfold ret at 1, calls at 2. simpl snd.
    rewrite app_nil_r, scan_opens_any. now rewrite Z.sub_0_r.
Qed.

Lemma collect_attempted paths :
  forall result r,
    collect fs max_length analyzers patterns paths result = Returned r ->
    attempted fs max_length analyzers patterns paths = paths.
Proof.
  induction paths as [|path rest IH]; intros result r H; [reflexivity|].
  simpl in *.
  destruct (value (check_file_handler fs path max_length analyzers patterns));
    [|discriminate].
  f_equal. eapply IH. eassumption.
Qed.

Lemma attempted_prefix paths :
  exists rest,
    paths = (attempted fs max_length analyzers patterns paths ++ rest)%list.
Proof.
  induction paths as [|path tail (rest & IH)]; [now exists []|].
  simpl.
  destruct (value (check_file_handler fs path max_length analyzers patterns)).
  - exists rest. simpl. now f_equal.
  - now exists tail.
Qed.

Lemma handler_findings_file path more f :
  value (check_file_handler fs path max_length analyzers patterns)
  = Returned more ->
  In f more -> f_file f = path.
Proof.
  rewrite check_file_handler_any. intros V I.
  destruct (open_ fs path) as [handler|[|]].
  - assert (R : more
                = file_findings path max_length analyzers patterns 0
                    (lines_read handler)).
    { destruct (fault_of handler) as [[|]|]; congruence. }
    subst more. apply in_file_findings in I.
    destruct I as (k & line & _ & I). apply in_line_findings in I.
    now destruct I as (_ & _ & c & first & others & _ & _ & ->).
  - injection V as <-. destruct I.
  - discriminate.
Qed.

Lemma collect_files paths :
  forall result r f,
    collect fs max_length analyzers patterns paths result = Returned r ->
    In f r -> In f result \/ In (f_file f) paths.
Proof.
  induction paths as [|path rest IH]; intros result r f H I.
  - simpl in H. injection H as <-. now left.
  - simpl in H.
    destruct (value (check_file_handler fs path max_length analyzers patterns))
      as [more|e] eqn:V; [|discriminate].
    destruct (IH _ _ _ H I) as [J|J].
    + apply in_app_iff in J. destruct J as [J|J]; [now left|].
      right. left. symmetry. eapply handler_findings_file; eassumption.
    + right. now right.
Qed.

End Scan.

(** X7. Below the ceiling nothing is left out: when the number of
    eligible files does not exceed [limit + 1], every eligible file of the
    walk is handed to the line evaluator, in the order of the walk; the
    counter is the number of eligible files and the result holds the
    findings of all of them, unless the line evaluator raises. *)
Theorem start_digging_below_ceiling fs root_path limit max_length analyzers
  patterns include_paths exclude_paths :
  let candidates :=
    eligible include_paths exclude_paths (paths_of (walk fs root_path)) in
  (Z.of_nat (length candidates) <= limit + 1)%Z ->
  value (start_digging fs root_path limit max_length analyzers patterns
           include_paths exclude_paths)
  = match collect fs max_length analyzers patterns candidates [] with
    | Returned result => Returned (Z.of_nat (length candidates), result)
    | Raised e => Raised e
    end
  /\ (forall result,
         collect fs max_length analyzers patterns candidates [] = Returned result ->
         opened (calls (start_digging fs root_path limit max_length analyzers
                          patterns include_paths exclude_paths))
         = candidates).
Proof.
  intros candidates L.
  destruct (start_digging_any fs limit max_length analyzers patterns
              include_paths exclude_paths root_path) as [V O].
  fold candidates in V, O.
  rewrite firstn_all2 in V, O by lia.
  split; [exact V|].
  intros result R. rewrite O. eapply collect_attempted. eassumption.
Qed.

Lemma start_digging_below_ceiling_witness :
  (Z.of_nat (length (eligible [] ["*/b"] (paths_of (walk five_files "src"))))
   <= 4 + 1)%Z
  /\ value (start_digging five_files "src" 4 1000 default_analyzers [] []
              ["*/b"])
     = Returned (4%Z,
                 [ {| f_file := "src/a"; f_target := "token=abcd"; f_line := 0;
                      f_string := "token=abcd" |};
                   {| f_file := "src/lib/c"; f_target := "pass: 'word'";
                      f_line := 0; f_string := "pass: 'word'" |};
                   {| f_file := "src/lib/e"; f_target := "secret=zzzz";
                      f_line := 0; f_string := "secret=zzzz" |} ]).
Proof.
  assert (L : (Z.of_nat (length (eligible [] ["*/b"]
                                   (paths_of (walk five_files "src"))))
               <= 4 + 1)%Z) by (vm_compute; discriminate).
  split; [exact L|].
  rewrite (proj1 (@start_digging_below_ceiling five_files "src" 4%Z 1000%Z
                    default_analyzers [] [] ["*/b"] L)).
  vm_compute. reflexivity.
Defined.

(** X8. A negative limit scans nothing: whatever the tree, no file is
    opened and the scan gives back the counter 0 and no finding. *)
Theorem negative_limit_scans_nothing fs root_path limit max_length analyzers
  patterns include_paths exclude_paths :
  (limit < 0)%Z ->
  value (start_digging fs root_path limit max_length analyzers patterns
           include_paths exclude_paths)
  = Returned (0%Z, [])
  /\ opened (calls (start_digging fs root_path limit max_length analyzers
                      patterns include_paths exclude_paths))
     = [].
Proof.
  intros L.
  destruct (start_digging_any fs limit max_length analyzers patterns
              include_paths exclude_paths root_path) as [V O].
  replace (Z.to_nat (limit + 1)) with 0 in V, O by lia.
  simpl in V, O. now split.
Qed.

Lemma negative_limit_scans_nothing_witness :
  (-1 < 0)%Z
  /\ value (start_digging five_files "src" (-1) 1000 default_analyzers [] [] [])
     = Returned (0%Z, []).
Proof.
  assert (L : (-1 < 0)%Z) by lia.
  split; [exact L|].
  exact (proj1 (@negative_limit_scans_nothing five_files "src" (-1)%Z 1000%Z
                  default_analyzers [] [] [] L)).
Defined.

(** X9. The counter counts the files opened: when the scan returns, the
    counter is the number of files that were opened, it lies between 0 and
    [limit + 1] (or is 0 for a negative limit), and every finding names a
    file that was opened; with the counter at 0 there is no finding. *)
Theorem counter_counts_opened_files fs root_path limit max_length analyzers
  patterns include_paths exclude_paths counter result :
  value (start_digging fs root_path limit max_length analyzers patterns
           include_paths exclude_paths)
  = Returned (counter, result) ->
  let files_opened :=
    opened (calls (start_digging fs root_path limit max_length analyzers
                     patterns include_paths exclude_paths)) in
  counter = Z.of_nat (length files_opened)
  /\ (0 <= counter <= Z.max 0 (limit + 1))%Z
  /\ (forall f, In f result -> In (f_file f) files_opened)
  /\ (counter = 0%Z -> result = []).
Proof.
  intros V files_opened. unfold files_opened.
  destruct (start_digging_any fs limit max_length analyzers patterns
              include_paths exclude_paths root_path) as [V' O].
  rewrite O. rewrite V' in V. clear V' O.
  set (scanned := firstn (Z.to_nat (limit + 1))
                    (eligible include_paths exclude_paths
                       (paths_of (walk fs root_path)))) in *.
  destruct (collect fs max_length analyzers patterns scanned []) as [r|e] eqn:C;
    [|discriminate].
  injection V as <- <-.
  rewrite (collect_attempted _ _ _ _ _ _ C).
  assert (F : forall f, In f r -> In (f_file f) scanned).
  { intros f I. destruct (collect_files _ _ _ _ _ _ _ C I) as [[]|J]. exact J. }
  split; [reflexivity|]. split; [|split; [exact F|]].
  - assert (length scanned <= Z.to_nat (limit + 1))
      by (unfold scanned; apply firstn_le_length).
    lia.
  - intros Z0. assert (scanned = []) as E by (destruct scanned; [reflexivity | discriminate]).
    rewrite E in F. destruct r as [|f r]; [reflexivity|].
    destruct (F f (or_introl eq_refl)).
Qed.

Lemma counter_counts_opened_files_witness :
  value (start_digging five_files "src" 2 1000 default_analyzers [] [] [])
  = Returned (3%Z,
              [ {| f_file := "src/a"; f_target := "token=abcd"; f_line := 0;
                   f_string := "token=abcd" |};
                {| f_file := "src/lib/c"; f_target := "pass: 'word'";
                   f_line := 0; f_string := "pass: 'word'" |} ])
  /\ 3%Z
     = Z.of_nat
         (length (opened (calls (start_digging five_files "src" 2 1000
                                   default_analyzers [] [] [])))).
Proof.
  assert (V : value (start_digging five_files "src" 2 1000 default_analyzers
                       [] [] [])
              = Returned (3%Z,
                          [ {| f_file := "src/a"; f_target := "token=abcd";
                               f_line := 0; f_string := "token=abcd" |};
                            {| f_file := "src/lib/c";
                               f_target := "pass: 'word'";
                               f_line := 0; f_string := "pass: 'word'" |} ]))
    by (vm_compute; reflexivity).
  split; [exact V|].
  exact (proj1 (@counter_counts_opened_files _ _ _ _ _ _ _ _ _ _ V)).
Defined.

(** X10. A file that the path filter rejects is never opened, and the
    files are opened in the order of the walk without a gap: the files
    opened are always the first eligible files of the walk, also when the
    scan ends with an exception. *)
Theorem only_eligible_files_are_opened fs root_path limit max_length analyzers
  patterns include_paths exclude_paths :
  let files_opened :=
    opened (calls (start_digging fs root_path limit max_length analyzers
                     patterns include_paths exclude_paths)) in
  (exists rest,
      eligible include_paths exclude_paths (paths_of (walk fs root_path))
      = (files_opened ++ rest)%list)
  /\ (forall path,
         In path files_opened ->
         value (can_analyze_file include_paths exclude_paths path) = true
         /\ In path (paths_of (walk fs root_path))).
Proof.
  intros files_opened. unfold files_opened.
  destruct (start_digging_any fs limit max_length analyzers patterns
              include_paths exclude_paths root_path) as [_ O].
  rewrite O. clear O.
  set (E := eligible include_paths exclude_paths (paths_of (walk fs root_path))).
  destruct (attempted_prefix fs max_length analyzers patterns
              (firstn (Z.to_nat (limit + 1)) E)) as (rest & P).
  assert (Q : exists rest',
             E = (attempted fs max_length analyzers patterns
                    (firstn (Z.to_nat (limit + 1)) E) ++ rest')%list).
  { exists (rest ++ skipn (Z.to_nat (limit + 1)) E)%list.
    rewrite app_assoc, <- P. symmetry. apply firstn_skipn. }
  split; [exact Q|].
  intros path I. destruct Q as (rest' & Q).
  assert (J : In path E) by (rewrite Q; apply in_app_iff; now left).
  unfold E, eligible in J. apply filter_In in J. destruct J as [J A].
  rewrite can_analyze_file_value. now split.
Qed.

Lemma only_eligible_files_are_opened_witness :
  In "src/lib/c"
    (opened (calls (start_digging five_files "src" 5 1000 default_analyzers []
                      ["*.py"; "*lib/[c-e]"] ["*/d"])))
  /\ value (can_analyze_file ["*.py"; "*lib/[c-e]"] ["*/d"] "src/lib/c") = true.
Proof.
  assert (I : In "src/lib/c"
                (opened (calls (start_digging five_files "src" 5 1000
                                  default_analyzers []
                                  ["*.py"; "*lib/[c-e]"] ["*/d"]))))
    by (vm_compute; now left).
  split; [exact I|].
  exact (proj1 (proj2 (only_eligible_files_are_opened five_files "src" 5%Z
                         1000%Z default_analyzers []
                         ["*.py"; "*lib/[c-e]"] ["*/d"]) _ I)).
Defined.

Lemma collect_raises fs max_length analyzers patterns before path after e :
  forall result,
    (forall q, In q before ->
               exists r,
                 value (check_file_handler fs q max_length analyzers patterns)
                 = Returned r) ->
    value (check_file_handler fs path max_length analyzers patterns) = Raised e ->
    collect fs max_length analyzers patterns (before ++ path :: after)%list
      result
    = Raised e
    /\ attempted fs max_length analyzers patterns (before ++ path :: after)%list
       = (before ++ [path])%list.
Proof.
  induction before as [|q before IH]; intros result B V; simpl.
  - now rewrite V.
  - destruct (B q (or_introl eq_refl)) as (r & Q). rewrite Q.
    destruct (IH (result ++ r)%list) as [C A];
      [intros q' I; apply B; now right | exact V|].
    now rewrite C, A.
Qed.

(** X11. The first exception ends the scan: when the line evaluator
    raises for one of the files to scan, after it returned for the files
    before, the scanner raises the same exception, the findings made so
    far are not given back, and no later file is opened. *)
Theorem first_exception_ends_the_scan fs root_path limit max_length analyzers
  patterns include_paths exclude_paths before path after e :
  firstn (Z.to_nat (limit + 1))
    (eligible include_paths exclude_paths (paths_of (walk fs root_path)))
  = (before ++ path :: after)%list ->
  (forall q, In q before ->
             exists r,
               value (check_file_handler fs q max_length analyzers patterns)
               = Returned r) ->
  value (check_file_handler fs path max_length analyzers patterns) = Raised e ->
  value (start_digging fs root_path limit max_length analyzers patterns
           include_paths exclude_paths)
  = Raised e
  /\ opened (calls (start_digging fs root_path limit max_length analyzers
                      patterns include_paths exclude_paths))
     = (before ++ [path])%list.
Proof.
  intros E B V.
  destruct (start_digging_any fs limit max_length analyzers patterns
              include_paths exclude_paths root_path) as [V' O].
  rewrite E in V', O.
  destruct (collect_raises fs max_length analyzers patterns before path after
              [] B V) as [C A].
  rewrite C in V'. rewrite A in O. now split.
Qed.

Lemma first_exception_ends_the_scan_witness :
  (firstn (Z.to_nat (10 + 1))
     (eligible [] [] (paths_of (walk unreadable_second "src")))
   = (["src/a"] ++ "src/b" :: ["src/c"])%list
   /\ (forall q, In q ["src/a"] ->
                 exists r,
                   value (check_file_handler unreadable_second q 1000
                            default_analyzers [])
                   = Returned r)
   /\ value (check_file_handler unreadable_second "src/b" 1000
               default_analyzers [])
      = Raised OSError)
  /\ value (start_digging unreadable_second "src" 10 1000 default_analyzers
              [] [] [])
     = Raised OSError
  /\ opened (calls (start_digging unreadable_second "src" 10 1000
                      default_analyzers [] [] []))
     = ["src/a"; "src/b"].
Proof.
  assert (E : firstn (Z.to_nat (10 + 1))
                (eligible [] [] (paths_of (walk unreadable_second "src")))
              = (["src/a"] ++ "src/b" :: ["src/c"])%list) by reflexivity.
  assert (B : forall q, In q ["src/a"] ->
                        exists r,
                          value (check_file_handler unreadable_second q 1000
                                   default_analyzers [])
                          = Returned r).
  { intros q [<-|[]]. eexists. vm_compute. reflexivity. }
  assert (V : value (check_file_handler unreadable_second "src/b" 1000
                       default_analyzers [])
              = Raised OSError) by reflexivity.
  split; [split; [exact E | split; [exact B | exact V]]|].
  exact (@first_exception_ends_the_scan unreadable_second "src" 10%Z 1000%Z
           default_analyzers [] [] [] ["src/a"] "src/b" ["src/c"] OSError
           E B V).
Defined.

(** ** Keywords *)

Lemma all_chars_append p (a b : string) :
  all_chars p (a ++ b) = (all_chars p a && all_chars p b)%bool.
Proof.
  induction a as [|c a IH]; [reflexivity|].
  simpl. rewrite IH. now rewrite andb_assoc.
Qed.

Lemma own_case k : k = upper_char k \/ k = lower_char k.
Proof. destruct k as [[] [] [] [] [] [] [] []]; vm_compute; auto. Qed.

Lemma spells_forms word :
  spells word word = true
  /\ spells word (upper word) = true
  /\ spells word (lower word) = true.
Proof.
  induction word as [|k word (I1 & I2 & I3)]; [now repeat split|].
  unfold upper, lower in *. simpl. rewrite I1, I2, I3.
  unfold same_letter. rewrite !Ascii.eqb_refl, !orb_true_r. simpl.
  repeat split.
  destruct (own_case k) as [E|E]; rewrite <- E, Ascii.eqb_refl;
    now rewrite ?orb_true_r.
Qed.

Lemma keyword_of words word v :
  In word words -> spells word v = true -> is_keyword words v = true.
Proof.
  intros I S. unfold is_keyword. apply existsb_exists. now exists word.
Qed.

(** X12. The keywords are found whatever the case of their letters: for
    every list of keywords that is not empty and whose keywords are
    written in ASCII without backslash, closing bracket, caret or hyphen,
    a keyword spelled with each letter in upper or in lower case, anywhere
    in a line, is found by the url-style detector when [=] and four
    accepted characters follow, and by the assignment-style detector when
    [=] and a quoted text of four characters or more follow. A keyword in
    ASCII as written, in upper case and in lower case are such
    spellings. *)
Theorem keywords_found_in_any_case words :
  words <> [] ->
  forallb ascii_word words = true ->
  forallb plain_word words = true ->
  exists assignment url,
    main_analyzers words = Some [assignment; url]
    /\ (forall word v pre tail post,
           In word words ->
           spells word v = true ->
           4 <= String.length tail ->
           all_chars url_char tail = true ->
           findall url (pre ++ (v ++ String "=" tail) ++ post) <> [])
    /\ (forall word v pre body post,
           In word words ->
           spells word v = true ->
           4 <= String.length body ->
           all_chars not_quote body = true ->
           findall assignment
             (pre ++ (v ++ String "=" (String squote (body ++ String squote EmptyString)))
                  ++ post)
           <> [])
    /\ (forall word,
           ascii_word word = true ->
           spells word word = true
           /\ spells word (upper word) = true
           /\ spells word (lower word) = true).
Proof.
  intros N _ P.
  exists (detector words assignment_tail), (detector words url_tail).
  split; [now apply main_analyzers_of_plain_words|]. split; [|split].
  - intros word v pre tail post I S L A.
    apply (proj1 (detector_finds (detector words url_tail) (url_shape words)
                    (anchor_free_detector words url_tail eq_refl)
                    (fun m => lang_url m N) _)).
    exists pre, (v ++ String "=" tail), post. split; [reflexivity|].
    exists v, EmptyString, "="%char, tail. simpl.
    repeat split; try assumption. now apply (keyword_of words word).
  - intros word v pre body post I S L A.
    apply (proj1 (detector_finds (detector words assignment_tail)
                    (assignment_shape words)
                    (anchor_free_detector words assignment_tail eq_refl)
                    (fun m => lang_assignment m N) _)).
    exists pre, (v ++ String "=" (String squote (body ++ String squote EmptyString))), post.
    split; [reflexivity|].
    exists v, EmptyString, EmptyString, "="%char, EmptyString, squote, body,
      squote.
    simpl. repeat split; try assumption. now apply (keyword_of words word).
  - intros word _. apply spells_forms.
Qed.

Lemma keywords_found_in_any_case_witness :
  (["pwd"; "api_key"] <> ([] : list string)
   /\ forallb ascii_word ["pwd"; "api_key"] = true
   /\ forallb plain_word ["pwd"; "api_key"] = true)
  /\ exists assignment url,
       main_analyzers ["pwd"; "api_key"] = Some [assignment; url]
       /\ findall url ("x&" ++ ("Api_KEY" ++ String "=" "abcd") ++ "&y") <> [].
Proof.
  assert (N : ["pwd"; "api_key"] <> ([] : list string)) by discriminate.
  assert (A : forallb ascii_word ["pwd"; "api_key"] = true) by reflexivity.
  assert (P : forallb plain_word ["pwd"; "api_key"] = true) by reflexivity.
  split; [repeat split; assumption|].
  destruct (keywords_found_in_any_case N A P) as (a & u & E & U & _).
  exists a, u. split; [exact E|].
  apply (U "api_key" "Api_KEY" "x&" "abcd" "&y");
    [right; now left | reflexivity | simpl; lia | reflexivity].
Defined.

Lemma shape_has_sep (shape : string -> Prop) line :
  (forall m, shape m -> exists a sep b, m = a ++ String sep b /\ is_sep sep = true) ->
  all_chars not_sep line = true ->
  ~ (exists pre m post, line = pre ++ m ++ post /\ shape m).
Proof.
  intros H A (pre & m & post & -> & S).
  destruct (H m S) as (a & sep & b & -> & Hs).
  rewrite !all_chars_append in A. simpl in A. unfold not_sep at 3 in A.
  rewrite Hs in A. simpl in A.
  now rewrite !andb_false_r, ?andb_false_l in A.
Qed.

Lemma assignment_shape_has_sep words m :
  assignment_shape words m ->
  exists a sep b, m = a ++ String sep b /\ is_sep sep = true.
Proof.
  intros (kw & suffix & sp1 & sep & sp2 & q1 & body & q2 & -> & _ & _ & _ & S & _).
  exists (kw ++ suffix ++ sp1), sep,
    (sp2 ++ String q1 (body ++ String q2 EmptyString)).
  split; [now rewrite !append_assoc | exact S].
Qed.

Lemma url_shape_has_sep words m :
  url_shape words m ->
  exists a sep b, m = a ++ String sep b /\ is_sep sep = true.
Proof.
  intros (kw & suffix & sep & tail & -> & _ & _ & S & _).
  exists (kw ++ suffix), sep, tail.
  split; [now rewrite !append_assoc | exact S].
Qed.

(** X13. A line without [:] and without [=] is never reported: for every
    list of plain keywords that is not empty, the loop over the detectors
    adds no finding for such a line, whatever else the line contains. *)
Theorem no_separator_no_finding words :
  words <> [] ->
  forallb plain_word words = true ->
  exists analyzers,
    main_analyzers words = Some analyzers
    /\ forall path patterns i line result,
         all_chars not_sep line = true ->
         value (for_checker path patterns i line analyzers result) = result.
Proof.
  intros N P.
  exists [detector words assignment_tail; detector words url_tail].
  split; [now apply main_analyzers_of_plain_words|].
  intros path patterns i line result A. rewrite for_checker_value.
  assert (F1 : findall (detector words assignment_tail) line = []).
  { destruct (findall (detector words assignment_tail) line) eqn:E;
      [reflexivity|].
    exfalso.
    apply (@shape_has_sep (assignment_shape words) line
             (fun m => @assignment_shape_has_sep words m) A).
    apply (proj1 (detector_finds (detector words assignment_tail)
                    (assignment_shape words)
                    (anchor_free_detector words assignment_tail eq_refl)
                    (fun m => lang_assignment m N) line)).
    rewrite E. discriminate. }
  assert (F2 : findall (detector words url_tail) line = []).
  { destruct (findall (detector words url_tail) line) eqn:E; [reflexivity|].
    exfalso.
    apply (@shape_has_sep (url_shape words) line
             (fun m => @url_shape_has_sep words m) A).
    apply (proj1 (detector_finds (detector words url_tail) (url_shape words)
                    (anchor_free_detector words url_tail eq_refl)
                    (fun m => lang_url m N) line)).
    rewrite E. discriminate. }
  simpl. unfold contribution. rewrite F1, F2. simpl. apply app_nil_r.
Qed.

Lemma no_separator_no_finding_witness :
  (DEFAULT_BAD_WORDS <> [] /\ forallb plain_word DEFAULT_BAD_WORDS = true)
  /\ exists analyzers,
       main_analyzers DEFAULT_BAD_WORDS = Some analyzers
       /\ value (for_checker "f" [] 0 "the password is 'hunter2', says token"
                   analyzers [])
          = [].
Proof.
  assert (N : DEFAULT_BAD_WORDS <> []) by discriminate.
  assert (P : forallb plain_word DEFAULT_BAD_WORDS = true) by reflexivity.
  split; [split; assumption|].
  destruct (no_separator_no_finding N P) as (analyzers & E & H).
  exists analyzers. split; [exact E|]. apply H. reflexivity.
Defined.

(** X14. An empty keyword stands for no keyword at all: when the list of
    plain keywords holds the empty word, as a blank line of the keyword
    file gives, the url-style detector finds every [:] or [=] that is
    followed by four accepted characters, wherever it stands in a line. *)
Theorem empty_keyword_matches_everywhere words :
  In EmptyString words ->
  forallb plain_word words = true ->
  exists assignment url,
    main_analyzers words = Some [assignment; url]
    /\ forall pre sep tail post,
         is_sep sep = true ->
         4 <= String.length tail ->
         all_chars url_char tail = true ->
         findall url (pre ++ String sep tail ++ post) <> [].
Proof.
  intros I P.
  assert (N : words <> []) by (intros ->; destruct I).
  exists (detector words assignment_tail), (detector words url_tail).
  split; [now apply main_analyzers_of_plain_words|].
  intros pre sep tail post S L A.
  apply (proj1 (detector_finds (detector words url_tail) (url_shape words)
                  (anchor_free_detector words url_tail eq_refl)
                  (fun m => lang_url m N) _)).
  exists pre, (String sep tail), post. split; [reflexivity|].
  exists EmptyString, EmptyString, sep, tail. simpl.
  repeat split; try assumption. now apply (keyword_of words EmptyString).
Qed.

Lemma empty_keyword_matches_everywhere_witness :
  (In EmptyString ["token"; EmptyString; "secret"]
   /\ forallb plain_word ["token"; EmptyString; "secret"] = true)
  /\ exists assignment url,
       main_analyzers ["token"; EmptyString; "secret"] = Some [assignment; url]
       /\ findall url ("width" ++ String "=" "1024" ++ "px") <> [].
Proof.
  assert (I : In EmptyString ["token"; EmptyString; "secret"]) by (right; now left).
  assert (P : forallb plain_word ["token"; EmptyString; "secret"] = true) by reflexivity.
  split; [split; assumption|].
  destruct (empty_keyword_matches_everywhere _ I P) as (a & u & E & H).
  exists a, u. split; [exact E|].
  apply H; [reflexivity | simpl; lia | reflexivity].
Defined.

(** ** The builders *)

Lemma fold_analyzers_none rules bad_words :
  fold_left
    (fun analyzers rule =>
       match analyzers with
       | None => None
       | Some done =>
           match compile ("(?:" ++ bad_words ++ ")(?:[a-zA-Z_][a-zA-Z0-9_]*)?"
                          ++ rule) with
           | Some checker => Some (done ++ [checker])%list
           | None => None
           end
       end)
    rules (None : option (list regex))
  = None.
Proof. induction rules as [|rule rest IH]; [reflexivity | exact IH]. Qed.

Lemma fold_analyzers rules bad_words :
  forall done,
    fold_left
      (fun analyzers rule =>
         match analyzers with
         | None => None
         | Some done =>
             match compile ("(?:" ++ bad_words ++ ")(?:[a-zA-Z_][a-zA-Z0-9_]*)?"
                            ++ rule) with
             | Some checker => Some (done ++ [checker])%list
             | None => None
             end
         end)
      rules (Some done)
    = match fold_right
              (fun rule rest =>
                 match compile (pattern_of bad_words rule), rest with
                 | Some checker, Some l => Some (checker :: l)
                 | _, _ => None
                 end)
              (Some []) rules with
      | Some l => Some (done ++ l)%list
      | None => None
      end.
Proof.
  induction rules as [|rule rest IH]; intros done.
  - simpl. now rewrite app_nil_r.
  - simpl fold_left. simpl fold_right. unfold pattern_of at 1.
    destruct (compile _) as [checker|].
    + rewrite IH.
      destruct (fold_right _ _ rest) as [l|]; [|reflexivity].
      now rewrite <- app_assoc.
    + apply fold_analyzers_none.
Qed.

(** X15. The detector compiler gives one compiled pattern per rule, in
    the order of the rules, each compiled from the keyword pattern, the
    optional identifier suffix and the rule; it fails exactly when one of
    these patterns does not compile. *)
Theorem build_regex_analyzers_spec rules bad_words :
  (forall analyzers,
      build_regex_analyzers rules bad_words = Some analyzers <->
      Forall2 (fun rule checker =>
                 compile (pattern_of bad_words rule) = Some checker)
        rules analyzers)
  /\ (build_regex_analyzers rules bad_words = None <->
      exists rule, In rule rules /\ compile (pattern_of bad_words rule) = None).
Proof.
  unfold build_regex_analyzers. rewrite fold_analyzers. simpl app.
  induction rules as [|rule rest [IH1 IH2]].
  - simpl. split.
    + intros analyzers. split.
      * intros H. injection H as <-. constructor.
      * intros H. inversion H. reflexivity.
    + split; [discriminate | intros (r & [] & _)].
  - simpl fold_right.
    destruct (compile (pattern_of bad_words rule)) as [checker|] eqn:C.
    + destruct (fold_right _ _ rest) as [l|] eqn:F.
      * split.
        -- intros analyzers. split.
           ++ intros H. injection H as <-. constructor; [exact C|].
              now apply IH1.
           ++ intros H. inversion H as [|r c rs cs H1 H2]; subst.
              rewrite C in H1. injection H1 as <-.
              apply IH1 in H2. injection H2 as <-. reflexivity.
        -- split; [discriminate|].
           intros (r & [<-|I] & Cr); [congruence|].
           assert (Some l = None) by (apply IH2; now exists r).
           discriminate.
      * split.
        -- intros analyzers. split; [discriminate|].
           intros H. inversion H as [|r c rs cs H1 H2]; subst.
           apply IH1 in H2. discriminate.
        -- split; [|reflexivity]. intros _.
           destruct (proj1 IH2 eq_refl) as (r & I & Cr).
           exists r. split; [now right | exact Cr].
    + split.
      * intros analyzers. split; [discriminate|].
        intros H. inversion H as [|r c rs cs H1 H2]; subst. congruence.
      * split; [|reflexivity]. intros _. exists rule. split; [now left | exact C].
Qed.

Lemma build_regex_analyzers_spec_witness :
  Forall2 (fun rule checker => compile (pattern_of "[Kk]" rule) = Some checker)
    ["=x"; ":y"]
    [Seq (Seq (CharSet false [("K", "K"); ("k", "k")]%char) Empty)
       (Seq suffix_regex (Seq (Lit "=") (Seq (Lit "x") Empty)));
     Seq (Seq (CharSet false [("K", "K"); ("k", "k")]%char) Empty)
       (Seq suffix_regex (Seq (Lit ":") (Seq (Lit "y") Empty)))]
  /\ build_regex_analyzers ["=x"; ":y"] "[Kk]"
     = Some
         [Seq (Seq (CharSet false [("K", "K"); ("k", "k")]%char) Empty)
            (Seq suffix_regex (Seq (Lit "=") (Seq (Lit "x") Empty)));
          Seq (Seq (CharSet false [("K", "K"); ("k", "k")]%char) Empty)
            (Seq suffix_regex (Seq (Lit ":") (Seq (Lit "y") Empty)))].
Proof.
  assert (F : Forall2
                (fun rule checker =>
                   compile (pattern_of "[Kk]" rule) = Some checker)
                ["=x"; ":y"]
                [Seq (Seq (CharSet false [("K", "K"); ("k", "k")]%char) Empty)
                   (Seq suffix_regex (Seq (Lit "=") (Seq (Lit "x") Empty)));
                 Seq (Seq (CharSet false [("K", "K"); ("k", "k")]%char) Empty)
                   (Seq suffix_regex (Seq (Lit ":") (Seq (Lit "y") Empty)))])
    by (repeat constructor).
  split; [exact F|].
  exact (proj2 (proj1 (build_regex_analyzers_spec ["=x"; ":y"] "[Kk]") _) F).
Defined.

Lemma join_app sep (a b : list string) :
  a <> [] -> b <> [] ->
  join sep (a ++ b) = join sep a ++ sep ++ join sep b.
Proof.
  intros Na Nb. induction a as [|x a IH]; [congruence|].
  destruct a as [|y a].
  - destruct b as [|z b]; [congruence | reflexivity].
  - change (join sep ((x :: y :: a) ++ b))
      with (x ++ sep ++ join sep ((y :: a) ++ b)).
    change (join sep (x :: y :: a)) with (x ++ sep ++ join sep (y :: a)).
    rewrite IH by discriminate. now rewrite !append_assoc.
Qed.

Lemma length_letters word :
  String.length (letters word) = 4 * String.length word.
Proof. induction word as [|k word IH]; simpl; [reflexivity | lia]. Qed.

(** X16. The keyword pattern is built word by word: the pattern of two
    lists put together is the pattern of the first, a bar and the pattern
    of the second, so the order of the words is kept and a repeated word is
    written again; the pattern of one word of [n] characters in ASCII has
    [4 * n + 4] characters, a bracketed pair for each character of the
    word, in upper and in lower case, inside a group. *)
Theorem build_bad_words_composes :
  (forall first second,
      first <> [] -> second <> [] ->
      build_bad_words (first ++ second)
      = build_bad_words first ++ "|" ++ build_bad_words second)
  /\ (forall word,
         ascii_word word = true ->
         build_bad_words [word] = "(?:" ++ letters word ++ ")"
         /\ String.length (build_bad_words [word]) = 4 * String.length word + 4).
Proof.
  split.
  - intros first second N1 N2. rewrite !build_bad_words_rules, map_app.
    apply join_app.
    + destruct first; [congruence | discriminate].
    + destruct second; [congruence | discriminate].
  - intros word _. rewrite build_bad_words_rules.
    change (join "|" (map rule_of [word])) with (rule_of word).
    split; [reflexivity|].
    rewrite length_rule_of, length_letters. lia.
Qed.

Lemma build_bad_words_composes_witness :
  (["pass"] <> ([] : list string) /\ ["pass"; "Key"] <> ([] : list string)
   /\ ascii_word "Key" = true)
  /\ build_bad_words (["pass"] ++ ["pass"; "Key"])
     = "(?:[Pp][Aa][Ss][Ss])|(?:[Pp][Aa][Ss][Ss])|(?:[Kk][Ee][Yy])"
  /\ build_bad_words ["Key"] = "(?:[Kk][Ee][Yy])"
  /\ String.length (build_bad_words ["Key"]) = 16.
Proof.
  assert (N1 : ["pass"] <> ([] : list string)) by discriminate.
  assert (N2 : ["pass"; "Key"] <> ([] : list string)) by discriminate.
  assert (A : ascii_word "Key" = true) by reflexivity.
  split; [repeat split; assumption|].
  split.
  - rewrite (proj1 build_bad_words_composes _ _ N1 N2). reflexivity.
  - destruct (proj2 build_bad_words_composes "Key" A) as [E L].
    split; [rewrite E; reflexivity | exact L].
Defined.

(** ** The path filter, in full *)

(** X17. The decision of the path filter: a path is accepted exactly when
    the include list is empty or one of its globs matches the path, and no
    glob of the exclude list matches it. With both lists empty every path
    is accepted and no glob is evaluated. *)
Theorem can_analyze_file_decision :
  (forall include_paths exclude_paths path,
      value (can_analyze_file include_paths exclude_paths path) = true <->
      (include_paths = []
       \/ exists glob, In glob include_paths /\ fnmatch path glob = true)
      /\ (forall glob, In glob exclude_paths -> fnmatch path glob = false))
  /\ (forall path, can_analyze_file [] [] path = (true, [])).
Proof.
  split; [|reflexivity].
  intros include_paths exclude_paths path.
  rewrite can_analyze_file_value. unfold accepted.
  rewrite andb_true_iff, orb_true_iff, negb_true_iff, existsb_exists.
  split.
  - intros [[E|I] X]; (split; [|intros glob J;
      destruct (fnmatch path glob) eqn:F; [|reflexivity];
      assert (existsb (fnmatch path) exclude_paths = true)
        by (apply existsb_exists; now exists glob); congruence]).
    + left. now destruct include_paths.
    + now right.
  - intros [[->|I] X]; (split; [auto|]).
    + destruct (existsb (fnmatch path) exclude_paths) eqn:F; [|reflexivity].
      apply existsb_exists in F. destruct F as (glob & J & F).
      rewrite (X glob J) in F. discriminate.
    + destruct (existsb (fnmatch path) exclude_paths) eqn:F; [|reflexivity].
      apply existsb_exists in F. destruct F as (glob & J & F).
      rewrite (X glob J) in F. discriminate.
Qed.

Lemma can_analyze_file_decision_witness :
  (forall glob, In glob ["*test*"] -> fnmatch "app/main.py" glob = false)
  /\ value (can_analyze_file [] ["*test*"] "app/main.py") = true.
Proof.
  assert (X : forall glob, In glob ["*test*"] -> fnmatch "app/main.py" glob = false)
    by (intros glob [<-|[]]; reflexivity).
  split; [exact X|].
  apply (proj2 (proj1 can_analyze_file_decision [] ["*test*"] "app/main.py")).
  split; [now left | exact X].
Defined.

Lemma tried_all (A : Type) (p : A -> bool) (l : list A) :
  existsb p l = false -> tried p l = l.
Proof.
  induction l as [|x l IH]; [reflexivity|]. simpl.
  destruct (p x); [discriminate|]. intros H. now rewrite IH.
Qed.

(** X18. When the include list is not empty and none of its globs matches
    the path, the path is rejected after every include glob was tried, in
    order, and no glob of the exclude list is evaluated. *)
Theorem include_miss_rejects_before_exclude include_paths exclude_paths path :
  include_paths <> [] ->
  existsb (fnmatch path) include_paths = false ->
  can_analyze_file include_paths exclude_paths path
  = (false, map (CallFnmatch path) include_paths).
Proof.
  intros N M.
  rewrite (surjective_pairing (can_analyze_file include_paths exclude_paths path)).
  change (fst (can_analyze_file include_paths exclude_paths path))
    with (value (can_analyze_file include_paths exclude_paths path)).
  change (snd (can_analyze_file include_paths exclude_paths path))
    with (calls (can_analyze_file include_paths exclude_paths path)).
  rewrite can_analyze_file_value, can_analyze_file_calls. unfold accepted.
  rewrite M, tried_all by assumption.
  destruct include_paths; [congruence|]. simpl. now rewrite app_nil_r.
Qed.

Lemma include_miss_rejects_before_exclude_witness :
  (["*.py"; "*.js"] <> ([] : list string)
   /\ existsb (fnmatch "docs/readme.md") ["*.py"; "*.js"] = false)
  /\ can_analyze_file ["*.py"; "*.js"] ["*test*"] "docs/readme.md"
     = (false, [CallFnmatch "docs/readme.md" "*.py";
                CallFnmatch "docs/readme.md" "*.js"]).
Proof.
  assert (N : ["*.py"; "*.js"] <> ([] : list string)) by discriminate.
  assert (M : existsb (fnmatch "docs/readme.md") ["*.py"; "*.js"] = false)
    by reflexivity.
  split; [split; assumption|].
  exact (@include_miss_rejects_before_exclude ["*.py"; "*.js"] ["*test*"]
           "docs/readme.md" N M).
Defined.

(* ------------------------------------------------------------------ *)
(** ** The script: literal patterns *)

Lemma parse_seq_literal fuel c r :
  not_special c = true ->
  parse_seq (S fuel) (String c r)
  = match parse_quantifier (Lit c) r with
    | None => None
    | Some (q, r') =>
        match parse_seq fuel r' with
        | Some (rest, r'') => Some (Seq q rest, r'')
        | None => None
        end
    end.
Proof.
  intros H.
  destruct c as [[] [] [] [] [] [] [] []];
    try (vm_compute in H; discriminate H); reflexivity.
Qed.

Lemma parse_quantifier_literal a d r :
  not_special d = true ->
  parse_quantifier a (String d r) = Some (a, String d r).
Proof.
  intros H.
  destruct d as [[] [] [] [] [] [] [] []];
    try (vm_compute in H; discriminate H); reflexivity.
Qed.

Lemma parse_literal t :
  forall fuel,
    all_chars not_special t = true ->
    String.length t < fuel ->
    parse_seq fuel t = Some (literal_regex t, EmptyString).
Proof.
  induction t as [|c r IH]; intros fuel A L.
  - destruct fuel; [simpl in L; lia | reflexivity].
  - destruct fuel as [|fuel]; [simpl in L; lia|].
    simpl in A. apply andb_true_iff in A. destruct A as [Ac A].
    rewrite (@parse_seq_literal fuel c r Ac).
    assert (Q : parse_quantifier (Lit c) r = Some (Lit c, r)).
    { destruct r as [|d r']; [reflexivity|].
      simpl in A. apply andb_true_iff in A.
      apply parse_quantifier_literal. apply A. }
    rewrite Q, (IH fuel A); [reflexivity|]. rewrite length_cons in L. lia.
Qed.

Lemma compile_literal t :
  all_chars not_special t = true -> compile t = Some (literal_regex t).
Proof.
  intros A. unfold compile.
  replace (2 * String.length t + 4) with (S (2 * String.length t + 3)) by lia.
  rewrite parse_alt_step, (@parse_literal t _ A); [reflexivity | lia].
Qed.

Lemma anchor_free_literal t : anchor_free (literal_regex t) = true.
Proof. induction t as [|c t IH]; [reflexivity | exact IH]. Qed.

Lemma lang_literal t : forall w, lang (literal_regex t) w <-> w = t.
Proof.
  induction t as [|c t IH]; intros w; simpl.
  - tauto.
  - split.
    + intros (u & v & -> & -> & H). apply IH in H. now subst v.
    + intros ->. exists (String c EmptyString), t. repeat split. now apply IH.
Qed.

Lemma match_literal t line :
  match_ (literal_regex t) line <> None <-> exists rest, line = t ++ rest.
Proof.
  rewrite match_spec. split.
  - intros (w & rest & E & Hm).
    apply (@matches_lang _ (anchor_free_literal t)) in Hm.
    destruct Hm as (w' & E' & _ & L). apply lang_literal in L. subst w'.
    now exists rest.
  - intros (rest & ->). exists t, rest. split; [reflexivity|].
    apply (@matches_lang _ (anchor_free_literal t)).
    exists t. repeat split. now apply lang_literal.
Qed.

Lemma all_chars_ordinary p :
  all_chars ordinary p = true ->
  all_chars not_special p = true /\ all_chars not_line_end p = true.
Proof.
  induction p as [|c p IH]; [now split|]. simpl. intros H.
  apply andb_true_iff in H. destruct H as [Hc H].
  unfold ordinary in Hc. apply andb_true_iff in Hc. destruct Hc as [S N].
  destruct (IH H) as [A B]. now rewrite S, N, A, B.
Qed.

Lemma append_inj_newline p :
  forall content rest,
    all_chars not_newline p = true ->
    all_chars not_newline content = true ->
    content ++ String newline EmptyString = p ++ String newline rest ->
    content = p.
Proof.
  induction p as [|c p IH]; intros content rest P C E.
  - destruct content as [|d content]; [reflexivity|].
    simpl in E. injection E as -> _. simpl in C.
    first [discriminate C
          | unfold not_newline in C; rewrite Ascii.eqb_refl in C;
            discriminate C].
  - destruct content as [|d content].
    + simpl in E. injection E as <- _. simpl in P.
      first [discriminate P
            | unfold not_newline in P; rewrite Ascii.eqb_refl in P;
              discriminate P].
    + simpl in E. injection E as -> E. f_equal.
      simpl in P, C. apply andb_true_iff in P. apply andb_true_iff in C.
      eapply IH; [apply P | apply C | exact E].
Qed.

(** X19. A pattern to ignore keeps the newline of its line in the file:
    the script compiles each line of the file as iterated, so a line that
    holds only ordinary characters (none that is special in a pattern, no
    line feed and no carriage return) becomes the pattern for that text
    followed by a newline, whether the line ends with a line feed or with
    a carriage return and a line feed in the file. It suppresses a line
    exactly when the line starts with the text and a newline at once
    follows; a line as read from a file is suppressed only when it is the
    text itself, and the text as last line of a file that lacks the final
    newline is not suppressed. *)
Theorem ignore_pattern_keeps_its_newline p :
  all_chars ordinary p = true ->
  exists pattern,
    compile_all (readlines (p ++ String newline EmptyString)) = Some [pattern]
    /\ compile_all (readlines (p ++ String cr (String newline EmptyString)))
       = Some [pattern]
    /\ (forall line,
          value (check_exclude_pattern [pattern] line) = true
          <-> exists rest, line = p ++ String newline rest)
    /\ (forall content,
          all_chars not_newline content = true ->
          value (check_exclude_pattern [pattern]
                   (content ++ String newline EmptyString)) = true
          <-> content = p)
    /\ value (check_exclude_pattern [pattern] p) = false.
Proof.
  intros O. destruct (all_chars_ordinary p O) as [S N].
  exists (literal_regex (p ++ String newline EmptyString)).
  assert (A : all_chars not_special (p ++ String newline EmptyString) = true).
  { rewrite all_chars_append, S. reflexivity. }
  assert (M : forall line,
             value (check_exclude_pattern
                      [literal_regex (p ++ String newline EmptyString)] line)
             = true
             <-> exists rest, line = p ++ String newline rest).
  { intros line. rewrite check_exclude_pattern_value. unfold suppressed.
    simpl existsb. rewrite orb_false_r.
    pose proof (match_literal (p ++ String newline EmptyString) line) as L.
    assert (E : forall rest,
               (p ++ String newline EmptyString) ++ rest
               = p ++ String newline rest).
    { intros rest. now rewrite append_assoc. }
    split.
    - intros H.
      destruct (proj1 L) as (rest & R);
        [|exists rest; now rewrite <- E].
      destruct (match_ _ line); [discriminate | discriminate H].
    - intros (rest & R).
      destruct (match_ (literal_regex (p ++ String newline EmptyString)) line)
        eqn:F; [reflexivity|].
      exfalso. apply (proj2 L); [exists rest; now rewrite E | reflexivity]. }
  split; [|split; [|split; [|split]]].
  - unfold readlines. rewrite (@lines_from_line p N). simpl.
    now rewrite (@compile_literal _ A).
  - unfold readlines. rewrite (@lines_from_crlf p N). simpl.
    now rewrite (@compile_literal _ A).
  - exact M.
  - intros content C. rewrite M. split.
    + intros (rest & E).
      apply (@append_inj_newline p content rest);
        [now apply not_line_end_not_newline | assumption | assumption].
    + intros ->. now exists EmptyString.
  - destruct (value (check_exclude_pattern
                       [literal_regex (p ++ String newline EmptyString)] p))
      eqn:V; [|reflexivity].
    apply M in V. destruct V as (rest & E).
    apply (f_equal String.length) in E.
    rewrite length_append, length_cons in E. lia.
Qed.

Lemma ignore_pattern_keeps_its_newline_witness :
  all_chars ordinary "token=example" = true
  /\ exists pattern,
       compile_all (readlines ("token=example" ++ String newline EmptyString))
       = Some [pattern]
       /\ compile_all
            (readlines
               ("token=example" ++ String cr (String newline EmptyString)))
          = Some [pattern]
       /\ (forall line,
             value (check_exclude_pattern [pattern] line) = true
             <-> exists rest, line = "token=example" ++ String newline rest)
       /\ (forall content,
             all_chars not_newline content = true ->
             value (check_exclude_pattern [pattern]
                      (content ++ String newline EmptyString)) = true
             <-> content = "token=example")
       /\ value (check_exclude_pattern [pattern] "token=example") = false.
Proof.
  split; [reflexivity|].
  exact (@ignore_pattern_keeps_its_newline "token=example" eq_refl).
Defined.

(* ------------------------------------------------------------------ *)
(** ** The script: the run and its report *)

Lemma value_ret (A : Type) (a : A) : value (ret a) = a.
Proof. reflexivity. Qed.

Lemma calls_ret (A : Type) (a : A) : calls (ret a) = [].
Proof. reflexivity. Qed.

Lemma main_loaded fs args :
  value (main fs args) <> Uncaught ReError ->
  exists ignore_patterns analyzers,
    load_ignore_patterns args = Some ignore_patterns
    /\ main_analyzers (read_lines (arg_bad_words args)) = Some analyzers.
Proof.
  unfold main. fold (load_ignore_patterns args).
  destruct (load_ignore_patterns args) as [ignore_patterns|];
    [|intros H; now contradiction H].
  destruct (main_analyzers (read_lines (arg_bad_words args))) as [analyzers|];
    [|intros H; now contradiction H].
  intros _. now exists ignore_patterns, analyzers.
Qed.

Lemma main_any fs args ignore_patterns analyzers :
  load_ignore_patterns args = Some ignore_patterns ->
  main_analyzers (read_lines (arg_bad_words args)) = Some analyzers ->
  value (main fs args)
  = match collect fs (arg_max_length args) analyzers ignore_patterns
            (to_scan fs args) [] with
    | Returned result =>
        Exit (report (arg_json args) (arg_max_checks args)
                (Z.of_nat (length (to_scan fs args))) result)
          (match result with [] => 0 | _ => 1 end)%Z
    | Raised e => Uncaught (Propagated e)
    end
  /\ opened (calls (main fs args))
     = attempted fs (arg_max_length args) analyzers ignore_patterns
         (to_scan fs args).
Proof.
  intros LI LA. unfold main. fold (load_ignore_patterns args).
  rewrite LI, LA.
  rewrite value_bind, calls_bind, opened_app.
  destruct (start_digging_any fs (arg_max_checks args) (arg_max_length args)
              analyzers ignore_patterns (read_lines (arg_include_file args))
              (read_lines (arg_exclude_file args)) (arg_path args)) as [V O].
  fold (candidates fs args) in V, O. fold (to_scan fs args) in V, O.
  rewrite V, O.
  destruct (collect fs (arg_max_length args) analyzers ignore_patterns
              (to_scan fs args) []) as [result|e].
  - cbv iota beta. rewrite value_ret, calls_ret. simpl opened.
    now rewrite app_nil_r.
  - cbv iota beta. rewrite value_ret, calls_ret. simpl opened.
    now rewrite app_nil_r.
Qed.

Lemma main_exit fs args out status :
  value (main fs args) = Exit out status ->
  exists result,
    opened (calls (main fs args)) = to_scan fs args
    /\ (forall f, In f result -> In (f_file f) (to_scan fs args))
    /\ out = report (arg_json args) (arg_max_checks args)
               (Z.of_nat (length (to_scan fs args))) result
    /\ status = (match result with [] => 0 | _ => 1 end)%Z.
Proof.
  intros H.
  destruct (@main_loaded fs args) as (ignore_patterns & analyzers & LI & LA);
    [congruence|].
  destruct (@main_any fs args ignore_patterns analyzers LI LA) as [V O].
  rewrite V in H.
  destruct (collect fs (arg_max_length args) analyzers ignore_patterns
              (to_scan fs args) []) as [result|e] eqn:C; [|discriminate H].
  injection H as <- <-. exists result. repeat split.
  - rewrite O. eapply collect_attempted. exact C.
  - intros f I.
    destruct (@collect_files fs (arg_max_length args) analyzers ignore_patterns
                (to_scan fs args) [] result f C I) as [J|J];
      [destruct J | exact J].
Qed.

Lemma length_to_scan fs args :
  length (to_scan fs args)
  = Nat.min (Z.to_nat (arg_max_checks args + 1)) (length (candidates fs args)).
Proof. unfold to_scan. apply length_firstn. Qed.

Lemma in_report_summary max_checks counter result :
  counter <> 0%Z ->
  In (PrintText (summary max_checks counter result))
    (report false max_checks counter result).
Proof.
  intros N. unfold report.
  destruct (Z.eqb_spec counter 0) as [E|_]; [contradiction|].
  apply in_or_app. right. now left.
Qed.

(** X20. A cut scan is disclosed: in text mode, with a limit that is not
    negative, when the script ends with a report and fewer files were
    opened than are eligible, exactly [max_checks + 1] files were opened
    and the summary line of the report gives that number as the files
    checked and answers the question on the upper limit with Yes. *)
Theorem truncation_is_reported fs args out status :
  value (main fs args) = Exit out status ->
  arg_json args = false ->
  (0 <= arg_max_checks args)%Z ->
  length (opened (calls (main fs args))) < length (candidates fs args) ->
  Z.of_nat (length (opened (calls (main fs args))))
  = (arg_max_checks args + 1)%Z
  /\ exists found,
       In (PrintText ("Found: " ++ found ++ " | Files Checked: "
                  ++ str_int (arg_max_checks args + 1)
                  ++ " | (Hit Upper Limit? Yes)")) out.
Proof.
  intros H J M T.
  destruct (main_exit fs args H) as (result & O & _ & -> & _).
  rewrite O in *. rewrite length_to_scan in *.
  assert (E : Z.of_nat
                (Nat.min (Z.to_nat (arg_max_checks args + 1))
                   (length (candidates fs args)))
              = (arg_max_checks args + 1)%Z) by lia.
  split; [exact E|].
  exists (str_int (Z.of_nat (length result))).
  rewrite J, E.
  pose proof (@in_report_summary (arg_max_checks args)
                (arg_max_checks args + 1)%Z result) as I.
  unfold summary in I.
  replace (arg_max_checks args + 1 >=? arg_max_checks args)%Z with true in I
    by (symmetry; apply Z.geb_le; lia).
  apply I. lia.
Qed.

Lemma truncation_is_reported_witness :
  (value (main five_files (run_limited "src" 2))
   = Exit (report false 2 3 [finding_a; finding_c]) 1
   /\ arg_json (run_limited "src" 2) = false
   /\ (0 <= arg_max_checks (run_limited "src" 2))%Z
   /\ length (opened (calls (main five_files (run_limited "src" 2))))
      < length (candidates five_files (run_limited "src" 2)))
  /\ Z.of_nat (length (opened (calls (main five_files (run_limited "src" 2)))))
     = (arg_max_checks (run_limited "src" 2) + 1)%Z
  /\ exists found,
       In (PrintText ("Found: " ++ found ++ " | Files Checked: "
                  ++ str_int (arg_max_checks (run_limited "src" 2) + 1)
                  ++ " | (Hit Upper Limit? Yes)"))
         (report false 2 3 [finding_a; finding_c]).
Proof.
  assert (H : value (main five_files (run_limited "src" 2))
              = Exit (report false 2 3 [finding_a; finding_c]) 1)
    by (vm_compute; reflexivity).
  assert (J : arg_json (run_limited "src" 2) = false) by reflexivity.
  assert (M : (0 <= arg_max_checks (run_limited "src" 2))%Z)
    by (vm_compute; discriminate).
  assert (T : length (opened (calls (main five_files (run_limited "src" 2))))
              < length (candidates five_files (run_limited "src" 2)))
    by (vm_compute; lia).
  split; [repeat split; assumption|].
  exact (@truncation_is_reported _ _ _ _ H J M T).
Defined.

(** X21. The answer on the upper limit without a cut: in text mode, when
    the eligible files are at most [max_checks + 1] and at least one, the
    script opens every eligible file, and the summary line answers Yes
    exactly when there are at least [max_checks] of them. With exactly
    [max_checks] or [max_checks + 1] eligible files the answer is Yes
    although no file was left out. *)
Theorem limit_flag_without_truncation fs args out status :
  value (main fs args) = Exit out status ->
  arg_json args = false ->
  candidates fs args <> [] ->
  (Z.of_nat (length (candidates fs args)) <= arg_max_checks args + 1)%Z ->
  opened (calls (main fs args)) = candidates fs args
  /\ exists found,
       In (PrintText ("Found: " ++ found ++ " | Files Checked: "
                  ++ str_int (Z.of_nat (length (candidates fs args)))
                  ++ " | (Hit Upper Limit? "
                  ++ (if (arg_max_checks args
                          <=? Z.of_nat (length (candidates fs args)))%Z
                      then "Yes" else "No")
                  ++ ")")) out.
Proof.
  intros H J N L.
  destruct (main_exit fs args H) as (result & O & _ & -> & _).
  assert (S : to_scan fs args = candidates fs args).
  { unfold to_scan. apply firstn_all2. lia. }
  rewrite S in *. split; [exact O|].
  exists (str_int (Z.of_nat (length result))).
  rewrite J.
  pose proof (@in_report_summary (arg_max_checks args)
                (Z.of_nat (length (candidates fs args))) result) as I.
  unfold summary in I.
  replace (Z.of_nat (length (candidates fs args)) >=? arg_max_checks args)%Z
    with (arg_max_checks args <=? Z.of_nat (length (candidates fs args)))%Z in I
    by (rewrite Z.geb_leb; reflexivity).
  apply I. destruct (candidates fs args); [congruence | simpl; lia].
Qed.

Lemma limit_flag_without_truncation_witness :
  (value (main five_files (run_limited "src" 5))
   = Exit (report false 5 5 [finding_a; finding_c; finding_e]) 1
   /\ arg_json (run_limited "src" 5) = false
   /\ candidates five_files (run_limited "src" 5) <> []
   /\ (Z.of_nat (length (candidates five_files (run_limited "src" 5)))
       <= arg_max_checks (run_limited "src" 5) + 1)%Z)
  /\ opened (calls (main five_files (run_limited "src" 5)))
     = candidates five_files (run_limited "src" 5)
  /\ exists found,
       In (PrintText ("Found: " ++ found ++ " | Files Checked: "
                  ++ str_int
                       (Z.of_nat
                          (length (candidates five_files
                                     (run_limited "src" 5))))
                  ++ " | (Hit Upper Limit? "
                  ++ (if (arg_max_checks (run_limited "src" 5)
                          <=? Z.of_nat
                                (length (candidates five_files
                                           (run_limited "src" 5))))%Z
                      then "Yes" else "No")
                  ++ ")"))
         (report false 5 5 [finding_a; finding_c; finding_e]).
Proof.
  assert (H : value (main five_files (run_limited "src" 5))
              = Exit (report false 5 5 [finding_a; finding_c; finding_e]) 1)
    by (vm_compute; reflexivity).
  assert (J : arg_json (run_limited "src" 5) = false) by reflexivity.
  assert (N : candidates five_files (run_limited "src" 5) <> [])
    by (vm_compute; discriminate).
  assert (L : (Z.of_nat (length (candidates five_files (run_limited "src" 5)))
               <= arg_max_checks (run_limited "src" 5) + 1)%Z)
    by (vm_compute; discriminate).
  split; [repeat split; assumption|].
  exact (@limit_flag_without_truncation _ _ _ _ H J N L).
Defined.

(** X22. Nothing examined: in text mode, when no file is eligible or the
    limit is negative, the script opens no file, prints the two lines
    No file found. and STATUS: FAILED, and ends with exit status 0. *)
Theorem nothing_examined_exits_with_zero fs args out status :
  value (main fs args) = Exit out status ->
  arg_json args = false ->
  candidates fs args = [] \/ (arg_max_checks args < 0)%Z ->
  opened (calls (main fs args)) = []
  /\ out = [PrintText "No file found."; PrintText "STATUS: FAILED"]
  /\ status = 0%Z.
Proof.
  intros H J E.
  destruct (main_exit fs args H) as (result & O & F & -> & ->).
  assert (S : to_scan fs args = []).
  { unfold to_scan. destruct E as [E|E].
    - rewrite E. apply firstn_nil.
    - replace (Z.to_nat (arg_max_checks args + 1)) with 0 by lia. reflexivity. }
  rewrite S in *. rewrite J.
  assert (R : result = []).
  { destruct result as [|f rest]; [reflexivity|].
    destruct (F f (or_introl eq_refl)). }
  subst result. now repeat split.
Qed.

Lemma nothing_examined_exits_with_zero_witness :
  (value (main five_files (run_limited "src" (-1)))
   = Exit [PrintText "No file found."; PrintText "STATUS: FAILED"] 0
   /\ arg_json (run_limited "src" (-1)) = false
   /\ (candidates five_files (run_limited "src" (-1)) = []
       \/ (arg_max_checks (run_limited "src" (-1)) < 0)%Z))
  /\ opened (calls (main five_files (run_limited "src" (-1)))) = []
  /\ [PrintText "No file found."; PrintText "STATUS: FAILED"]
     = [PrintText "No file found."; PrintText "STATUS: FAILED"]
  /\ 0%Z = 0%Z.
Proof.
  assert (H : value (main five_files (run_limited "src" (-1)))
              = Exit [PrintText "No file found."; PrintText "STATUS: FAILED"] 0)
    by (vm_compute; reflexivity).
  assert (J : arg_json (run_limited "src" (-1)) = false) by reflexivity.
  assert (E : candidates five_files (run_limited "src" (-1)) = []
              \/ (arg_max_checks (run_limited "src" (-1)) < 0)%Z)
    by (right; vm_compute; reflexivity).
  split; [repeat split; assumption|].
  exact (@nothing_examined_exits_with_zero _ _ _ _ H J E).
Defined.

Lemma last_app_two (A : Type) (l : list A) (a b d : A) :
  last (l ++ [a; b]) d = b.
Proof.
  induction l as [|x l IH]; [reflexivity|].
  simpl app. destruct l as [|y l]; [reflexivity|]. exact IH.
Qed.

(** X23. The status line and the exit status agree once a file was
    examined: in text mode, when at least one file was opened, the output
    is, for the counter and the result that the scan gives back, five
    printed lines for each finding of the result, in its order, then the
    summary line and the status line; every finding names an opened file;
    with no finding the status line is STATUS: OK and the exit status 0,
    with a finding it is STATUS: FAILED and the exit status 1. *)
Theorem status_line_agrees_with_exit_status fs args out status :
  value (main fs args) = Exit out status ->
  arg_json args = false ->
  opened (calls (main fs args)) <> [] ->
  exists ignore_patterns analyzers counter result,
    load_ignore_patterns args = Some ignore_patterns
    /\ main_analyzers (read_lines (arg_bad_words args)) = Some analyzers
    /\ value (start_digging fs (arg_path args) (arg_max_checks args)
                (arg_max_length args) analyzers ignore_patterns
                (read_lines (arg_include_file args))
                (read_lines (arg_exclude_file args)))
       = Returned (counter, result)
    /\ out
       = (flat_map report_finding result
          ++ [PrintText (summary (arg_max_checks args) counter result);
              PrintText (status_line result)])%list
    /\ (forall f, In f result -> In (f_file f) (opened (calls (main fs args))))
    /\ (result = [] /\ status = 0%Z
        /\ last out (PrintText EmptyString) = PrintText "STATUS: OK"
        \/ result <> [] /\ status = 1%Z
           /\ last out (PrintText EmptyString) = PrintText "STATUS: FAILED").
Proof.
  intros H J N.
  destruct (@main_loaded fs args) as (ignore_patterns & analyzers & LI & LA);
    [congruence|].
  destruct (@main_any fs args ignore_patterns analyzers LI LA) as [V O].
  destruct (start_digging_any fs (arg_max_checks args) (arg_max_length args)
              analyzers ignore_patterns (read_lines (arg_include_file args))
              (read_lines (arg_exclude_file args)) (arg_path args))
    as [SV _].
  fold (candidates fs args) in SV. fold (to_scan fs args) in SV.
  rewrite V in H.
  destruct (collect fs (arg_max_length args) analyzers ignore_patterns
              (to_scan fs args) []) as [result|e] eqn:C; [|discriminate H].
  injection H as <- <-.
  rewrite (@collect_attempted fs (arg_max_length args) analyzers
             ignore_patterns (to_scan fs args) [] result C) in O.
  exists ignore_patterns, analyzers, (Z.of_nat (length (to_scan fs args))),
    result.
  split; [exact LI|]. split; [exact LA|]. split; [exact SV|].
  rewrite J, O. unfold report.
  destruct (Z.eqb_spec (Z.of_nat (length (to_scan fs args))) 0) as [E|_].
  { rewrite O in N. destruct (to_scan fs args); [congruence | simpl in E; lia]. }
  split; [reflexivity|]. split.
  - intros f I.
    destruct (@collect_files fs (arg_max_length args) analyzers
                ignore_patterns (to_scan fs args) [] result f C I) as [K|K];
      [destruct K | exact K].
  - rewrite last_app_two. destruct result as [|f rest].
    + left. now repeat split.
    + right. repeat split. discriminate.
Qed.

Lemma status_line_agrees_with_exit_status_witness :
  (value (main five_files (run_defaults "src"))
   = Exit (report false 9223372036854775807 5
             [finding_a; finding_c; finding_e]) 1
   /\ arg_json (run_defaults "src") = false
   /\ opened (calls (main five_files (run_defaults "src"))) <> [])
  /\ exists ignore_patterns analyzers counter result,
       load_ignore_patterns (run_defaults "src") = Some ignore_patterns
       /\ main_analyzers (read_lines (arg_bad_words (run_defaults "src")))
          = Some analyzers
       /\ value (start_digging five_files (arg_path (run_defaults "src"))
                   (arg_max_checks (run_defaults "src"))
                   (arg_max_length (run_defaults "src")) analyzers
                   ignore_patterns
                   (read_lines (arg_include_file (run_defaults "src")))
                   (read_lines (arg_exclude_file (run_defaults "src"))))
          = Returned (counter, result)
       /\ report false 9223372036854775807 5 [finding_a; finding_c; finding_e]
          = (flat_map report_finding result
             ++ [PrintText
                   (summary (arg_max_checks (run_defaults "src")) counter
                      result);
                 PrintText (status_line result)])%list
       /\ (forall f, In f result ->
                     In (f_file f)
                       (opened (calls (main five_files (run_defaults "src")))))
       /\ (result = [] /\ 1%Z = 0%Z
           /\ last (report false 9223372036854775807 5
                      [finding_a; finding_c; finding_e])
                (PrintText EmptyString)
              = PrintText "STATUS: OK"
           \/ result <> [] /\ 1%Z = 1%Z
              /\ last (report false 9223372036854775807 5
                         [finding_a; finding_c; finding_e])
                   (PrintText EmptyString)
                 = PrintText "STATUS: FAILED").
Proof.
  assert (H : value (main five_files (run_defaults "src"))
              = Exit (report false 9223372036854775807 5
                        [finding_a; finding_c; finding_e]) 1)
    by (vm_compute; reflexivity).
  assert (J : arg_json (run_defaults "src") = false) by reflexivity.
  assert (N : opened (calls (main five_files (run_defaults "src"))) <> [])
    by (vm_compute; discriminate).
  split; [repeat split; assumption|].
  exact (@status_line_agrees_with_exit_status _ _ _ _ H J N).
Defined.

(* ------------------------------------------------------------------ *)
(** ** The script: files of words *)

Lemma splitlines_from_line word :
  all_chars no_linebreak word = true ->
  forall cur more,
    splitlines_from cur (word ++ String newline more)
    = cur word :: splitlines more.
Proof.
  induction word as [|c word IH]; intros N cur more.
  - simpl. now destruct more.
  - simpl in N. apply andb_true_iff in N. destruct N as [Nc N].
    unfold no_linebreak in Nc. apply negb_true_iff in Nc.
    simpl. rewrite Nc.
    exact (IH N (fun t => cur (String c t)) more).
Qed.

Lemma splitlines_from_last word :
  all_chars no_linebreak word = true ->
  forall cur,
    splitlines_from cur word
    = match cur word with EmptyString => [] | l => [l] end.
Proof.
  induction word as [|c word IH]; intros N cur.
  - reflexivity.
  - simpl in N. apply andb_true_iff in N. destruct N as [Nc N].
    unfold no_linebreak in Nc. apply negb_true_iff in Nc.
    simpl. rewrite Nc.
    exact (IH N (fun t => cur (String c t))).
Qed.

Lemma one_per_line_app words :
  forall last, one_per_line words ++ last
               = match words with
                 | [] => last
                 | word :: rest =>
                     word ++ String newline (one_per_line rest ++ last)
                 end.
Proof.
  destruct words as [|word rest]; intros last; [reflexivity|].
  simpl. now rewrite append_assoc.
Qed.

(** X24. Files of words load to their lines: the script reads the files
    of keywords and of globs with read and splitlines, so a file that
    holds one word on each line, each ended by a newline, loads to exactly
    those words, an empty line giving an empty word; text after the last
    newline is one more word. The words are any texts without a
    line-break character. *)
Theorem word_file_round_trip words last :
  forallb (all_chars no_linebreak) words = true ->
  all_chars no_linebreak last = true ->
  read_lines (Some (one_per_line words)) = words
  /\ read_lines (Some (one_per_line words ++ last))
     = (words ++ match last with EmptyString => [] | _ => [last] end)%list.
Proof.
  intros W L. unfold read_lines.
  assert (G : forall tail,
             all_chars no_linebreak tail = true ->
             splitlines (one_per_line words ++ tail)
             = (words ++ match tail with EmptyString => [] | _ => [tail] end)
                 %list).
  { induction words as [|word rest IH]; intros tail T.
    - simpl. unfold splitlines. rewrite (@splitlines_from_last tail T).
      now destruct tail.
    - simpl in W. apply andb_true_iff in W. destruct W as [Ww W].
      rewrite one_per_line_app. unfold splitlines at 1.
      rewrite (@splitlines_from_line word Ww). simpl app. f_equal.
      now apply IH. }
  split.
  - rewrite <- (append_nil_r (one_per_line words)).
    rewrite (G EmptyString eq_refl). apply app_nil_r.
  - now apply G.
Qed.

Lemma word_file_round_trip_witness :
  (forallb (all_chars no_linebreak) ["token"; EmptyString; "api key"] = true
   /\ all_chars no_linebreak "secret" = true)
  /\ read_lines (Some (one_per_line ["token"; EmptyString; "api key"]))
     = ["token"; EmptyString; "api key"]
  /\ read_lines (Some (one_per_line ["token"; EmptyString; "api key"] ++ "secret"))
     = (["token"; EmptyString; "api key"] ++ ["secret"])%list.
Proof.
  split; [split; reflexivity|].
  exact (@word_file_round_trip ["token"; EmptyString; "api key"] "secret" eq_refl
           eq_refl).
Defined.

(* ------------------------------------------------------------------ *)
(** ** The script: unreadable files *)

Lemma handler_raises fs path max_length analyzers patterns e :
  value (check_file_handler fs path max_length analyzers patterns) = Raised e
  <-> e = OSError /\ unreadable fs path.
Proof.
  rewrite check_file_handler_any. unfold unreadable. split.
  - destruct (open_ fs path) as [handler|[|]] eqn:O.
    + destruct (fault_of handler) as [[|]|] eqn:F; try discriminate.
      intros [= <-]. split; [reflexivity|]. right. now exists handler.
    + discriminate.
    + intros [= <-]. split; [reflexivity|]. now left.
  - intros (-> & [O|(handler & O & F)]); rewrite O; [reflexivity|].
    now rewrite F.
Qed.

Lemma collect_raised fs max_length analyzers patterns paths :
  forall result,
    (forall e,
        collect fs max_length analyzers patterns paths result = Raised e ->
        e = OSError)
    /\ ((exists path, In path paths /\ unreadable fs path)
        <-> collect fs max_length analyzers patterns paths result
            = Raised OSError).
Proof.
  induction paths as [|path rest IH]; intros result.
  - simpl. split; [discriminate|]. split; [now intros (p & [] & _)|discriminate].
  - simpl.
    destruct (value (check_file_handler fs path max_length analyzers patterns))
      as [more|e] eqn:V.
    + destruct (IH (result ++ more)%list) as [A B]. split; [exact A|].
      rewrite <- B. split.
      * intros (p & [<-|I] & U); [|now exists p].
        assert (V' : value (check_file_handler fs path max_length analyzers
                              patterns) = Raised OSError)
          by now apply handler_raises.
        congruence.
      * intros (p & I & U). exists p. split; [now right | exact U].
    + apply handler_raises in V. destruct V as [-> U]. split.
      * now intros e [= <-].
      * split; [reflexivity|]. intros _. exists path. split; [now left|exact U].
Qed.

(** X25. An unreadable file ends the script without a report: when the
    patterns compile, the script ends with an uncaught OSError exactly
    when one of the files it is to scan does not open or stops being
    readable, whatever the other files hold; nothing is then printed and
    no exit status is chosen. No other exception comes out of the
    scan. *)
Theorem unreadable_file_ends_the_script fs args :
  value (main fs args) <> Uncaught ReError ->
  ((exists path, In path (to_scan fs args) /\ unreadable fs path)
   <-> value (main fs args) = Uncaught (Propagated OSError))
  /\ (forall e, value (main fs args) = Uncaught (Propagated e) -> e = OSError).
Proof.
  intros H.
  destruct (@main_loaded fs args H) as (ignore_patterns & analyzers & LI & LA).
  destruct (@main_any fs args ignore_patterns analyzers LI LA) as [V _].
  destruct (@collect_raised fs (arg_max_length args) analyzers ignore_patterns
              (to_scan fs args) []) as [A B].
  rewrite V, B.
  destruct (collect fs (arg_max_length args) analyzers ignore_patterns
              (to_scan fs args) []) as [result|e].
  - split; [split; discriminate | discriminate].
  - split.
    + split; [now intros [= ->] | now intros [= ->]].
    + intros e' [= <-]. now apply A.
Qed.

Lemma unreadable_file_ends_the_script_witness :
  value (main unreadable_second (run_defaults "src")) <> Uncaught ReError
  /\ ((exists path,
         In path (to_scan unreadable_second (run_defaults "src"))
         /\ unreadable unreadable_second path)
      <-> value (main unreadable_second (run_defaults "src"))
          = Uncaught (Propagated OSError))
  /\ (forall e,
        value (main unreadable_second (run_defaults "src"))
        = Uncaught (Propagated e) ->
        e = OSError).
Proof.
  assert (H : value (main unreadable_second (run_defaults "src"))
              <> Uncaught ReError) by (vm_compute; discriminate).
  split; [exact H|].
  exact (@unreadable_file_ends_the_script _ _ H).
Defined.

(* ------------------------------------------------------------------ *)
(** ** A star among the globs to exclude *)

Lemma star_any_char name : star_of (lang any_char) name.
Proof.
  induction name as [|c name IH]; [constructor|].
  change (String c name) with (String c EmptyString ++ name).
  constructor; [|exact IH]. simpl. now exists c.
Qed.

Lemma fnmatch_star name : fnmatch name "*" = true.
Proof.
  unfold fnmatch.
  assert (M : matches (translate "*") 0 name (0 + String.length name)
                EmptyString).
  { apply (@matches_lang (translate "*") eq_refl).
    exists name. split; [now rewrite append_nil_r|]. split; [reflexivity|].
    exists name, EmptyString. split; [now rewrite append_nil_r|].
    split; [apply star_any_char | reflexivity]. }
  apply run_complete in M. destruct M as [M _].
  specialize (M unit (fun _ rest => match rest with
                                    | EmptyString => Some tt
                                    | _ => None
                                    end)).
  destruct (run (translate "*") 0 name _); [reflexivity|].
  exfalso. apply M; [discriminate | reflexivity].
Qed.

(** X26. A lone star among the globs to exclude rejects every path: the
    star matches any name, slashes and newlines included, so the path
    filter accepts no path, whatever the globs to include, and the
    scanner opens no file and gives back the counter 0 and no finding. *)
Theorem exclude_star_scans_nothing fs root_path limit max_length analyzers
  patterns include_paths exclude_paths :
  In "*" exclude_paths ->
  (forall path,
      value (can_analyze_file include_paths exclude_paths path) = false)
  /\ value (start_digging fs root_path limit max_length analyzers patterns
              include_paths exclude_paths)
     = Returned (0%Z, [])
  /\ opened (calls (start_digging fs root_path limit max_length analyzers
                      patterns include_paths exclude_paths))
     = [].
Proof.
  intros I.
  assert (R : forall path, accepted include_paths exclude_paths path = false).
  { intros path. unfold accepted.
    replace (existsb (fnmatch path) exclude_paths) with true;
      [apply andb_false_r|].
    symmetry. apply existsb_exists. exists "*". split; [exact I|].
    apply fnmatch_star. }
  assert (E : forall paths, eligible include_paths exclude_paths paths = []).
  { induction paths as [|p paths IH]; [reflexivity|].
    unfold eligible in *. simpl. now rewrite R. }
  split; [intros path; rewrite can_analyze_file_value; apply R|].
  destruct (start_digging_any fs limit max_length analyzers patterns
              include_paths exclude_paths root_path) as [V O].
  rewrite E, firstn_nil in V, O. now split.
Qed.

Lemma exclude_star_scans_nothing_witness :
  In "*" ["*.md"; "*"]
  /\ (forall path,
        value (can_analyze_file ["*.py"] ["*.md"; "*"] path) = false)
  /\ value (start_digging five_files "src" 10 1000 default_analyzers []
              ["*.py"] ["*.md"; "*"])
     = Returned (0%Z, [])
  /\ opened (calls (start_digging five_files "src" 10 1000 default_analyzers
                      [] ["*.py"] ["*.md"; "*"]))
     = [].
Proof.
  assert (I : In "*" ["*.md"; "*"]) by (right; left; reflexivity).
  split; [exact I|].
  exact (@exclude_star_scans_nothing five_files "src" 10 1000
           default_analyzers [] ["*.py"] ["*.md"; "*"] I).
Defined.
